(** * A shallow embedding of the Mailchimp API client ([client.go])

    The client is one Go file.  Its own code (the [Client] and
    [ErrorResponse] structs, [NewClient], [GetBaseURL], [SetBaseURL],
    [Subscribe], [do] and [checkResponse]) is embedded function by function.
    The standard-library routines it calls are embedded next to it, each
    under the name of the Go routine it stands for ([strings_Split],
    [fmt_Sprintf], [url_Parse], [json_Unmarshal], ...).

    Conventions.
    - A Go [string] and a Go [[]byte] are sequences of 8-bit bytes; both are
      Rocq [string]s, whose characters are 8-bit [ascii] values.  A slice
      that may be [nil] is an [option string].
    - A Go [int] is a [Z]; the 64-bit range is written out where the code
      checks it (number decoding).
    - The client's functions that return [(T, error)] return a pair
      [(option T * option error)], where [None] is [nil]; a library routine
      that returns either a value or an error returns a sum [T + error].
    - A pointer receiver that is mutated ([SetBaseURL]) is state passing.
    - [*http.Client] values are handles; what a transport answers, and how
      dynamic values are encoded and decoded, is given by the class
      [Collaborators].
    - The body of a response is read at most once on every path of the
      client, so a response carries the bytes of its body.  The state that
      [checkResponse] touches is written out in [checkResponse_stored]: a
      body is a stream of a store, which reading drains, and an
      [ErrorResponse] is a cell of the store behind a pointer. *)

From Stdlib Require Import ZArith Lia String Ascii List DecimalString.
From Stdlib Require Import DecimalFacts DecimalPos.
From stdpp Require Import gmap strings list.

Local Open Scope Z_scope.

(** ** Bytes *)

Definition code (c : ascii) : Z := Z.of_N (N_of_ascii c).

Definition byte_of (z : Z) : ascii := ascii_of_N (Z.to_N (z mod 256)).

Definition between (lo hi : Z) (c : ascii) : bool :=
  (lo <=? code c) && (code c <=? hi).

Definition is_digit (c : ascii) : bool := between 48 57 c.
Definition is_lower (c : ascii) : bool := between 97 122 c.
Definition is_upper (c : ascii) : bool := between 65 90 c.
Definition is_alpha (c : ascii) : bool := is_lower c || is_upper c.

Definition ascii_eqb (a b : ascii) : bool := Ascii.eqb a b.

(** The double-quote byte. *)
Definition quote_byte : ascii := byte_of 34.

(** Membership of a byte in a literal set of bytes. *)
Fixpoint byte_in (c : ascii) (set : string) : bool :=
  match set with
  | EmptyString => false
  | String d rest => ascii_eqb c d || byte_in c rest
  end.

Definition ishex (c : ascii) : bool :=
  is_digit c || between 97 102 c || between 65 70 c.

Definition unhex (c : ascii) : Z :=
  if is_digit c then code c - 48
  else if between 97 102 c then code c - 97 + 10
  else if between 65 70 c then code c - 65 + 10
  else 0.

Definition upperhex (n : Z) : ascii :=
  if n <? 10 then byte_of (48 + n) else byte_of (65 + n - 10).

(** ** Package [unicode/utf8] *)

Definition RuneError : Z := 65533.

Definition is_cont (c : ascii) : bool := between 128 191 c.

(** [utf8.DecodeRuneInString]: the first rune of [s] and its width in
    bytes; an invalid or truncated sequence gives [(RuneError, 1)], the
    empty string [(RuneError, 0)]. *)
Definition utf8_DecodeRune (s : string) : Z * nat :=
  match s with
  | EmptyString => (RuneError, 0%nat)
  | String b0 s1 =>
    let c0 := code b0 in
    if c0 <? 128 then (c0, 1%nat)
    else if between 194 223 b0 then
      match s1 with
      | String b1 _ =>
        if is_cont b1 then ((c0 - 192) * 64 + (code b1 - 128), 2%nat)
        else (RuneError, 1%nat)
      | _ => (RuneError, 1%nat)
      end
    else if between 224 239 b0 then
      match s1 with
      | String b1 (String b2 _) =>
        let lo := if c0 =? 224 then 160 else 128 in
        let hi := if c0 =? 237 then 159 else 191 in
        if between lo hi b1 && is_cont b2 then
          ((c0 - 224) * 4096 + (code b1 - 128) * 64 + (code b2 - 128), 3%nat)
        else (RuneError, 1%nat)
      | _ => (RuneError, 1%nat)
      end
    else if between 240 244 b0 then
      match s1 with
      | String b1 (String b2 (String b3 _)) =>
        let lo := if c0 =? 240 then 144 else 128 in
        let hi := if c0 =? 244 then 143 else 191 in
        if between lo hi b1 && is_cont b2 && is_cont b3 then
          ((c0 - 240) * 262144 + (code b1 - 128) * 4096
           + (code b2 - 128) * 64 + (code b3 - 128), 4%nat)
        else (RuneError, 1%nat)
      | _ => (RuneError, 1%nat)
      end
    else (RuneError, 1%nat)
  end.

(** [utf8.EncodeRune] (as [utf8.AppendRune] on an empty buffer): surrogates
    and values out of range are encoded as [RuneError]. *)
Definition utf8_EncodeRune (r : Z) : string :=
  let enc3 (r : Z) :=
    String (byte_of (224 + r / 4096))
      (String (byte_of (128 + (r / 64) mod 64))
         (String (byte_of (128 + r mod 64)) EmptyString)) in
  if (0 <=? r) && (r <? 128) then String (byte_of r) EmptyString
  else if (0 <=? r) && (r <? 2048) then
    String (byte_of (192 + r / 64))
      (String (byte_of (128 + r mod 64)) EmptyString)
  else if (r <? 0) || (1114111 <? r) || ((55296 <=? r) && (r <=? 57343)) then
    enc3 RuneError
  else if r <? 65536 then enc3 r
  else
    String (byte_of (240 + r / 262144))
      (String (byte_of (128 + (r / 4096) mod 64))
         (String (byte_of (128 + (r / 64) mod 64))
            (String (byte_of (128 + r mod 64)) EmptyString))).

(** ** Package [strings] *)

Fixpoint strings_Count1 (s : string) (sep : ascii) : nat :=
  match s with
  | EmptyString => 0%nat
  | String c rest =>
    ((if ascii_eqb c sep then 1 else 0) + strings_Count1 rest sep)%nat
  end.

Definition strings_HasPrefix (s pre : string) : bool := String.prefix pre s.

Fixpoint strings_Contains1 (s : string) (c : ascii) : bool :=
  match s with
  | EmptyString => false
  | String d rest => ascii_eqb c d || strings_Contains1 rest c
  end.

(** [strings.Cut(s, sep)] for a one-byte separator: the text before and
    after the first [sep], and whether [sep] occurs. *)
Fixpoint strings_Cut1 (s : string) (sep : ascii) : string * string * bool :=
  match s with
  | EmptyString => (EmptyString, EmptyString, false)
  | String c rest =>
    if ascii_eqb c sep then (EmptyString, rest, true)
    else
      let '(before, after, found) := strings_Cut1 rest sep in
      (String c before, after, found)
  end.

(** The text before and after the last [sep] ([strings.LastIndex] followed
    by the two slicings [s[:i]] and [s[i+1:]]); [None] when [sep] does not
    occur. *)
Fixpoint cut_last (s : string) (sep : ascii) : option (string * string) :=
  match s with
  | EmptyString => None
  | String c rest =>
    match cut_last rest sep with
    | Some (before, after) => Some (String c before, after)
    | None => if ascii_eqb c sep then Some (EmptyString, rest) else None
    end
  end.

Fixpoint strings_ToLower (s : string) : string :=
  match s with
  | EmptyString => EmptyString
  | String c rest =>
    String (if is_upper c then byte_of (code c + 32) else c)
           (strings_ToLower rest)
  end.

(** [explode]: what [strings.Split] does for an empty separator, one
    element per UTF-8 sequence (one per byte where the text is not valid
    UTF-8), none at all for the empty string.  [pending] counts the bytes
    of the current sequence that are still to be copied. *)
Fixpoint explode (pending : nat) (s : string) : list string :=
  match s with
  | EmptyString => []
  | String c rest =>
    let width := match pending with
                 | O => snd (utf8_DecodeRune s)
                 | _ => pending
                 end in
    match width with
    | S (S k) =>
      match explode (S k) rest with
      | h :: t => String c h :: t
      | [] => [String c EmptyString]
      end
    | _ => String c EmptyString :: explode 0 rest
    end
  end.

(** [genSplit]: the substrings between the non-overlapping occurrences of
    a non-empty [sep], found from left to right.  [skip] counts the bytes
    of an occurrence that are still to be dropped. *)
Fixpoint genSplit (sep : string) (skip : nat) (s : string) : list string :=
  match s with
  | EmptyString => [EmptyString]
  | String c rest =>
    match skip with
    | S k => genSplit sep k rest
    | O =>
      if String.prefix sep s
      then EmptyString :: genSplit sep (String.length sep - 1) rest
      else
        match genSplit sep 0 rest with
        | h :: t => String c h :: t
        | [] => [String c EmptyString]
        end
    end
  end.

(** [strings.Split(s, sep)]. *)
Definition strings_Split (s sep : string) : list string :=
  match sep with
  | EmptyString => explode 0 s
  | _ => genSplit sep 0 s
  end.

(** [strings.Join(parts, sep)]. *)
Fixpoint strings_Join (parts : list string) (sep : string) : string :=
  match parts with
  | [] => EmptyString
  | [p] => p
  | p :: rest => p +:+ sep +:+ strings_Join rest sep
  end.

(** ** Package [strconv] *)

(** [strconv.Itoa]: decimal digits, with a leading minus sign for negative
    numbers. *)
Definition strconv_Itoa (n : Z) : string := NilZero.string_of_int (Z.to_int n).

Fixpoint all_digits (s : string) : bool :=
  match s with
  | EmptyString => true
  | String c rest => is_digit c && all_digits rest
  end.

Fixpoint digits_value (acc : Z) (s : string) : Z :=
  match s with
  | EmptyString => acc
  | String c rest => digits_value (10 * acc + (code c - 48)) rest
  end.

(** [strconv.ParseInt(s, 10, 64)]: an optional sign and one or more
    decimal digits, in the range of a signed 64-bit integer; [None] stands
    for both [ErrSyntax] and [ErrRange]. *)
Definition strconv_ParseInt64 (s : string) : option Z :=
  let '(neg, body) :=
    match s with
    | String c rest =>
      if ascii_eqb c "-" then (true, rest)
      else if ascii_eqb c "+" then (false, rest)
      else (false, s)
    | EmptyString => (false, s)
    end in
  match body with
  | EmptyString => None
  | _ =>
    if all_digits body then
      let v := digits_value 0 body in
      let n := if neg then - v else v in
      if (- 2 ^ 63 <=? n) && (n <=? 2 ^ 63 - 1) then Some n else None
    else None
  end.

(** ** Package [fmt] *)

(** The operands the client passes to [fmt.Sprintf]. *)
Inductive fmt_arg :=
| AInt (n : Z)
| AString (s : string).

Definition fmt_arg_type (a : fmt_arg) : string :=
  match a with AInt _ => "int" | AString _ => "string" end.

Definition fmt_arg_value (a : fmt_arg) : string :=
  match a with AInt n => strconv_Itoa n | AString s => s end.

Fixpoint fmt_extra (args : list fmt_arg) : string :=
  match args with
  | [] => EmptyString
  | [a] => fmt_arg_type a +:+ "=" +:+ fmt_arg_value a
  | a :: rest =>
    fmt_arg_type a +:+ "=" +:+ fmt_arg_value a +:+ ", " +:+ fmt_extra rest
  end.

(** [fmt.Sprintf] for the formats of the client: literal text, [%%], and
    the verbs [%s] on a string and [%d] on an int, without flags.  A verb
    with no operand left, an operand of the other kind, a lone [%] at the
    end and operands left over are rendered with [fmt]'s [%!] markers;
    none of them arises with the literal formats below.  [pct] is true
    right after a [%]. *)
Fixpoint fmt_Sprintf_aux (pct : bool) (format : string) (args : list fmt_arg)
  : string :=
  match format with
  | EmptyString =>
    (if pct then "%!(NOVERB)" else EmptyString)
    +:+ match args with
        | [] => EmptyString
        | _ => "%!(EXTRA " +:+ fmt_extra args +:+ ")"
        end
  | String c rest =>
    if pct then
      if ascii_eqb c "%" then String c (fmt_Sprintf_aux false rest args)
      else
        match args with
        | [] =>
          "%!" +:+ String c "(MISSING)" +:+ fmt_Sprintf_aux false rest []
        | a :: args' =>
          (match a with
           | AString s =>
             if ascii_eqb c "s" then s
             else "%!" +:+ String c "(string=" +:+ s +:+ ")"
           | AInt n =>
             if ascii_eqb c "d" then strconv_Itoa n
             else "%!" +:+ String c "(int=" +:+ strconv_Itoa n +:+ ")"
           end) +:+ fmt_Sprintf_aux false rest args'
        end
    else if ascii_eqb c "%" then fmt_Sprintf_aux true rest args
    else String c (fmt_Sprintf_aux false rest args)
  end.

Definition fmt_Sprintf (format : string) (args : list fmt_arg) : string :=
  fmt_Sprintf_aux false format args.

(** ** The client's error value and the errors of the libraries *)

(** [ErrorResponse]: the error body the API sends, with the JSON member
    names of its struct tags. *)
Record ErrorResponse := {
  Type_ : string;     (* `json:"type"` *)
  Title : string;     (* `json:"title"` *)
  Status : Z;         (* `json:"status"` *)
  Detail : string     (* `json:"detail"` *)
}.

(** [new(ErrorResponse)]: every field at its zero value. *)
Definition new_ErrorResponse : ErrorResponse :=
  {| Type_ := EmptyString; Title := EmptyString; Status := 0;
     Detail := EmptyString |}.

(** Go [error] values, one constructor per dynamic type the client can
    hand back.  Messages that the libraries build with quoting verbs are
    kept as their operands. *)
Inductive error :=
| errorString (text : string)                    (* errors.New *)
| url_Error (op url : string) (err : error)      (* *url.Error *)
| url_EscapeError (s : string)
| url_InvalidHostError (s : string)
| url_InvalidPort (colonPort : string)
| http_InvalidMethod (method : string)
| json_SyntaxError (msg : string)
| json_UnmarshalTypeError (value : string)
| ErrorResponse_ptr (e : ErrorResponse).         (* *ErrorResponse *)

(** ** Package [net/url] (as of Go 1.19 and 1.20) *)

Record Userinfo := {
  username : string;
  password : string;
  passwordSet : bool
}.

Record URL := {
  Scheme : string;
  Opaque : string;
  User : option Userinfo;
  Host : string;
  Path : string;
  RawPath : string;
  OmitHost : bool;
  ForceQuery : bool;
  RawQuery : string;
  Fragment : string;
  RawFragment : string
}.

Definition new_URL : URL :=
  {| Scheme := EmptyString; Opaque := EmptyString; User := None;
     Host := EmptyString; Path := EmptyString; RawPath := EmptyString;
     OmitHost := false; ForceQuery := false; RawQuery := EmptyString;
     Fragment := EmptyString; RawFragment := EmptyString |}.

Inductive encoding :=
| encodePath
| encodePathSegment
| encodeHost
| encodeZone
| encodeUserPassword
| encodeQueryComponent
| encodeFragment.

Definition is_host_mode (mode : encoding) : bool :=
  match mode with encodeHost | encodeZone => true | _ => false end.

(** [shouldEscape]: whether byte [c] must be percent-encoded in the part
    of a URL that [mode] names. *)
Definition shouldEscape (c : ascii) (mode : encoding) : bool :=
  if is_alpha c || is_digit c then false
  else if is_host_mode mode && (byte_in c "!$&'()*+,;=:[]<>" || ascii_eqb c quote_byte) then false
  else if byte_in c "-_.~" then false
  else if byte_in c "$&+,/:;=?@" then
    match mode with
    | encodePath => ascii_eqb c "?"
    | encodePathSegment => byte_in c "/;,?"
    | encodeUserPassword => byte_in c "@/?:"
    | encodeQueryComponent => true
    | encodeFragment => false
    | encodeHost | encodeZone => true
    end
  else
    match mode with
    | encodeFragment => negb (byte_in c "!()*")
    | _ => true
    end.

Definition take (n : nat) (s : string) : string := String.substring 0 n s.

Definition drop (n : nat) (s : string) : string :=
  String.substring n (String.length s - n) s.

(** The first pass of [unescape]: every [%] must start a well-formed
    escape, and a host admits neither an escaped ASCII byte (other than
    [%25]) nor a raw byte that [shouldEscape] rejects.  [None] when the
    text passes. *)
Fixpoint unescape_check (s : string) (mode : encoding) : option error :=
  match s with
  | EmptyString => None
  | String c rest =>
    if ascii_eqb c "%" then
      match rest with
      | String h1 (String h2 rest') =>
        if ishex h1 && ishex h2 then
          let esc := String c (String h1 (String h2 EmptyString)) in
          let v := byte_of (unhex h1 * 16 + unhex h2) in
          match mode with
          | encodeHost =>
            if (unhex h1 <? 8) && negb (String.eqb esc "%25")
            then Some (url_EscapeError esc)
            else unescape_check rest' mode
          | encodeZone =>
            if negb (String.eqb esc "%25") && negb (ascii_eqb v " ")
               && shouldEscape v encodeHost
            then Some (url_EscapeError esc)
            else unescape_check rest' mode
          | _ => unescape_check rest' mode
          end
        else Some (url_EscapeError (take 3 s))
      | _ => Some (url_EscapeError (take 3 s))
      end
    else if is_host_mode mode && (code c <? 128) && shouldEscape c encodeHost
    then Some (url_InvalidHostError (String c EmptyString))
    else unescape_check rest mode
  end.

(** The second pass of [unescape], on a text that passed the first. *)
Fixpoint unescape_decode (s : string) (mode : encoding) : string :=
  match s with
  | EmptyString => EmptyString
  | String c rest =>
    if ascii_eqb c "%" then
      match rest with
      | String h1 (String h2 rest') =>
        String (byte_of (unhex h1 * 16 + unhex h2)) (unescape_decode rest' mode)
      | _ => String c (unescape_decode rest mode)
      end
    else if ascii_eqb c "+" then
      String (match mode with encodeQueryComponent => " "%char | _ => c end)
             (unescape_decode rest mode)
    else String c (unescape_decode rest mode)
  end.

Definition unescape (s : string) (mode : encoding) : string * option error :=
  match unescape_check s mode with
  | Some err => (EmptyString, Some err)
  | None => (unescape_decode s mode, None)
  end.

Fixpoint escape (s : string) (mode : encoding) : string :=
  match s with
  | EmptyString => EmptyString
  | String c rest =>
    if shouldEscape c mode then
      match mode with
      | encodeQueryComponent =>
        if ascii_eqb c " " then String "+" (escape rest mode)
        else String "%" (String (upperhex (code c / 16))
                                (String (upperhex (code c mod 16))
                                        (escape rest mode)))
      | _ => String "%" (String (upperhex (code c / 16))
                                (String (upperhex (code c mod 16))
                                        (escape rest mode)))
      end
    else String c (escape rest mode)
  end.

Inductive scheme_scan :=
| SchemeFound (scheme rest : string)
| SchemeNone
| SchemeMissing.

(** The loop of [getScheme]; [first] is true at index 0. *)
Fixpoint getScheme_scan (first : bool) (s : string) : scheme_scan :=
  match s with
  | EmptyString => SchemeNone
  | String c rest =>
    let continue :=
      match getScheme_scan false rest with
      | SchemeFound scheme r => SchemeFound (String c scheme) r
      | other => other
      end in
    if is_alpha c then continue
    else if is_digit c || byte_in c "+-." then
      if first then SchemeNone else continue
    else if ascii_eqb c ":" then
      if first then SchemeMissing else SchemeFound EmptyString rest
    else SchemeNone
  end.

Definition getScheme (rawURL : string) : string * string * option error :=
  match getScheme_scan true rawURL with
  | SchemeFound scheme rest => (scheme, rest, None)
  | SchemeNone => (EmptyString, rawURL, None)
  | SchemeMissing =>
    (EmptyString, EmptyString, Some (errorString "missing protocol scheme"))
  end.

Fixpoint stringContainsCTLByte (s : string) : bool :=
  match s with
  | EmptyString => false
  | String c rest =>
    (code c <? 32) || (code c =? 127) || stringContainsCTLByte rest
  end.

Definition validOptionalPort (port : string) : bool :=
  match port with
  | EmptyString => true
  | String c digits => ascii_eqb c ":" && all_digits digits
  end.

Fixpoint validUserinfo (s : string) : bool :=
  match s with
  | EmptyString => true
  | String c rest =>
    (is_alpha c || is_digit c || byte_in c "-._:~!$&'()*+,;=%@")
    && validUserinfo rest
  end.

(** [strings.Index(s, sub)]. *)
Fixpoint strings_Index (s sub : string) : option nat :=
  if String.prefix sub s then Some 0%nat
  else
    match s with
    | EmptyString => None
    | String _ rest =>
      match strings_Index rest sub with
      | Some i => Some (S i)
      | None => None
      end
    end.

Definition parseHost (host : string) : string * option error :=
  let plain := unescape host encodeHost in
  if strings_HasPrefix host "[" then
    match cut_last host "]" with
    | None => (EmptyString, Some (errorString "missing ']' in host"))
    | Some (inside, colonPort) =>
      if negb (validOptionalPort colonPort)
      then (EmptyString, Some (url_InvalidPort colonPort))
      else
        match strings_Index inside "%25" with
        | Some zone =>
          match unescape (take zone inside) encodeHost with
          | (_, Some err) => (EmptyString, Some err)
          | (host1, None) =>
            match unescape (drop zone inside) encodeZone with
            | (_, Some err) => (EmptyString, Some err)
            | (host2, None) =>
              match unescape (String "]" colonPort) encodeHost with
              | (_, Some err) => (EmptyString, Some err)
              | (host3, None) => (host1 +:+ host2 +:+ host3, None)
              end
            end
          end
        | None => plain
        end
    end
  else
    match cut_last host ":" with
    | Some (_, port) =>
      if negb (validOptionalPort (String ":" port))
      then (EmptyString, Some (url_InvalidPort (String ":" port)))
      else plain
    | None => plain
    end.

Definition parseAuthority (authority : string)
  : option Userinfo * string * option error :=
  let failed err := (None, EmptyString, Some err) in
  match cut_last authority "@" with
  | None =>
    match parseHost authority with
    | (_, Some err) => failed err
    | (host, None) => (None, host, None)
    end
  | Some (userinfo, hostpart) =>
    match parseHost hostpart with
    | (_, Some err) => failed err
    | (host, None) =>
      if negb (validUserinfo userinfo)
      then failed (errorString "net/url: invalid userinfo")
      else if negb (strings_Contains1 userinfo ":") then
        match unescape userinfo encodeUserPassword with
        | (_, Some err) => failed err
        | (name, None) =>
          (Some {| username := name; password := EmptyString;
                   passwordSet := false |}, host, None)
        end
      else
        let '(name, pass, _) := strings_Cut1 userinfo ":" in
        match unescape name encodeUserPassword with
        | (_, Some err) => failed err
        | (name', None) =>
          match unescape pass encodeUserPassword with
          | (_, Some err) => failed err
          | (pass', None) =>
            (Some {| username := name'; password := pass';
                     passwordSet := true |}, host, None)
          end
        end
    end
  end.

(** [URL.setPath]. *)
Definition setPath (u : URL) (p : string) : URL * option error :=
  match unescape p encodePath with
  | (_, Some err) => (u, Some err)
  | (path, None) =>
    let raw := if String.eqb p (escape path encodePath)
               then EmptyString else p in
    ({| Scheme := Scheme u; Opaque := Opaque u; User := User u;
        Host := Host u; Path := path; RawPath := raw;
        OmitHost := OmitHost u; ForceQuery := ForceQuery u;
        RawQuery := RawQuery u; Fragment := Fragment u;
        RawFragment := RawFragment u |}, None)
  end.

(** [URL.setFragment]. *)
Definition setFragment (u : URL) (f : string) : URL * option error :=
  match unescape f encodeFragment with
  | (_, Some err) => (u, Some err)
  | (frag, None) =>
    let raw := if String.eqb f (escape frag encodeFragment)
               then EmptyString else f in
    ({| Scheme := Scheme u; Opaque := Opaque u; User := User u;
        Host := Host u; Path := Path u; RawPath := RawPath u;
        OmitHost := OmitHost u; ForceQuery := ForceQuery u;
        RawQuery := RawQuery u; Fragment := frag;
        RawFragment := raw |}, None)
  end.

Definition strings_HasSuffix1 (s : string) (c : ascii) : bool :=
  match cut_last s c with
  | Some (_, EmptyString) => true
  | _ => false
  end.

(** [parse(rawURL, viaRequest)]: the URL, or the error. *)
Definition url_parse (rawURL : string) (viaRequest : bool) : URL + error :=
  if stringContainsCTLByte rawURL
  then inr (errorString "net/url: invalid control character in URL")
  else if String.eqb rawURL EmptyString && viaRequest
  then inr (errorString "empty url")
  else if String.eqb rawURL "*"
  then inl {| Scheme := EmptyString; Opaque := EmptyString; User := None;
              Host := EmptyString; Path := "*"; RawPath := EmptyString;
              OmitHost := false; ForceQuery := false;
              RawQuery := EmptyString; Fragment := EmptyString;
              RawFragment := EmptyString |}
  else
    match getScheme rawURL with
    | (_, _, Some err) => inr err
    | (scheme0, rest0, None) =>
      let scheme := strings_ToLower scheme0 in
      let '(rest, force, query) :=
        if strings_HasSuffix1 rest0 "?"
           && Nat.eqb (strings_Count1 rest0 "?") 1
        then (take (String.length rest0 - 1) rest0, true, EmptyString)
        else let '(before, after, _) := strings_Cut1 rest0 "?" in
             (before, false, after) in
      let has_scheme := negb (String.eqb scheme EmptyString) in
      let base (opaque : string) (user : option Userinfo) (host : string)
               (omit : bool) :=
        {| Scheme := scheme; Opaque := opaque; User := user; Host := host;
           Path := EmptyString; RawPath := EmptyString; OmitHost := omit;
           ForceQuery := force; RawQuery := query;
           Fragment := EmptyString; RawFragment := EmptyString |} in
      let with_path (u : URL) (p : string) : URL + error :=
        match setPath u p with
        | (_, Some err) => inr err
        | (u', None) => inl u'
        end in
      if negb (strings_HasPrefix rest "/") && has_scheme
      then inl (base rest None EmptyString false)
      else if negb (strings_HasPrefix rest "/") && viaRequest
      then inr (errorString "invalid URI for request")
      else if negb (strings_HasPrefix rest "/")
              && strings_Contains1 (fst (fst (strings_Cut1 rest "/"))) ":"
      then inr (errorString "first path segment in URL cannot contain colon")
      else if (has_scheme
               || negb viaRequest && negb (strings_HasPrefix rest "///"))
              && strings_HasPrefix rest "//"
      then
        let after := drop 2 rest in
        let '(authority, path) :=
          match strings_Index after "/" with
          | Some i => (take i after, drop i after)
          | None => (after, EmptyString)
          end in
        match parseAuthority authority with
        | (_, _, Some err) => inr err
        | (user, host, None) =>
          with_path (base EmptyString user host false) path
        end
      else if has_scheme && strings_HasPrefix rest "/"
      then with_path (base EmptyString None EmptyString true) rest
      else with_path (base EmptyString None EmptyString false) rest
    end.

(** [url.Parse(rawURL)]: the URL, or the error wrapped in a [*url.Error]. *)
Definition url_Parse (rawURL : string) : URL + error :=
  let '(u, frag, _) := strings_Cut1 rawURL "#" in
  match url_parse u false with
  | inr err => inr (url_Error "parse" u err)
  | inl parsed =>
    if String.eqb frag EmptyString then inl parsed
    else
      match setFragment parsed frag with
      | (_, Some err) => inr (url_Error "parse" rawURL err)
      | (parsed', None) => inl parsed'
      end
  end.

(** [validEncoded]. *)
Fixpoint validEncoded (s : string) (mode : encoding) : bool :=
  match s with
  | EmptyString => true
  | String c rest =>
    (byte_in c "!$&'()*+,;=:@[]%" || negb (shouldEscape c mode))
    && validEncoded rest mode
  end.

(** [URL.EscapedPath]. *)
Definition EscapedPath (u : URL) : string :=
  let reuse :=
    negb (String.eqb (RawPath u) EmptyString)
    && validEncoded (RawPath u) encodePath
    && match unescape (RawPath u) encodePath with
       | (p, None) => String.eqb p (Path u)
       | _ => false
       end in
  if reuse then RawPath u
  else if String.eqb (Path u) "*" then "*"
  else escape (Path u) encodePath.

(** [URL.EscapedFragment]. *)
Definition EscapedFragment (u : URL) : string :=
  let reuse :=
    negb (String.eqb (RawFragment u) EmptyString)
    && validEncoded (RawFragment u) encodeFragment
    && match unescape (RawFragment u) encodeFragment with
       | (f, None) => String.eqb f (Fragment u)
       | _ => false
       end in
  if reuse then RawFragment u else escape (Fragment u) encodeFragment.

(** [Userinfo.String]. *)
Definition Userinfo_String (ui : Userinfo) : string :=
  escape (username ui) encodeUserPassword
  +:+ (if passwordSet ui
       then ":" +:+ escape (password ui) encodeUserPassword
       else EmptyString).

(** [URL.String]: the URL written out again. *)
Definition URL_String (u : URL) : string :=
  let scheme :=
    if String.eqb (Scheme u) EmptyString then EmptyString
    else Scheme u +:+ ":" in
  let body :=
    if negb (String.eqb (Opaque u) EmptyString) then scheme +:+ Opaque u
    else
      let has_user := match User u with Some _ => true | None => false end in
      let host_empty := String.eqb (Host u) EmptyString in
      let authority :=
        if negb (String.eqb (Scheme u) EmptyString) || negb host_empty
           || has_user
        then
          if OmitHost u && host_empty && negb has_user then EmptyString
          else
            (if negb host_empty || negb (String.eqb (Path u) EmptyString)
                || has_user
             then "//" else EmptyString)
            +:+ match User u with
                | Some ui => Userinfo_String ui +:+ "@"
                | None => EmptyString
                end
            +:+ (if host_empty then EmptyString
                 else escape (Host u) encodeHost)
        else EmptyString in
      let path := EscapedPath u in
      let slash :=
        match path with
        | String c _ =>
          if negb (ascii_eqb c "/") && negb host_empty
          then "/" else EmptyString
        | EmptyString => EmptyString
        end in
      let sofar := scheme +:+ authority +:+ slash in
      let dot :=
        if String.eqb sofar EmptyString
           && strings_Contains1 (fst (fst (strings_Cut1 path "/"))) ":"
        then "./" else EmptyString in
      sofar +:+ dot +:+ path in
  body
  +:+ (if ForceQuery u || negb (String.eqb (RawQuery u) EmptyString)
       then "?" +:+ RawQuery u else EmptyString)
  +:+ (if String.eqb (Fragment u) EmptyString then EmptyString
       else "#" +:+ EscapedFragment u).

(** ** Package [encoding/json]: the scanner *)

Inductive parse_state := parseObjectKey | parseObjectValue | parseArrayValue.

(** The step functions of the scanner, one constructor each. *)
Inductive scan_step :=
| stateBeginValueOrEmpty | stateBeginValue
| stateBeginStringOrEmpty | stateBeginString
| stateEndValue | stateEndTop
| stateInString | stateInStringEsc
| stateInStringEscU | stateInStringEscU1
| stateInStringEscU12 | stateInStringEscU123
| stateNeg | state1 | state0 | stateDot | stateDot0
| stateE | stateESign | stateE0
| stateT | stateTr | stateTru
| stateF | stateFa | stateFal | stateFals
| stateN | stateNu | stateNul
| stateError.

(** The scanner: the current step, the stack of open objects and arrays
    (innermost first), whether the top-level value is complete, and the
    error that stopped it. *)
Record scanner := {
  step : scan_step;
  parseState : list parse_state;
  endTop : bool;
  err : option error
}.

Definition maxNestingDepth : Z := 10000.

Definition scanner_reset : scanner :=
  {| step := stateBeginValue; parseState := []; endTop := false;
     err := None |}.

Definition goto (s : scanner) (st : scan_step) : scanner :=
  {| step := st; parseState := parseState s; endTop := endTop s;
     err := err s |}.

Definition scan_error (s : scanner) (context : string) : scanner :=
  {| step := stateError; parseState := parseState s; endTop := endTop s;
     err := Some (json_SyntaxError context) |}.

Definition set_top (s : scanner) (ps : parse_state) (st : scan_step)
  : scanner :=
  {| step := st; parseState := ps :: tail (parseState s);
     endTop := endTop s; err := err s |}.

Definition pushParseState (s : scanner) (ps : parse_state) (st : scan_step)
  : scanner :=
  let stack := ps :: parseState s in
  let pushed := {| step := st; parseState := stack; endTop := endTop s;
                   err := err s |} in
  if Z.of_nat (length stack) <=? maxNestingDepth then pushed
  else scan_error pushed "exceeded max depth".

Definition popParseState (s : scanner) : scanner :=
  match tail (parseState s) with
  | [] => {| step := stateEndTop; parseState := []; endTop := true;
             err := err s |}
  | rest => {| step := stateEndValue; parseState := rest;
               endTop := endTop s; err := err s |}
  end.

(** Space, tab, carriage return and line feed. *)
Definition isSpace (c : ascii) : bool :=
  (code c =? 32) || (code c =? 9) || (code c =? 13) || (code c =? 10).

Definition do_stateEndTop (s : scanner) (c : ascii) : scanner :=
  if isSpace c then s else scan_error s "after top-level value".

Definition do_stateEndValue (s : scanner) (c : ascii) : scanner :=
  match parseState s with
  | [] =>
    do_stateEndTop {| step := stateEndTop; parseState := []; endTop := true;
                      err := err s |} c
  | ps :: _ =>
    if isSpace c then goto s stateEndValue
    else
      match ps with
      | parseObjectKey =>
        if ascii_eqb c ":" then set_top s parseObjectValue stateBeginValue
        else scan_error s "after object key"
      | parseObjectValue =>
        if ascii_eqb c "," then set_top s parseObjectKey stateBeginString
        else if ascii_eqb c "}" then popParseState s
        else scan_error s "after object key:value pair"
      | parseArrayValue =>
        if ascii_eqb c "," then goto s stateBeginValue
        else if ascii_eqb c "]" then popParseState s
        else scan_error s "after array element"
      end
  end.

Definition do_stateBeginValue (s : scanner) (c : ascii) : scanner :=
  if isSpace c then s
  else if ascii_eqb c "{"
  then pushParseState s parseObjectKey stateBeginStringOrEmpty
  else if ascii_eqb c "["
  then pushParseState s parseArrayValue stateBeginValueOrEmpty
  else if ascii_eqb c quote_byte then goto s stateInString
  else if ascii_eqb c "-" then goto s stateNeg
  else if ascii_eqb c "0" then goto s state0
  else if ascii_eqb c "t" then goto s stateT
  else if ascii_eqb c "f" then goto s stateF
  else if ascii_eqb c "n" then goto s stateN
  else if between 49 57 c then goto s state1
  else scan_error s "looking for beginning of value".

Definition do_stateBeginString (s : scanner) (c : ascii) : scanner :=
  if isSpace c then s
  else if ascii_eqb c quote_byte then goto s stateInString
  else scan_error s "looking for beginning of object key string".

Definition do_state0 (s : scanner) (c : ascii) : scanner :=
  if ascii_eqb c "." then goto s stateDot
  else if byte_in c "eE" then goto s stateE
  else do_stateEndValue s c.

Definition do_stateESign (s : scanner) (c : ascii) : scanner :=
  if is_digit c then goto s stateE0
  else scan_error s "in exponent of numeric literal".

Definition expect (s : scanner) (c want : ascii) (st : scan_step)
           (context : string) : scanner :=
  if ascii_eqb c want then goto s st else scan_error s context.

(** [s.step(s, c)]: the scanner after byte [c]. *)
Definition scanner_step (s : scanner) (c : ascii) : scanner :=
  match step s with
  | stateBeginValueOrEmpty =>
    if isSpace c then s
    else if ascii_eqb c "]" then do_stateEndValue s c
    else do_stateBeginValue s c
  | stateBeginValue => do_stateBeginValue s c
  | stateBeginStringOrEmpty =>
    if isSpace c then s
    else if ascii_eqb c "}"
    then do_stateEndValue (set_top s parseObjectValue (step s)) c
    else do_stateBeginString s c
  | stateBeginString => do_stateBeginString s c
  | stateEndValue => do_stateEndValue s c
  | stateEndTop => do_stateEndTop s c
  | stateInString =>
    if ascii_eqb c quote_byte then goto s stateEndValue
    else if ascii_eqb c "\" then goto s stateInStringEsc
    else if code c <? 32 then scan_error s "in string literal"
    else s
  | stateInStringEsc =>
    if byte_in c "bfnrt\/" || ascii_eqb c quote_byte then goto s stateInString
    else if ascii_eqb c "u" then goto s stateInStringEscU
    else scan_error s "in string escape code"
  | stateInStringEscU =>
    if ishex c then goto s stateInStringEscU1
    else scan_error s "in \u hexadecimal character escape"
  | stateInStringEscU1 =>
    if ishex c then goto s stateInStringEscU12
    else scan_error s "in \u hexadecimal character escape"
  | stateInStringEscU12 =>
    if ishex c then goto s stateInStringEscU123
    else scan_error s "in \u hexadecimal character escape"
  | stateInStringEscU123 =>
    if ishex c then goto s stateInString
    else scan_error s "in \u hexadecimal character escape"
  | stateNeg =>
    if ascii_eqb c "0" then goto s state0
    else if between 49 57 c then goto s state1
    else scan_error s "in numeric literal"
  | state1 => if is_digit c then goto s state1 else do_state0 s c
  | state0 => do_state0 s c
  | stateDot =>
    if is_digit c then goto s stateDot0
    else scan_error s "after decimal point in numeric literal"
  | stateDot0 =>
    if is_digit c then s
    else if byte_in c "eE" then goto s stateE
    else do_stateEndValue s c
  | stateE =>
    if byte_in c "+-" then goto s stateESign else do_stateESign s c
  | stateESign => do_stateESign s c
  | stateE0 => if is_digit c then s else do_stateEndValue s c
  | stateT => expect s c "r" stateTr "in literal true (expecting 'r')"
  | stateTr => expect s c "u" stateTru "in literal true (expecting 'u')"
  | stateTru => expect s c "e" stateEndValue "in literal true (expecting 'e')"
  | stateF => expect s c "a" stateFa "in literal false (expecting 'a')"
  | stateFa => expect s c "l" stateFal "in literal false (expecting 'l')"
  | stateFal => expect s c "s" stateFals "in literal false (expecting 's')"
  | stateFals =>
    expect s c "e" stateEndValue "in literal false (expecting 'e')"
  | stateN => expect s c "u" stateNu "in literal null (expecting 'u')"
  | stateNu => expect s c "l" stateNul "in literal null (expecting 'l')"
  | stateNul => expect s c "l" stateEndValue "in literal null (expecting 'l')"
  | stateError => s
  end.

Fixpoint scan_bytes (s : scanner) (data : string) : scanner :=
  match data with
  | EmptyString => s
  | String c rest => scan_bytes (scanner_step s c) rest
  end.

(** [s.eof()]: the verdict once the input has ended; [None] when a
    complete top-level value was read. *)
Definition scanner_eof (s : scanner) : option error :=
  match err s with
  | Some e => Some e
  | None =>
    if endTop s then None
    else
      let s' := scanner_step s " " in
      if endTop s' then None
      else
        match err s' with
        | Some e => Some e
        | None => Some (json_SyntaxError "unexpected end of JSON input")
        end
  end.

(** [checkValid(data, scan)]: [None] exactly when [data] is one JSON value
    with nothing but white space around it. *)
Definition checkValid (data : string) : option error :=
  scanner_eof (scan_bytes scanner_reset data).

(** The bytes a JSON value can start with. *)
Definition starts_value (c : ascii) : bool :=
  byte_in c "{[-0123456789tfn" || ascii_eqb c quote_byte.

(** ** Package [encoding/json]: decoding into an [ErrorResponse] *)

(** The pieces of a JSON text.  A string keeps the bytes between its
    quotes, a number its digits, as [rescanLiteral] delimits them. *)
Inductive token :=
| TObjectBegin | TObjectEnd | TArrayBegin | TArrayEnd | TColon | TComma
| TString (raw : string)
| TNumber (lit : string)
| TBool (b : bool)
| TNull.

Inductive lex_state :=
| LIdle
| LString (escaped : bool)
| LNumber
| LSkip (n : nat).

Definition punct (c : ascii) : list token :=
  if ascii_eqb c "{" then [TObjectBegin]
  else if ascii_eqb c "}" then [TObjectEnd]
  else if ascii_eqb c "[" then [TArrayBegin]
  else if ascii_eqb c "]" then [TArrayEnd]
  else if ascii_eqb c ":" then [TColon]
  else if ascii_eqb c "," then [TComma]
  else [].

Definition grow_string (c : ascii) (ts : list token) : list token :=
  match ts with
  | TString raw :: rest => TString (String c raw) :: rest
  | _ => ts
  end.

Definition grow_number (c : ascii) (ts : list token) : list token :=
  match ts with
  | TNumber lit :: rest => TNumber (String c lit) :: rest
  | _ => ts
  end.

(** The tokens of a text that [checkValid] accepted.  A literal ends where
    [rescanLiteral] ends it: a string at the first quote that no backslash
    precedes, a number at the first byte that is not one of
    [0-9 . e E + -], and [true], [false] and [null] after their letters. *)
Fixpoint lex (st : lex_state) (data : string) : list token :=
  match data with
  | EmptyString =>
    match st with LNumber => [TNumber EmptyString] | _ => [] end
  | String c rest =>
    match st with
    | LIdle =>
      if ascii_eqb c quote_byte then lex (LString false) rest
      else if is_digit c || ascii_eqb c "-"
      then grow_number c (lex LNumber rest)
      else if ascii_eqb c "t" then TBool true :: lex (LSkip 3) rest
      else if ascii_eqb c "f" then TBool false :: lex (LSkip 4) rest
      else if ascii_eqb c "n" then TNull :: lex (LSkip 3) rest
      else punct c ++ lex LIdle rest
    | LString true => grow_string c (lex (LString false) rest)
    | LString false =>
      if ascii_eqb c "\" then grow_string c (lex (LString true) rest)
      else if ascii_eqb c quote_byte
      then TString EmptyString :: lex LIdle rest
      else grow_string c (lex (LString false) rest)
    | LNumber =>
      if is_digit c || byte_in c ".eE+-"
      then grow_number c (lex LNumber rest)
      else TNumber EmptyString :: punct c ++ lex LIdle rest
    | LSkip (S (S k)) => lex (LSkip (S k)) rest
    | LSkip _ => lex LIdle rest
    end
  end.

(** [getu4]: the value of the escape [\uXXXX] that [s] starts with, or [-1]. *)
Definition getu4 (s : string) : Z :=
  match s with
  | String b (String u (String h1 (String h2 (String h3 (String h4 _))))) =>
    if ascii_eqb b "\" && ascii_eqb u "u"
       && ishex h1 && ishex h2 && ishex h3 && ishex h4
    then ((unhex h1 * 16 + unhex h2) * 16 + unhex h3) * 16 + unhex h4
    else -1
  | _ => -1
  end.

Definition utf16_IsSurrogate (r : Z) : bool := (55296 <=? r) && (r <? 57344).

(** [utf16.DecodeRune]: the code point of a surrogate pair, or [RuneError]. *)
Definition utf16_DecodeRune (r1 r2 : Z) : Z :=
  if (55296 <=? r1) && (r1 <? 56320) && (56320 <=? r2) && (r2 <? 57344)
  then (r1 - 55296) * 1024 + (r2 - 56320) + 65536
  else RuneError.

Definition prepend (out : string) (r : option string) : option string :=
  match r with
  | Some t => Some (out +:+ t)
  | None => None
  end.

(** [unquoteBytes], on the bytes between the quotes: escapes are replaced
    by what they stand for and bytes that are not UTF-8 by the encoding of
    [RuneError]; [None] is its [ok = false].  [skip] counts the bytes
    already consumed by the escape or sequence before the current byte. *)
Fixpoint unquote (skip : nat) (s : string) : option string :=
  match s with
  | EmptyString => Some EmptyString
  | String c rest =>
    match skip with
    | S k => unquote k rest
    | O =>
      if ascii_eqb c "\" then
        match rest with
        | EmptyString => None
        | String e _ =>
          let one (b : ascii) :=
            prepend (String b EmptyString) (unquote 1 rest) in
          if byte_in e "\/'" || ascii_eqb e quote_byte then one e
          else if ascii_eqb e "b" then one (byte_of 8)
          else if ascii_eqb e "f" then one (byte_of 12)
          else if ascii_eqb e "n" then one (byte_of 10)
          else if ascii_eqb e "r" then one (byte_of 13)
          else if ascii_eqb e "t" then one (byte_of 9)
          else if ascii_eqb e "u" then
            let rr := getu4 s in
            if rr <? 0 then None
            else if utf16_IsSurrogate rr then
              let dec := utf16_DecodeRune rr (getu4 (drop 6 s)) in
              if negb (dec =? RuneError)
              then prepend (utf8_EncodeRune dec) (unquote 11 rest)
              else prepend (utf8_EncodeRune RuneError) (unquote 5 rest)
            else prepend (utf8_EncodeRune rr) (unquote 5 rest)
          else None
        end
      else if ascii_eqb c quote_byte || (code c <? 32) then None
      else if code c <? 128 then prepend (String c EmptyString) (unquote 0 rest)
      else
        let '(rr, size) := utf8_DecodeRune s in
        prepend (utf8_EncodeRune rr) (unquote (size - 1) rest)
    end
  end.

(** The fields of [ErrorResponse], in the order of the struct. *)
Inductive field := fType | fTitle | fStatus | fDetail.

Definition fields : list field := [fType; fTitle; fStatus; fDetail].

(** The JSON name of a field, from its struct tag. *)
Definition field_name (f : field) : string :=
  match f with
  | fType => "type"
  | fTitle => "title"
  | fStatus => "status"
  | fDetail => "detail"
  end.

(** [equalFold]: whether the member name [t] is the ASCII field name [s]
    up to case.  Apart from the two cases of each letter, the Kelvin sign
    (U+212A) is a [k] and the long s (U+017F) is an [s]. *)
Fixpoint equalFold (s t : string) : bool :=
  match s with
  | EmptyString => String.eqb t EmptyString
  | String sb s' =>
    match t with
    | EmptyString => false
    | String tb t' =>
      if code tb <? 128 then
        (ascii_eqb sb tb
         || is_alpha sb && is_alpha tb
            && (code sb mod 32 =? code tb mod 32))
        && equalFold s' t'
      else
        let '(tr, size) := utf8_DecodeRune t in
        (byte_in sb "sS" && (tr =? 383) || byte_in sb "kK" && (tr =? 8490))
        && equalFold s' (drop size t)
    end
  end.

(** The field a member name selects: the field of exactly that name, else
    the first field whose name matches up to case. *)
Definition find_field (key : string) : option field :=
  match List.find (fun f => String.eqb (field_name f) key) fields with
  | Some f => Some f
  | None => List.find (fun f => equalFold (field_name f) key) fields
  end.

(** The decoder's state: the struct being filled and [d.savedError]. *)
Record decodeState := {
  target : ErrorResponse;
  savedError : option error
}.

(** [d.saveError]: only the first error is kept. *)
Definition saveError (d : decodeState) (e : error) : decodeState :=
  match savedError d with
  | Some _ => d
  | None => {| target := target d; savedError := Some e |}
  end.

Definition set_string (f : field) (s : string) (v : ErrorResponse)
  : ErrorResponse :=
  match f with
  | fType => {| Type_ := s; Title := Title v; Status := Status v;
                Detail := Detail v |}
  | fTitle => {| Type_ := Type_ v; Title := s; Status := Status v;
                 Detail := Detail v |}
  | fDetail => {| Type_ := Type_ v; Title := Title v; Status := Status v;
                  Detail := s |}
  | fStatus => v
  end.

Definition set_int (n : Z) (v : ErrorResponse) : ErrorResponse :=
  {| Type_ := Type_ v; Title := Title v; Status := n; Detail := Detail v |}.

(** [d.literalStore] into field [f]: a string goes into a string field, a
    number that [strconv.ParseInt] accepts into [Status], [null] changes
    nothing, and anything else is an [UnmarshalTypeError] that leaves the
    field alone. *)
Definition literalStore (d : decodeState) (f : field) (t : token)
  : decodeState :=
  match t with
  | TNull => d
  | TBool _ => saveError d (json_UnmarshalTypeError "bool")
  | TString raw =>
    match unquote 0 raw with
    | None => saveError d (json_SyntaxError "JSON decoder out of sync")
    | Some s =>
      match f with
      | fStatus => saveError d (json_UnmarshalTypeError "string")
      | _ => {| target := set_string f s (target d);
                savedError := savedError d |}
      end
    end
  | TNumber lit =>
    match f with
    | fStatus =>
      match strconv_ParseInt64 lit with
      | Some n => {| target := set_int n (target d);
                     savedError := savedError d |}
      | None => saveError d (json_UnmarshalTypeError ("number " +:+ lit))
      end
    | _ => saveError d (json_UnmarshalTypeError "number")
    end
  | _ => d
  end.

(** Where [d.object] stands in the top-level object. *)
Inductive walk :=
| WKey                        (* before a member name or the closing brace *)
| WColon (f : option field)   (* after the name, before the colon *)
| WValue (f : option field)   (* before the member's value *)
| WSkip (depth : nat)         (* inside an object or array that is skipped *)
| WNext                       (* after a value *)
| WDone.

(** [d.object] on the tokens after the opening brace: a member whose name
    selects a field is stored into it, a member whose value is an object or
    an array is skipped (with an [UnmarshalTypeError] when its name selects
    a field), every other member is skipped silently. *)
Fixpoint decode_object (w : walk) (d : decodeState) (ts : list token)
  : decodeState :=
  match ts with
  | [] => d
  | t :: rest =>
    match w with
    | WKey =>
      match t with
      | TString raw =>
        decode_object
          (WColon (match unquote 0 raw with
                   | Some key => find_field key
                   | None => None
                   end)) d rest
      | _ => decode_object WDone d rest
      end
    | WColon f => decode_object (WValue f) d rest
    | WValue f =>
      match t with
      | TObjectBegin =>
        decode_object (WSkip 1)
          (match f with
           | Some _ => saveError d (json_UnmarshalTypeError "object")
           | None => d
           end) rest
      | TArrayBegin =>
        decode_object (WSkip 1)
          (match f with
           | Some _ => saveError d (json_UnmarshalTypeError "array")
           | None => d
           end) rest
      | _ =>
        decode_object WNext
          (match f with
           | Some f' => literalStore d f' t
           | None => d
           end) rest
      end
    | WSkip depth =>
      match t with
      | TObjectBegin | TArrayBegin => decode_object (WSkip (S depth)) d rest
      | TObjectEnd | TArrayEnd =>
        match depth with
        | S (S k) => decode_object (WSkip (S k)) d rest
        | _ => decode_object WNext d rest
        end
      | _ => decode_object (WSkip depth) d rest
      end
    | WNext =>
      match t with
      | TComma => decode_object WKey d rest
      | _ => decode_object WDone d rest
      end
    | WDone => d
    end
  end.

(** [d.value] for a pointer to an [ErrorResponse]: only an object fills
    the struct; [null] changes nothing; any other value is an
    [UnmarshalTypeError]. *)
Definition decode_value (d : decodeState) (ts : list token) : decodeState :=
  match ts with
  | TObjectBegin :: rest => decode_object WKey d rest
  | TArrayBegin :: _ => saveError d (json_UnmarshalTypeError "array")
  | TString _ :: _ => saveError d (json_UnmarshalTypeError "string")
  | TNumber _ :: _ => saveError d (json_UnmarshalTypeError "number")
  | TBool _ :: _ => saveError d (json_UnmarshalTypeError "bool")
  | _ => d
  end.

(** [json.Unmarshal(data, v)] for [v] a non-nil [*ErrorResponse]: the
    struct afterwards and the error returned.  A text that is not valid
    JSON is rejected before anything is stored; a valid text is decoded as
    far as it fits, and the first [UnmarshalTypeError] is returned at the
    end. *)
Definition json_Unmarshal (data : string) (v : ErrorResponse)
  : ErrorResponse * option error :=
  match checkValid data with
  | Some e => (v, Some e)
  | None =>
    let d := decode_value {| target := v; savedError := None |}
                          (lex LIdle data) in
    (target d, savedError d)
  end.

(** ** Package [net/http] *)

(** A [*http.Client]: the shared default client, or one the caller made. *)
Inductive http_Client :=
| http_DefaultClient
| http_ClientHandle (id : nat).

(** The body of a response, as [ioutil.ReadAll] finds it: the bytes it
    delivers and the error, if any, that ends the reading.  Every path of
    the client reads a body at most once. *)
Record Body := {
  content : string;
  read_error : option error
}.

Record Response := {
  StatusCode : Z;
  Header : list (string * string);
  ResponseBody : Body
}.

(** A request: [BasicAuth] holds the user name and password that the
    [Authorization] header carries once [SetBasicAuth] has run. *)
Record Request := {
  Method : string;
  RequestURL : URL;
  RequestHost : string;
  RequestBody : option string;
  BasicAuth : option (string * string)
}.

(** [ioutil.ReadAll]: its slice is never [nil]. *)
Definition ioutil_ReadAll (b : Body) : option string * option error :=
  (Some (content b), read_error b).

Fixpoint validMethod_bytes (method : string) : bool :=
  match method with
  | EmptyString => true
  | String c rest =>
    (is_alpha c || is_digit c || byte_in c "!#$%&'*+-.^_`|~")
    && validMethod_bytes rest
  end.

(** [validMethod]: a non-empty HTTP token. *)
Definition validMethod (method : string) : bool :=
  negb (String.eqb method EmptyString) && validMethod_bytes method.

(** [removeEmptyPort]: a host that ends in a bare colon loses it. *)
Definition removeEmptyPort (host : string) : string :=
  match cut_last host ":" with
  | Some (before, EmptyString) => before
  | _ => host
  end.

(** [http.NewRequest(method, url, body)]; [body] is [None] for a [nil]
    reader, else the bytes the reader holds. *)
Definition http_NewRequest (method url : string) (body : option string)
  : Request + error :=
  let method := if String.eqb method EmptyString then "GET" else method in
  if negb (validMethod method) then inr (http_InvalidMethod method)
  else
    match url_Parse url with
    | inr err => inr err
    | inl u =>
      let host := removeEmptyPort (Host u) in
      inl {| Method := method;
             RequestURL :=
               {| Scheme := Scheme u; Opaque := Opaque u; User := User u;
                  Host := host; Path := Path u; RawPath := RawPath u;
                  OmitHost := OmitHost u; ForceQuery := ForceQuery u;
                  RawQuery := RawQuery u; Fragment := Fragment u;
                  RawFragment := RawFragment u |};
             RequestHost := host;
             RequestBody := body;
             BasicAuth := None |}
    end.

(** [(r *Request) SetBasicAuth(username, password)]. *)
Definition SetBasicAuth (r : Request) (user pass : string) : Request :=
  {| Method := Method r; RequestURL := RequestURL r;
     RequestHost := RequestHost r; RequestBody := RequestBody r;
     BasicAuth := Some (user, pass) |}.

(** What [%s] prints for a [*url.URL]: its [String()], and [<nil>] for a
    nil pointer. *)
Definition Stringer_URL (u : option URL) : string :=
  match u with
  | Some u' => URL_String u'
  | None => "<nil>"
  end.

(** ** The client ([client.go]) *)

(** [Client] manages communication with the Mailchimp API. *)
Record Client := {
  client : http_Client;
  baseURL : option URL;
  dc : string;
  apiKey : string
}.

(** [func (e ErrorResponse) Error() string]. *)
Definition Error (e : ErrorResponse) : string :=
  fmt_Sprintf "Error %d %s (%s)"
              [AInt (Status e); AString (Title e); AString (Detail e)].

(** [NewClient(apiKey, httpClient)].  The element [[1]] of the split is in
    range because the length was just checked. *)
Definition NewClient (apiKey : string) (httpClient : option http_Client)
  : option Client * option error :=
  if negb (Nat.eqb (length (strings_Split apiKey "-")) 2)
  then (None,
        Some (errorString "Mailchimp API Key must be formatted like: xyz-zys"))
  else
    let dc := nth 1 (strings_Split apiKey "-") EmptyString in
    let httpClient :=
      match httpClient with
      | None => http_DefaultClient
      | Some c => c
      end in
    match url_Parse (fmt_Sprintf "https://%s.api.mailchimp.com/3.0"
                                 [AString dc]) with
    | inr err => (None, Some err)
    | inl baseURL =>
      (Some {| client := httpClient; baseURL := Some baseURL;
               apiKey := apiKey; dc := dc |}, None)
    end.

(** [GetBaseURL]. *)
Definition GetBaseURL (c : Client) : option URL := baseURL c.

(** [SetBaseURL]: the client afterwards. *)
Definition SetBaseURL (c : Client) (baseURL : option URL) : Client :=
  {| client := client c; baseURL := baseURL; dc := dc c;
     apiKey := apiKey c |}.

(** [checkResponse(r)]: [None] is the [nil] error. *)
Definition checkResponse (r : Response) : option error :=
  let c := StatusCode r in
  if (200 <=? c) && (c <=? 299) then None
  else
    let errorResponse := new_ErrorResponse in
    let '(data, err) := ioutil_ReadAll (ResponseBody r) in
    let errorResponse :=
      match err, data with
      | None, Some data' => fst (json_Unmarshal data' errorResponse)
      | _, _ => errorResponse
      end in
    Some (ErrorResponse_ptr errorResponse).

(** What the client leaves behind in its environment: the requests handed
    to a transport, oldest first, and the number of response bodies that
    are open. *)
Record World := {
  sent : list (http_Client * Request);
  open_bodies : nat
}.

(** The collaborators of the dispatch primitive.  [Any] is the type of the
    dynamic values ([interface{}]) that travel through it; [ptr_map] is a
    pointer to a [map[string]string] seen as such a value; [json_Encode]
    is [json.NewEncoder(buf).Encode]: the bytes written to the buffer and
    the error; [json_Decode] is [json.NewDecoder(body).Decode] into an
    empty interface; [roundTrip] is what a transport answers to a request,
    given the requests sent before. *)
Class Collaborators := {
  Any : Type;
  ptr_map : gmap string string -> Any;
  json_Encode : Any -> string * option error;
  json_Decode : Body -> Any + error;
  roundTrip :
    http_Client -> list (http_Client * Request) -> Request -> Response + error
}.

Section Dispatch.

Context {E : Collaborators}.

(** [c.client.Do(req)]: the request reaches the transport; a response
    comes with an open body. *)
Definition http_Do (hc : http_Client) (req : Request) (w : World)
  : (Response + error) * World :=
  let answer := roundTrip hc (sent w) req in
  (answer,
   {| sent := sent w ++ [(hc, req)];
      open_bodies :=
        match answer with
        | inl _ => S (open_bodies w)
        | inr _ => open_bodies w
        end |}).

(** [resp.Body.Close()]. *)
Definition Body_Close (w : World) : World :=
  {| sent := sent w; open_bodies := pred (open_bodies w) |}.

(** [func (c *Client) do(method, path, body)]; a [nil] body is [None].
    The deferred [Close] runs on every return that follows the
    transport's answer. *)
Definition do (c : Client) (method path : string) (body : option Any)
           (w : World) : (option Any * option error) * World :=
  let '(buf, err) :=
    match body with
    | Some b => let '(bytes, err) := json_Encode b in (Some bytes, err)
    | None => (None, None)
    end in
  match err with
  | Some e => ((None, Some e), w)
  | None =>
    let apiURL :=
      fmt_Sprintf "%s%s" [AString (Stringer_URL (GetBaseURL c));
                          AString path] in
    match http_NewRequest method apiURL buf with
    | inr e => ((None, Some e), w)
    | inl req =>
      let req := SetBasicAuth req EmptyString (apiKey c) in
      match http_Do (client c) req w with
      | (inr e, w1) => ((None, Some e), w1)
      | (inl resp, w1) =>
        let w2 := Body_Close w1 in
        match checkResponse resp with
        | Some e => ((None, Some e), w2)
        | None =>
          match json_Decode (ResponseBody resp) with
          | inr e => ((None, Some e), w2)
          | inl v => ((Some v, None), w2)
          end
        end
      end
    end
  end.

(** [func (c *Client) Subscribe(email, listID)]. *)
Definition Subscribe (c : Client) (email listID : string) (w : World)
  : (option Any * option error) * World :=
  let data : gmap string string :=
    {[ "email_address" := email; "status" := "subscribed" ]} in
  do c "POST" (fmt_Sprintf "/lists/%s/members/" [AString listID])
     (Some (ptr_map data)) w.

End Dispatch.

(** ** A test double

    One instance of the collaborators, to run the dispatch primitive on:
    dynamic values are maps, decoded texts and channels; a map is encoded
    as its size, a channel is refused; a body is decoded to its bytes;
    every request is answered with status 200 and the body [{}]. *)

Inductive sample :=
| SampleMap (m : gmap string string)
| SampleText (text : string)
| SampleChan.

#[export] Instance double : Collaborators := {|
  Any := sample;
  ptr_map := SampleMap;
  json_Encode v :=
    match v with
    | SampleMap m => (strconv_Itoa (Z.of_nat (size m)), None)
    | SampleText text => (text, None)
    | SampleChan =>
      (EmptyString, Some (errorString "json: unsupported type: chan int"))
    end;
  json_Decode b := inl (SampleText (content b));
  roundTrip _ _ _ :=
    inl {| StatusCode := 200; Header := [];
           ResponseBody := {| content := "{}"; read_error := None |} |}
|}.

Definition sample_URL : URL :=
  {| Scheme := "https"; Opaque := EmptyString; User := None;
     Host := "us11.api.mailchimp.com"; Path := "/3.0";
     RawPath := EmptyString; OmitHost := false; ForceQuery := false;
     RawQuery := EmptyString; Fragment := EmptyString;
     RawFragment := EmptyString |}.

Definition sample_client : Client :=
  {| client := http_DefaultClient; baseURL := Some sample_URL; dc := "us11";
     apiKey := "abc123-us11" |}.

Definition empty_World : World := {| sent := []; open_bodies := 0 |}.

(** The text [s] with every apostrophe replaced by a double quote, to
    write JSON texts down. *)
Fixpoint dq (s : string) : string :=
  match s with
  | EmptyString => EmptyString
  | String c rest => String (if ascii_eqb c "'" then quote_byte else c) (dq rest)
  end.

(** The claim that [NewClient] insists on two non-empty segments, as a
    predicate on credentials. *)
Definition two_nonempty_segments (apiKey : string) : bool :=
  match strings_Split apiKey "-" with
  | [key; region] =>
    negb (String.eqb key EmptyString) && negb (String.eqb region EmptyString)
  | _ => false
  end.

(** A double whose transport gives one prescribed answer. *)
Definition double_answering (answer : Response + error) : Collaborators := {|
  Any := sample;
  ptr_map := SampleMap;
  json_Encode := @json_Encode double;
  json_Decode := @json_Decode double;
  roundTrip _ _ _ := answer
|}.

(** The handle [NewClient] stores for the [httpClient] it is given. *)
Definition chosen_client (httpClient : option http_Client) : http_Client :=
  match httpClient with
  | Some hc => hc
  | None => http_DefaultClient
  end.

(** The bytes [do] puts into the request for [body], with encoder [E]. *)
Definition encoded_body {E : Collaborators} (body : option Any)
  : option string :=
  match body with
  | Some b => Some (fst (json_Encode b))
  | None => None
  end.

(** ** Plain texts

    Predicates on texts, to state what the client does with well-behaved
    credentials, identifiers and bodies. *)

Fixpoint all_bytes (P : ascii -> bool) (s : string) : bool :=
  match s with
  | EmptyString => true
  | String c rest => P c && all_bytes P rest
  end.

(** Letters and digits. *)
Definition alnum_byte (c : ascii) : bool := is_alpha c || is_digit c.

(** Bytes of a plain host name: letters, digits, dot and hyphen. *)
Definition host_byte (c : ascii) : bool := alnum_byte c || byte_in c ".-".

(** Bytes that a URL path carries as they are: letters, digits, the slash
    and the unreserved marks. *)
Definition path_byte (c : ascii) : bool := alnum_byte c || byte_in c "/.-_~".

(** The URL [https://<host><path>], with no user, query or fragment. *)
Definition https_URL (host path : string) : URL :=
  {| Scheme := "https"; Opaque := EmptyString; User := None;
     Host := host; Path := path; RawPath := EmptyString;
     OmitHost := false; ForceQuery := false; RawQuery := EmptyString;
     Fragment := EmptyString; RawFragment := EmptyString |}.

(** What [do] returns for the transport's answer to its request. *)
Definition outcome {E : Collaborators} (answer : Response + error)
  : option Any * option error :=
  match answer with
  | inr e => (None, Some e)
  | inl resp =>
    match checkResponse resp with
    | Some e => (None, Some e)
    | None =>
      match json_Decode (ResponseBody resp) with
      | inr e => (None, Some e)
      | inl v => (Some v, None)
      end
    end
  end.

(** The map [Subscribe] sends. *)
Definition subscription (email : string) : gmap string string :=
  {[ "email_address" := email; "status" := "subscribed" ]}.

(** The request [Subscribe] builds for a client whose base URL is
    [https://<host><base>]. *)
Definition subscribe_request {E : Collaborators}
           (host base credential email listID : string) : Request :=
  {| Method := "POST";
     RequestURL :=
       https_URL host (base +:+ "/lists/" +:+ listID +:+ "/members/");
     RequestHost := host;
     RequestBody := Some (fst (json_Encode (ptr_map (subscription email))));
     BasicAuth := Some (EmptyString, credential) |}.

(** A response with status 400 and a well-formed error body, and one with
    status 200. *)
Definition sample_failure : Response :=
  {| StatusCode := 400; Header := [];
     ResponseBody :=
       {| content :=
            dq "{'type':'t','title':'Invalid Resource','status':400,'detail':'bad address'}";
          read_error := None |} |}.

Definition sample_success : Response :=
  {| StatusCode := 200; Header := [];
     ResponseBody := {| content := dq "{'id':'1'}"; read_error := None |} |}.

(** The first byte of a text that is not JSON white space. *)
Fixpoint first_nonspace (s : string) : option ascii :=
  match s with
  | EmptyString => None
  | String c rest => if isSpace c then first_nonspace rest else Some c
  end.

(** Printable ASCII bytes other than the double quote and the backslash:
    the bytes a JSON string holds as they are. *)
Definition plain_byte (c : ascii) : bool :=
  (32 <=? code c) && (code c <? 127)
  && negb (ascii_eqb c quote_byte) && negb (ascii_eqb c "\").

(** A JSON number without fraction and exponent: an optional minus sign,
    then [0] or digits that do not start with [0]. *)
Definition nat_literal (s : string) : bool :=
  match s with
  | EmptyString => false
  | String c rest =>
    if ascii_eqb c "0" then String.eqb rest EmptyString
    else between 49 57 c && all_digits rest
  end.

Definition int_literal (s : string) : bool :=
  match s with
  | EmptyString => false
  | String c rest => if ascii_eqb c "-" then nat_literal rest else nat_literal s
  end.

(** A plain text as a JSON string: the text between double quotes. *)
Definition quoted (text : string) : string :=
  String quote_byte (text +:+ String quote_byte EmptyString).

(** The JSON text of an error body with the four members in the order of
    the struct: [{"type":"<kind>","title":"<title>","status":<status>,
    "detail":"<detail>"}]. *)
Definition envelope_text (kind title status detail : string) : string :=
  dq "{'type':'" +:+ kind +:+ dq "','title':'" +:+ title
  +:+ dq "','status':" +:+ status +:+ dq ",'detail':'" +:+ detail
  +:+ dq "'}".

(** One member of a JSON object whose value is a string, followed by
    [rest]: ["<name>":"<value>"<rest>]. *)
Definition member (name value rest : string) : string :=
  String quote_byte
    (name +:+ String quote_byte
       (String ":" (String quote_byte (value +:+ String quote_byte rest)))).

(** Two states of the scanner inside the top-level object: within a
    string, and before a member's value. *)
Definition in_string : scanner :=
  {| step := stateInString; parseState := [parseObjectValue];
     endTop := false; err := None |}.

Definition before_value : scanner :=
  {| step := stateBeginValue; parseState := [parseObjectValue];
     endTop := false; err := None |}.

(** Path bytes, and the percent sign that starts an escape. *)
Definition raw_path_byte (c : ascii) : bool := path_byte c || ascii_eqb c "%".

(** Whether the text after a percent sign fails to start with two
    hexadecimal digits. *)
Definition bad_escape (after : string) : bool :=
  match after with
  | String x (String y _) => negb (ishex x && ishex y)
  | _ => true
  end.

(** ** Members that fit the envelope

    What it means that the object in a body holds a member that fits
    [ErrorResponse]: the member's name selects a field, and its value has
    the type of that field. *)

(** A value of the type of field [f]: a JSON string with well-formed
    content for [Type], [Title] and [Detail], a number that
    [strconv.ParseInt] accepts for [Status]. *)
Definition fits (f : field) (t : token) : bool :=
  match t with
  | TString raw =>
    match unquote 0 raw, f with
    | Some _, (fType | fTitle | fDetail) => true
    | _, _ => false
    end
  | TNumber lit =>
    match f, strconv_ParseInt64 lit with
    | fStatus, Some _ => true
    | _, _ => false
    end
  | _ => false
  end.

(** Whether, from position [w] in the top-level object, the tokens [ts]
    hold a member at the top level whose name selects a field and whose
    value fits it.  Members inside nested objects and arrays do not
    count. *)
Fixpoint fitting_member (w : walk) (ts : list token) : bool :=
  match ts with
  | [] => false
  | t :: rest =>
    match w with
    | WKey =>
      match t with
      | TString raw =>
        fitting_member
          (WColon (match unquote 0 raw with
                   | Some key => find_field key
                   | None => None
                   end)) rest
      | _ => false
      end
    | WColon f => fitting_member (WValue f) rest
    | WValue f =>
      match t with
      | TObjectBegin | TArrayBegin => fitting_member (WSkip 1) rest
      | _ =>
        match f with
        | Some f' => fits f' t
        | None => false
        end || fitting_member WNext rest
      end
    | WSkip depth =>
      match t with
      | TObjectBegin | TArrayBegin => fitting_member (WSkip (S depth)) rest
      | TObjectEnd | TArrayEnd =>
        match depth with
        | S (S k) => fitting_member (WSkip (S k)) rest
        | _ => fitting_member WNext rest
        end
      | _ => fitting_member (WSkip depth) rest
      end
    | WNext =>
      match t with
      | TComma => fitting_member WKey rest
      | _ => false
      end
    | WDone => false
    end
  end.

(** Whether the text is an object with a member that fits.  A text whose
    value is an array, a string, a number or a literal has none. *)
Definition has_fitting_member (data : string) : bool :=
  match lex LIdle data with
  | TObjectBegin :: rest => fitting_member WKey rest
  | _ => false
  end.

(** ** Responses in a store

    [checkResponse] with the state it touches written out.  The body of a
    [*http.Response] is a stream: [ioutil.ReadAll] drains it, and a second
    reading finds nothing.  [new(ErrorResponse)] allocates a cell, which
    [json.Unmarshal] fills through the pointer, and the pointer is what
    [checkResponse] returns. *)

(** The streams of the open bodies, by their identity, and the
    [ErrorResponse] cells allocated so far; a pointer is an index into
    [cells]. *)
Record Store := {
  streams : gmap nat Body;
  cells : list ErrorResponse
}.

(** A [*http.Response] whose [Body] refers to a stream of the store. *)
Record StoredResponse := {
  StoredStatusCode : Z;
  StoredHeader : list (string * string);
  StoredBody : nat
}.

(** A stream after it was read to its end. *)
Definition drained (b : Body) : Body :=
  {| content := EmptyString; read_error := read_error b |}.

(** [ioutil.ReadAll] on a stream of the store: what the stream still
    holds is returned and is gone from the stream.  A stream the store
    does not know holds nothing. *)
Definition ioutil_ReadAll_stored (id : nat) (s : Store)
  : (option string * option error) * Store :=
  match streams s !! id with
  | Some b =>
    (ioutil_ReadAll b,
     {| streams := <[id := drained b]> (streams s); cells := cells s |})
  | None => ((Some EmptyString, None), s)
  end.

(** [new(ErrorResponse)]: a pointer to a fresh cell that holds the zero
    value. *)
Definition new_ErrorResponse_stored (s : Store) : nat * Store :=
  (length (cells s),
   {| streams := streams s; cells := cells s ++ [new_ErrorResponse] |}).

(** [json.Unmarshal(data, p)] for a pointer [p] into the store; a pointer
    to no cell is the [nil] pointer, which [Unmarshal] refuses. *)
Definition json_Unmarshal_stored (data : string) (p : nat) (s : Store)
  : option error * Store :=
  match cells s !! p with
  | Some v =>
    let '(v', err) := json_Unmarshal data v in
    (err, {| streams := streams s; cells := <[p := v']> (cells s) |})
  | None =>
    (Some (errorString "json: Unmarshal(nil *mailchimp.ErrorResponse)"), s)
  end.

(** [checkResponse(r)] on the store: the pointer returned ([None] is the
    [nil] error) and the store afterwards. *)
Definition checkResponse_stored (r : StoredResponse) (s : Store)
  : option nat * Store :=
  let c := StoredStatusCode r in
  if (200 <=? c) && (c <=? 299) then (None, s)
  else
    let '(errorResponse, s) := new_ErrorResponse_stored s in
    let '((data, err), s) := ioutil_ReadAll_stored (StoredBody r) s in
    let s :=
      match err, data with
      | None, Some data' => snd (json_Unmarshal_stored data' errorResponse s)
      | _, _ => s
      end in
    (Some errorResponse, s).

(** The error a returned pointer stands for in a store. *)
Definition held (s : Store) (result : option nat) : option error :=
  match result with
  | Some p =>
    match cells s !! p with
    | Some e => Some (ErrorResponse_ptr e)
    | None => None
    end
  | None => None
  end.

(** What a stream of the store still holds. *)
Definition unread (s : Store) (id : nat) : Body :=
  match streams s !! id with
  | Some b => b
  | None => {| content := EmptyString; read_error := None |}
  end.

(** A stored response as [checkResponse] finds it: its status code, and
    the bytes its body still holds. *)
Definition snapshot (s : Store) (r : StoredResponse) : Response :=
  {| StatusCode := StoredStatusCode r; Header := StoredHeader r;
     ResponseBody := unread s (StoredBody r) |}.

(** ** Package [encoding/json]: encoding a [map[string]string]
    (as of Go 1.19 and 1.20) *)

Definition lowerhex (n : Z) : ascii :=
  if n <? 10 then byte_of (48 + n) else byte_of (97 + n - 10).

(** [htmlSafeSet]: the ASCII bytes that a string holds as they are when
    HTML escaping is on, as it is for a new [Encoder]. *)
Definition htmlSafe (c : ascii) : bool :=
  (32 <=? code c) && (code c <? 128)
  && negb (byte_in c "\&<>") && negb (ascii_eqb c quote_byte).

(** Where [encodeState.string] stands: at a byte to look at, or within a
    sequence whose remaining bytes are copied or dropped. *)
Inductive encode_mode :=
| EncScan
| EncCopy (n : nat)
| EncDrop (n : nat).

(** The loop of [encodeState.string], without the quotes around. *)
Fixpoint encode_string (m : encode_mode) (s : string) : string :=
  match s with
  | EmptyString => EmptyString
  | String c rest =>
    match m with
    | EncCopy (S k) => String c (encode_string (EncCopy k) rest)
    | EncDrop (S k) => encode_string (EncDrop k) rest
    | _ =>
      if code c <? 128 then
        if htmlSafe c then String c (encode_string EncScan rest)
        else
          String "\"
            ((if ascii_eqb c "\" || ascii_eqb c quote_byte
              then String c EmptyString
              else if ascii_eqb c (byte_of 10) then "n"
              else if ascii_eqb c (byte_of 13) then "r"
              else if ascii_eqb c (byte_of 9) then "t"
              else String "u" (String "0" (String "0"
                     (String (lowerhex (code c / 16))
                        (String (lowerhex (code c mod 16)) EmptyString)))))
             +:+ encode_string EncScan rest)
      else
        let '(r, size) := utf8_DecodeRune s in
        if (r =? RuneError) && Nat.eqb size 1
        then String "\" "ufffd" +:+ encode_string EncScan rest
        else if (r =? 8232) || (r =? 8233)
        then String "\" "u202" +:+ String (lowerhex (r mod 16))
                           (encode_string (EncDrop (size - 1)) rest)
        else String c (encode_string (EncCopy (size - 1)) rest)
    end
  end.

(** A Go string as a JSON string. *)
Definition json_string (s : string) : string :=
  String quote_byte (encode_string EncScan s +:+ String quote_byte EmptyString).

(** The members of a map are written in the order of their keys. *)
Fixpoint insert_by_key (kv : string * string) (l : list (string * string))
  : list (string * string) :=
  match l with
  | [] => [kv]
  | x :: rest =>
    if String.ltb (fst x) (fst kv) then x :: insert_by_key kv rest
    else kv :: l
  end.

Definition sort_by_key (l : list (string * string))
  : list (string * string) :=
  fold_right insert_by_key [] l.

(** [json.NewEncoder(buf).Encode(&m)] for a [map[string]string]: the
    object, and the line feed that [Encode] adds. *)
Definition json_Encode_map (m : gmap string string) : string :=
  "{"
  +:+ strings_Join
        (List.map (fun kv => json_string (fst kv) +:+ ":"
                             +:+ json_string (snd kv))
                  (sort_by_key (map_to_list m))) ","
  +:+ "}" +:+ String (byte_of 10) EmptyString.

(** The test double with the encoder of maps above. *)
Definition double_encoding : Collaborators := {|
  Any := sample;
  ptr_map := SampleMap;
  json_Encode v :=
    match v with
    | SampleMap m => (json_Encode_map m, None)
    | other => @json_Encode double other
    end;
  json_Decode := @json_Decode double;
  roundTrip := @roundTrip double
|}.

(** The request that [do] sends when the base URL followed by the path
    parses as [u]. *)
Definition request_for (method : string) (u : URL) (body : option string)
           (credential : string) : Request :=
  {| Method := method;
     RequestURL :=
       {| Scheme := Scheme u; Opaque := Opaque u; User := User u;
          Host := removeEmptyPort (Host u); Path := Path u;
          RawPath := RawPath u; OmitHost := OmitHost u;
          ForceQuery := ForceQuery u; RawQuery := RawQuery u;
          Fragment := Fragment u; RawFragment := RawFragment u |};
     RequestHost := removeEmptyPort (Host u);
     RequestBody := body;
     BasicAuth := Some (EmptyString, credential) |}.

(** * Properties *)

(** ** Splitting a credential *)

Lemma ascii_eqb_eq (a b : ascii) : ascii_eqb a b = true <-> a = b.
Proof. unfold ascii_eqb. apply Ascii.eqb_eq. Qed.

Lemma ascii_eqb_refl (a : ascii) : ascii_eqb a a = true.
Proof. apply ascii_eqb_eq. reflexivity. Qed.

Lemma prefix_one (c a : ascii) (s : string) :
  String.prefix (String c EmptyString) (String a s) = ascii_eqb a c.
Proof.
  simpl. destruct (ascii_dec c a) as [Heq | Hne].
  - subst. rewrite ascii_eqb_refl. destruct s; reflexivity.
  - symmetry. apply not_true_is_false. intros H.
    apply ascii_eqb_eq in H. congruence.
Qed.

Lemma genSplit_not_nil (sep : string) (skip : nat) (s : string) :
  genSplit sep skip s <> [].
Proof.
  revert skip. induction s as [| c s IH]; intros skip; cbn [genSplit].
  - done.
  - destruct skip as [| k]; [| apply IH].
    destruct (String.prefix sep (String c s)); [done |].
    destruct (genSplit sep 0 s); done.
Qed.

(** Splitting on one byte gives one segment more than there are
    separators. *)
Lemma Split_length (s : string) (sep : ascii) :
  length (strings_Split s (String sep EmptyString))
  = S (strings_Count1 s sep).
Proof.
  unfold strings_Split.
  induction s as [| c s IH]; [reflexivity |].
  cbn [genSplit strings_Count1 String.length Nat.sub].
  rewrite prefix_one.
  destruct (ascii_eqb c sep).
  - cbn [length]. rewrite IH. reflexivity.
  - pose proof (genSplit_not_nil (String sep EmptyString) 0 s) as Hne.
    destruct (genSplit (String sep EmptyString) 0 s) as [| h t];
      [congruence |].
    cbn [length] in *. rewrite IH. reflexivity.
Qed.

Lemma Join_cons_byte (c : ascii) (h : string) (t : list string)
      (sep : string) :
  strings_Join (String c h :: t) sep = String c (strings_Join (h :: t) sep).
Proof. destruct t; reflexivity. Qed.

(** The segments, joined by the separator again, are the text. *)
Lemma Split_Join (s : string) (sep : ascii) :
  strings_Join (strings_Split s (String sep EmptyString))
               (String sep EmptyString) = s.
Proof.
  unfold strings_Split.
  induction s as [| c s IH]; [reflexivity |].
  cbn [genSplit String.length Nat.sub].
  rewrite prefix_one.
  pose proof (genSplit_not_nil (String sep EmptyString) 0 s) as Hne.
  destruct (genSplit (String sep EmptyString) 0 s) as [| h t];
    [congruence |].
  destruct (ascii_eqb c sep) eqn:Hc.
  - apply ascii_eqb_eq in Hc. subst c.
    change (strings_Join (EmptyString :: h :: t) (String sep EmptyString))
      with (String sep (strings_Join (h :: t) (String sep EmptyString))).
    rewrite IH. reflexivity.
  - rewrite Join_cons_byte, IH. reflexivity.
Qed.

(** ** Construction *)

(** C1 (as amended).  A credential that does not contain exactly one
    separator [-], that is, one that does not split into exactly two
    segments, is refused: [NewClient] returns the configuration error and no
    client.  Read backwards, a client is constructed only for a credential
    with exactly two segments.  Nothing is required of the segments
    themselves. *)
Theorem NewClient_rejects_wrong_separator_count
        (credential : string) (httpClient : option http_Client) :
  strings_Count1 credential "-" <> 1%nat ->
  NewClient credential httpClient
  = (None,
     Some (errorString "Mailchimp API Key must be formatted like: xyz-zys")).
Proof.
  intros Hcount. unfold NewClient.
  rewrite Split_length.
  destruct (Nat.eqb (S (strings_Count1 credential "-")) 2) eqn:Hlen.
  - apply Nat.eqb_eq in Hlen. lia.
  - reflexivity.
Qed.

Lemma NewClient_rejects_wrong_separator_count_witness :
  strings_Count1 "abc123" "-" <> 1%nat
  /\ NewClient "abc123" None
     = (None,
        Some (errorString "Mailchimp API Key must be formatted like: xyz-zys")).
Proof.
  split.
  - vm_compute. lia.
  - apply (NewClient_rejects_wrong_separator_count "abc123" None).
    vm_compute. lia.
Defined.

(** C1 (as stated) fails: the credential [-us11] has an empty first
    segment, and a client is constructed from it all the same. *)
Lemma NewClient_accepts_empty_key_segment :
  two_nonempty_segments "-us11" = false
  /\ exists c, NewClient "-us11" None = (Some c, None).
Proof.
  split; [reflexivity |].
  eexists. vm_compute. reflexivity.
Qed.

(** What a constructed client was made from: a credential with exactly one
    separator, kept as it is, whose part after the separator is the data
    centre. *)
Lemma NewClient_constructed
      (credential : string) (httpClient : option http_Client) (c : Client) :
  fst (NewClient credential httpClient) = Some c ->
  strings_Count1 credential "-" = 1%nat
  /\ apiKey c = credential
  /\ exists key, credential = key +:+ "-" +:+ dc c.
Proof.
  unfold NewClient. rewrite Split_length.
  destruct (Nat.eqb (S (strings_Count1 credential "-")) 2) eqn:Hlen;
    cbn [negb]; [| discriminate].
  apply Nat.eqb_eq in Hlen.
  pose proof (Split_length credential "-") as Hsplit.
  pose proof (Split_Join credential "-") as Hjoin.
  destruct (strings_Split credential "-") as [| key [| region [| x l]]];
    cbn [length] in Hsplit; try lia.
  cbn [nth].
  destruct (url_Parse _) as [u | err]; cbn [fst]; [| discriminate].
  intros [= <-]. cbn [dc apiKey].
  split; [lia |]. split; [reflexivity |].
  exists key. cbn [strings_Join] in Hjoin. symmetry. exact Hjoin.
Qed.

(** C7.  From the credential [abc123-us11] a client is constructed, and its
    base URL has the host [us11.api.mailchimp.com]; written out, the base
    URL is [https://us11.api.mailchimp.com/3.0]. *)
Theorem NewClient_abc123_us11 (httpClient : option http_Client) :
  exists (c : Client) (u : URL),
    NewClient "abc123-us11" httpClient = (Some c, None)
    /\ GetBaseURL c = Some u
    /\ Scheme u = "https"
    /\ Host u = "us11.api.mailchimp.com"
    /\ Path u = "/3.0"
    /\ URL_String u = "https://us11.api.mailchimp.com/3.0"
    /\ dc c = "us11"
    /\ apiKey c = "abc123-us11".
Proof.
  exists {| client := match httpClient with
                       | None => http_DefaultClient
                       | Some hc => hc
                       end;
            baseURL := Some sample_URL; dc := "us11";
            apiKey := "abc123-us11" |}, sample_URL.
  split; [destruct httpClient; vm_compute; reflexivity |].
  repeat split; vm_compute; reflexivity.
Qed.

(** C9.  After [SetBaseURL(u)] the accessor returns [u], and the stored
    credential, the data centre and the transport handle are what they
    were. *)
Theorem SetBaseURL_GetBaseURL (c : Client) (u : option URL) :
  GetBaseURL (SetBaseURL c u) = u
  /\ apiKey (SetBaseURL c u) = apiKey c
  /\ dc (SetBaseURL c u) = dc c
  /\ client (SetBaseURL c u) = client c.
Proof. repeat split. Qed.

(** The setter on a client fresh from [NewClient]. *)
Lemma SetBaseURL_after_NewClient
      (key : string) (httpClient : option http_Client) (c : Client)
      (u : option URL) :
  fst (NewClient key httpClient) = Some c ->
  GetBaseURL (SetBaseURL c u) = u /\ apiKey (SetBaseURL c u) = key.
Proof.
  intros Hc. apply NewClient_constructed in Hc as (_ & Hkey & _).
  split; [reflexivity | exact Hkey].
Qed.

(** ** The error message *)

(** The message of an error value: the word [Error], the status in
    decimal, the title, and the detail in parentheses. *)
Lemma Error_format (e : ErrorResponse) :
  Error e
  = "Error " +:+ strconv_Itoa (Status e) +:+ " " +:+ Title e
    +:+ " (" +:+ Detail e +:+ ")".
Proof.
  unfold Error, fmt_Sprintf.
  cbn [fmt_Sprintf_aux ascii_eqb Ascii.eqb Bool.eqb String.append].
  reflexivity.
Qed.

(** ** The scanner *)

Lemma scan_bytes_error (s : scanner) (data : string) :
  step s = stateError -> scan_bytes s data = s.
Proof.
  revert s. induction data as [| c data IH]; intros s Hs; [reflexivity |].
  cbn [scan_bytes]. unfold scanner_step. rewrite Hs. apply IH, Hs.
Qed.

(** A text whose first byte is neither white space nor the start of a
    value is not JSON, whatever follows: an HTML error page, say. *)
Lemma checkValid_bad_first_byte (c : ascii) (rest : string) :
  isSpace c = false -> starts_value c = false ->
  checkValid (String c rest)
  = Some (json_SyntaxError "looking for beginning of value").
Proof.
  intros Hspace Hstart. unfold checkValid. cbn [scan_bytes].
  assert (scanner_step scanner_reset c
          = scan_error scanner_reset "looking for beginning of value")
    as ->.
  { destruct c as [[] [] [] [] [] [] [] []];
      vm_compute in Hspace, Hstart |- *;
      first [discriminate | reflexivity]. }
  rewrite scan_bytes_error by reflexivity. reflexivity.
Qed.

Lemma checkValid_empty :
  checkValid EmptyString
  = Some (json_SyntaxError "unexpected end of JSON input").
Proof. reflexivity. Qed.

(** A text that is not valid JSON leaves the struct untouched. *)
Lemma json_Unmarshal_invalid (data : string) (v : ErrorResponse) :
  checkValid data <> None -> fst (json_Unmarshal data v) = v.
Proof.
  intros Hbad. unfold json_Unmarshal.
  destruct (checkValid data); [reflexivity | congruence].
Qed.

(** ** Classifying a response *)

Lemma outside_band (c : Z) :
  ~ (200 <= c <= 299) -> (200 <=? c) && (c <=? 299) = false.
Proof.
  intros H. apply not_true_is_false. intros Hb.
  apply andb_true_iff in Hb as [H1 H2]. lia.
Qed.

(** Outside the success band the result is always an [*ErrorResponse],
    decoded from the body alone. *)
Lemma checkResponse_outside_band (r : Response) :
  ~ (200 <= StatusCode r <= 299) ->
  checkResponse r
  = Some (ErrorResponse_ptr
            match read_error (ResponseBody r) with
            | None =>
              fst (json_Unmarshal (content (ResponseBody r))
                                  new_ErrorResponse)
            | Some _ => new_ErrorResponse
            end).
Proof.
  intros Hband. unfold checkResponse.
  rewrite (outside_band _ Hband). unfold ioutil_ReadAll.
  destruct (read_error (ResponseBody r)); reflexivity.
Qed.

(** An empty body, a body that is not valid JSON and a body that cannot
    be read all give the zero [ErrorResponse]. *)
Lemma checkResponse_zero_envelope (r : Response) :
  ~ (200 <= StatusCode r <= 299) ->
  content (ResponseBody r) = EmptyString
  \/ checkValid (content (ResponseBody r)) <> None
  \/ read_error (ResponseBody r) <> None ->
  checkResponse r = Some (ErrorResponse_ptr new_ErrorResponse).
Proof.
  intros Hband Hbody. rewrite (checkResponse_outside_band _ Hband).
  destruct (read_error (ResponseBody r)) as [e |]; [reflexivity |].
  rewrite json_Unmarshal_invalid; [reflexivity |].
  destruct Hbody as [Hempty | [Hbad | Hread]].
  - rewrite Hempty. discriminate.
  - exact Hbad.
  - congruence.
Qed.

(** C3.  A status code from 200 to 299 is a success: [checkResponse]
    returns no error, whatever the body holds. *)
Theorem checkResponse_success_band (r : Response) :
  200 <= StatusCode r <= 299 -> checkResponse r = None.
Proof.
  intros [Hlo Hhi]. unfold checkResponse.
  apply Z.leb_le in Hlo. apply Z.leb_le in Hhi.
  rewrite Hlo, Hhi. reflexivity.
Qed.

Lemma checkResponse_success_band_witness :
  200 <= 204 <= 299
  /\ checkResponse
       {| StatusCode := 204; Header := [];
          ResponseBody := {| content := "<html>"; read_error := None |} |}
     = None.
Proof.
  split; [lia |].
  apply (checkResponse_success_band
           {| StatusCode := 204; Header := [];
              ResponseBody := {| content := "<html>";
                                 read_error := None |} |}).
  cbn [StatusCode]. lia.
Defined.

Lemma target_saveError (d : decodeState) (e : error) :
  target (saveError d e) = target d.
Proof. unfold saveError. destruct (savedError d); reflexivity. Qed.

(** A value that does not fit the field it is meant for is not stored. *)
Lemma literalStore_no_fit (d : decodeState) (f : field) (t : token) :
  fits f t = false -> target (literalStore d f t) = target d.
Proof.
  destruct t as [| | | | | | raw | lit | b |]; cbn [fits literalStore];
    intros Hfit; rewrite ?target_saveError; try reflexivity.
  - destruct (unquote 0 raw) as [s |]; [| apply target_saveError].
    destruct f; try discriminate Hfit. apply target_saveError.
  - destruct f; try apply target_saveError.
    destruct (strconv_ParseInt64 lit); [discriminate Hfit |].
    apply target_saveError.
Qed.

Lemma decode_object_done (d : decodeState) (ts : list token) :
  decode_object WDone d ts = d.
Proof. destruct ts; reflexivity. Qed.

(** An object without a member that fits leaves the struct as it was. *)
Lemma decode_object_no_fit (ts : list token) :
  forall (w : walk) (d : decodeState),
    fitting_member w ts = false ->
    target (decode_object w d ts) = target d.
Proof.
  induction ts as [| t ts IH]; intros w d Hfit; [reflexivity |].
  destruct w as [| f | f | depth | |];
    cbn [decode_object fitting_member] in *.
  - destruct t; rewrite ?decode_object_done; try reflexivity.
    apply IH, Hfit.
  - apply IH, Hfit.
  - destruct t;
      try (rewrite (IH _ _ Hfit); destruct f; rewrite ?target_saveError;
           reflexivity);
      apply orb_false_iff in Hfit as [Hvalue Hrest];
      rewrite (IH _ _ Hrest);
      (destruct f as [f' |]; [apply literalStore_no_fit, Hvalue
                             | reflexivity]).
  - destruct t; try (apply IH, Hfit);
      destruct depth as [| [| k]]; apply IH, Hfit.
  - destruct t; rewrite ?decode_object_done; try reflexivity.
    apply IH, Hfit.
  - reflexivity.
Qed.

(** A text without a member that fits leaves the struct as it was,
    whether [json.Unmarshal] returns an error or not. *)
Lemma json_Unmarshal_no_fit (data : string) (v : ErrorResponse) :
  has_fitting_member data = false ->
  fst (json_Unmarshal data v) = v.
Proof.
  unfold json_Unmarshal, has_fitting_member. intros Hfit.
  destruct (checkValid data); [reflexivity |]. cbn [fst].
  destruct (lex LIdle data) as [| t ts]; [reflexivity |].
  destruct t; cbn [decode_value]; rewrite ?target_saveError;
    try reflexivity.
  apply (decode_object_no_fit ts WKey {| target := v; savedError := None |}
                              Hfit).
Qed.

(** ** Classifying in a store *)

(** The status code and the body are all that [checkResponse] looks at. *)
Lemma checkResponse_same_input (r1 r2 : Response) :
  StatusCode r1 = StatusCode r2 ->
  ResponseBody r1 = ResponseBody r2 ->
  checkResponse r1 = checkResponse r2.
Proof.
  intros Hcode Hbody. unfold checkResponse. rewrite Hcode, Hbody.
  reflexivity.
Qed.

(** In the success band nothing is read and nothing is allocated. *)
Lemma checkResponse_stored_success (r : StoredResponse) (s : Store) :
  200 <= StoredStatusCode r <= 299 ->
  checkResponse_stored r s = (None, s)
  /\ checkResponse (snapshot s r) = None.
Proof.
  intros [Hlo Hhi]. unfold checkResponse_stored, checkResponse.
  cbn [snapshot StatusCode].
  apply Z.leb_le in Hlo. apply Z.leb_le in Hhi.
  rewrite Hlo, Hhi. split; reflexivity.
Qed.

(** Outside the success band the pointer returned is fresh, the cell it
    points to holds what [checkResponse] makes of the status code and of the
    bytes the body still held, and the body is drained. *)
Lemma checkResponse_stored_failure (r : StoredResponse) (s : Store) :
  ~ (200 <= StoredStatusCode r <= 299) ->
  exists e : ErrorResponse,
    checkResponse (snapshot s r) = Some (ErrorResponse_ptr e)
    /\ checkResponse_stored r s
       = (Some (length (cells s)),
          {| streams :=
               match streams s !! StoredBody r with
               | Some b => <[StoredBody r := drained b]> (streams s)
               | None => streams s
               end;
             cells := cells s ++ [e] |}).
Proof.
  intros Hband.
  rewrite (checkResponse_outside_band (snapshot s r) Hband).
  eexists. split; [reflexivity |].
  unfold checkResponse_stored. rewrite (outside_band _ Hband).
  unfold new_ErrorResponse_stored, ioutil_ReadAll_stored, snapshot, unread.
  cbn [streams cells ResponseBody].
  assert (Hlast : forall (l : list ErrorResponse) (x : ErrorResponse),
             (l ++ [x]) !! length l = Some x)
    by (intros l x; apply list_lookup_middle; reflexivity).
  assert (Hset : forall (l : list ErrorResponse) (x y : ErrorResponse),
             <[length l := y]> (l ++ [x]) = l ++ [y]).
  { intros l x y. rewrite insert_app_r_alt by apply Nat.le_refl.
    rewrite Nat.sub_diag. reflexivity. }
  destruct (streams s !! StoredBody r) as [b |];
    unfold ioutil_ReadAll; cbn [content read_error].
  - destruct (read_error b) as [e |]; [reflexivity |].
    unfold json_Unmarshal_stored. cbn [streams cells]. rewrite Hlast.
    destruct (json_Unmarshal (content b) new_ErrorResponse) as [v err].
    cbn [snd fst streams cells]. rewrite Hset. reflexivity.
  - unfold json_Unmarshal_stored. cbn [streams cells]. rewrite Hlast.
    destruct (json_Unmarshal EmptyString new_ErrorResponse) as [v err].
    cbn [snd fst streams cells]. rewrite Hset. reflexivity.
Qed.

(** C8.  [checkResponse] keeps nothing between calls.  When it is called
    on a response and then on a response that, at that moment, has the same
    status code and a body holding the same bytes, the two results are
    equal.  Each result is what the status code and the bytes the body held
    at the call give; the second call leaves the first result as it was and
    returns another pointer.  The only traces a call leaves in the store are
    the drained body of its own response and the cell it allocated. *)
Theorem checkResponse_no_hidden_state
        (r1 r2 : StoredResponse) (s : Store) :
  StoredStatusCode r1 = StoredStatusCode r2 ->
  unread (snd (checkResponse_stored r1 s)) (StoredBody r2)
  = unread s (StoredBody r1) ->
  let first := checkResponse_stored r1 s in
  let second := checkResponse_stored r2 (snd first) in
  held (snd second) (fst first) = held (snd second) (fst second)
  /\ held (snd second) (fst first) = held (snd first) (fst first)
  /\ held (snd first) (fst first) = checkResponse (snapshot s r1)
  /\ held (snd second) (fst second)
     = checkResponse (snapshot (snd first) r2)
  /\ (fst first = None \/ fst first <> fst second)
  /\ (forall id : nat,
         id <> StoredBody r1 ->
         streams (snd first) !! id = streams s !! id)
  /\ (forall (p : nat) (e : ErrorResponse),
         cells s !! p = Some e -> cells (snd second) !! p = Some e).
Proof.
  intros Hcode Hbody. cbv zeta.
  assert (Hsame : checkResponse (snapshot (snd (checkResponse_stored r1 s)) r2)
                  = checkResponse (snapshot s r1)).
  { apply checkResponse_same_input; cbn [snapshot StatusCode ResponseBody];
      [symmetry; exact Hcode | exact Hbody]. }
  revert Hsame. clear Hbody.
  destruct (decide (200 <= StoredStatusCode r1 <= 299)) as [Hband1 | Hband1].
  - destruct (checkResponse_stored_success r1 s Hband1) as [-> ->].
    cbn [fst snd].
    assert (200 <= StoredStatusCode r2 <= 299) as Hband2 by lia.
    destruct (checkResponse_stored_success r2 s Hband2) as [-> ->].
    cbn [fst snd held]. intros _. repeat split; auto.
  - intros Hsame.
    assert (~ (200 <= StoredStatusCode r2 <= 299)) as Hband2
        by (rewrite <- Hcode; exact Hband1).
    destruct (checkResponse_stored_failure r1 s Hband1)
      as (e1 & He1 & Hfirst).
    rewrite Hfirst in *. cbn [fst snd] in *.
    match goal with
    | |- context [checkResponse_stored r2 ?s1] =>
      destruct (checkResponse_stored_failure r2 s1 Hband2)
        as (e2 & He2 & Hsecond)
    end.
    rewrite Hsecond. cbn [fst snd streams cells] in *.
    rewrite He1, He2 in *.
    assert (e2 = e1) as -> by congruence.
    unfold held. cbn [cells].
    rewrite (list_lookup_middle (cells s ++ [e1]) [] e1 _ eq_refl).
    rewrite (lookup_app_l_Some _ [e1] _ e1
               (list_lookup_middle (cells s) [] e1 _ eq_refl)).
    rewrite (list_lookup_middle (cells s) [] e1 _ eq_refl).
    repeat split; try reflexivity.
    + right. rewrite List.length_app. cbn [length]. intros [= H].
      revert H. clear. intros H. apply (f_equal Z.of_nat) in H.
      rewrite Nat2Z.inj_add in H. cbn in H. lia.
    + intros id Hid. destruct (streams s !! StoredBody r1); [| reflexivity].
      apply lookup_insert_ne. congruence.
    + intros p e Hp. apply lookup_app_l_Some, lookup_app_l_Some, Hp.
Qed.

Lemma checkResponse_no_hidden_state_witness :
  let b := {| content := dq "{'title':'Gone','status':410}";
              read_error := None |} in
  let s := {| streams := {[ 1%nat := b; 2%nat := b ]}; cells := [] |} in
  let r1 := {| StoredStatusCode := 410; StoredHeader := [];
               StoredBody := 1 |} in
  let r2 := {| StoredStatusCode := 410;
               StoredHeader := [("Content-Type", "application/problem+json")];
               StoredBody := 2 |} in
  let first := checkResponse_stored r1 s in
  let second := checkResponse_stored r2 (snd first) in
  StoredStatusCode r1 = StoredStatusCode r2
  /\ unread (snd first) (StoredBody r2) = unread s (StoredBody r1)
  /\ held (snd second) (fst second)
     = Some (ErrorResponse_ptr
               {| Type_ := EmptyString; Title := "Gone"; Status := 410;
                  Detail := EmptyString |})
  /\ held (snd second) (fst first) = held (snd second) (fst second)
  /\ held (snd second) (fst first) = held (snd first) (fst first)
  /\ held (snd first) (fst first) = checkResponse (snapshot s r1)
  /\ held (snd second) (fst second)
     = checkResponse (snapshot (snd first) r2)
  /\ (fst first = None \/ fst first <> fst second)
  /\ (forall id : nat,
         id <> StoredBody r1 ->
         streams (snd first) !! id = streams s !! id)
  /\ (forall (p : nat) (e : ErrorResponse),
         cells s !! p = Some e -> cells (snd second) !! p = Some e).
Proof.
  intros b s r1 r2 first second.
  split; [reflexivity |].
  split; [vm_compute; reflexivity |].
  split; [vm_compute; reflexivity |].
  apply (checkResponse_no_hidden_state r1 r2 s).
  - reflexivity.
  - vm_compute. reflexivity.
Defined.

(** A body is read once.  When [checkResponse] is called a second time on
    the response it has just classified as a failure, the body holds no
    more bytes, and the second result is the zero [ErrorResponse], whatever
    the first one was. *)
Lemma checkResponse_stored_again (r : StoredResponse) (s : Store) :
  ~ (200 <= StoredStatusCode r <= 299) ->
  is_Some (streams s !! StoredBody r) ->
  let first := checkResponse_stored r s in
  let second := checkResponse_stored r (snd first) in
  unread (snd first) (StoredBody r) = drained (unread s (StoredBody r))
  /\ held (snd second) (fst second)
     = Some (ErrorResponse_ptr new_ErrorResponse).
Proof.
  intros Hband [b Hb]. cbv zeta.
  destruct (checkResponse_stored_failure r s Hband) as (e1 & He1 & Hfirst).
  rewrite Hfirst. cbn [fst snd]. rewrite Hb.
  assert (Hdrained :
            unread {| streams := <[StoredBody r := drained b]> (streams s);
                      cells := cells s ++ [e1] |} (StoredBody r)
            = drained b).
  { unfold unread. cbn [streams]. rewrite lookup_insert_eq. reflexivity. }
  split; [rewrite Hdrained; unfold unread; rewrite Hb; reflexivity |].
  match goal with
  | |- context [checkResponse_stored r ?s1] =>
    destruct (checkResponse_stored_failure r s1 Hband)
      as (e2 & He2 & Hsecond)
  end.
  rewrite Hsecond. cbn [fst snd held cells].
  rewrite (list_lookup_middle (cells s ++ [e1]) [] e2 _ eq_refl).
  rewrite <- He2. apply checkResponse_zero_envelope; [exact Hband |].
  left. cbn [snapshot ResponseBody]. rewrite Hdrained. reflexivity.
Qed.

(** C4.  The message of an [ErrorResponse] is [Error], the status in
    decimal, the title, and the detail in parentheses.  The 404 response
    with the body
    [{"type":"t","title":"Not Found","status":404,"detail":"x"}] is
    classified as the [ErrorResponse] with exactly these four values, whose
    message is [Error 404 Not Found (x)]. *)
Theorem ErrorResponse_message :
  (forall e : ErrorResponse,
      Error e
      = "Error " +:+ strconv_Itoa (Status e) +:+ " " +:+ Title e
        +:+ " (" +:+ Detail e +:+ ")")
  /\ (forall header : list (string * string),
         let found := {| Type_ := "t"; Title := "Not Found"; Status := 404;
                         Detail := "x" |} in
         checkResponse
           {| StatusCode := 404; Header := header;
              ResponseBody :=
                {| content :=
                     dq "{'type':'t','title':'Not Found','status':404,'detail':'x'}";
                   read_error := None |} |}
         = Some (ErrorResponse_ptr found)
         /\ Error found = "Error 404 Not Found (x)").
Proof.
  split; [apply Error_format |].
  intros header. cbv zeta. split; vm_compute; reflexivity.
Qed.

(** C10.  Outside the success band the [ErrorResponse] comes from the body
    alone: another failing status code, with the same body, gives the same
    [ErrorResponse].  In particular an empty body and a body that is not
    JSON give status 0 and the message [Error 0  ()], whatever the status
    code of the response was. *)
Theorem checkResponse_ignores_status_code
        (r : Response) (code' : Z) (header' : list (string * string)) :
  ~ (200 <= StatusCode r <= 299) ->
  ~ (200 <= code' <= 299) ->
  checkResponse {| StatusCode := code'; Header := header';
                   ResponseBody := ResponseBody r |}
  = checkResponse r
  /\ (content (ResponseBody r) = EmptyString
      \/ checkValid (content (ResponseBody r)) <> None ->
      checkResponse r = Some (ErrorResponse_ptr new_ErrorResponse)
      /\ Status new_ErrorResponse = 0
      /\ Error new_ErrorResponse = "Error 0  ()").
Proof.
  intros Hband Hband'. split.
  - rewrite (checkResponse_outside_band r Hband).
    rewrite checkResponse_outside_band by exact Hband'.
    reflexivity.
  - intros Hbody. split; [| split; reflexivity].
    apply checkResponse_zero_envelope; [exact Hband | tauto].
Qed.

Lemma checkResponse_ignores_status_code_witness :
  let r := {| StatusCode := 500; Header := [];
              ResponseBody := {| content := EmptyString;
                                 read_error := None |} |} in
  ~ (200 <= StatusCode r <= 299)
  /\ ~ (200 <= 404 <= 299)
  /\ checkResponse {| StatusCode := 404; Header := [];
                      ResponseBody := ResponseBody r |}
     = checkResponse r
  /\ (content (ResponseBody r) = EmptyString
      \/ checkValid (content (ResponseBody r)) <> None ->
      checkResponse r = Some (ErrorResponse_ptr new_ErrorResponse)
      /\ Status new_ErrorResponse = 0
      /\ Error new_ErrorResponse = "Error 0  ()").
Proof.
  cbv zeta. split; [cbn [StatusCode]; lia |]. split; [lia |].
  apply (checkResponse_ignores_status_code
           {| StatusCode := 500; Header := [];
              ResponseBody := {| content := EmptyString;
                                 read_error := None |} |} 404 []).
  - cbn [StatusCode]. lia.
  - lia.
Defined.

(** ** Dispatch *)

Section DispatchFacts.

Context {E : Collaborators}.

(** C6.  A body that cannot be encoded stops [do] at once: the
    encoder's error is returned, no value is, and the world is as it
    was: no request was built or sent, whatever the method, the path and
    the base URL are. *)
Theorem do_encode_error
        (c : Client) (method path : string) (body : Any) (e : error)
        (w : World) :
  snd (json_Encode body) = Some e ->
  do c method path (Some body) w = ((None, Some e), w).
Proof.
  intros Hencode. unfold do.
  destruct (json_Encode body) as [bytes err]. cbn [snd] in Hencode.
  subst err. reflexivity.
Qed.

End DispatchFacts.

Lemma do_encode_error_witness :
  snd (json_Encode SampleChan)
  = Some (errorString "json: unsupported type: chan int")
  /\ do sample_client "POST" "/lists/x/members/" (Some SampleChan)
        empty_World
     = ((None, Some (errorString "json: unsupported type: chan int")),
        empty_World).
Proof.
  split; [reflexivity |].
  apply (@do_encode_error double sample_client "POST" "/lists/x/members/"
                          SampleChan).
  reflexivity.
Defined.

(** ** More on construction *)

(** X1.  A constructed client comes without an error; it keeps the
    credential as given, its data centre is the segment after the one
    separator, its transport is the one passed in (the default client for
    [nil]), and its base URL is the parsed
    [https://<dc>.api.mailchimp.com/3.0]. *)
Theorem NewClient_client_fields
        (credential : string) (httpClient : option http_Client) (c : Client) :
  fst (NewClient credential httpClient) = Some c ->
  snd (NewClient credential httpClient) = None
  /\ apiKey c = credential
  /\ (exists key : string,
         strings_Split credential "-" = [key; dc c]
         /\ credential = key +:+ "-" +:+ dc c)
  /\ client c = chosen_client httpClient
  /\ exists u : URL,
       baseURL c = Some u
       /\ url_Parse ("https://" +:+ dc c +:+ ".api.mailchimp.com/3.0")
          = inl u.
Proof.
  unfold NewClient.
  destruct (Nat.eqb (length (strings_Split credential "-")) 2) eqn:Hlen;
    cbn [negb]; [| discriminate].
  apply Nat.eqb_eq in Hlen.
  pose proof (Split_Join credential "-") as Hjoin.
  destruct (strings_Split credential "-") as [| key [| region [| x l]]];
    cbn [length] in Hlen; try lia.
  cbn [nth strings_Join] in *.
  assert (fmt_Sprintf "https://%s.api.mailchimp.com/3.0" [AString region]
          = "https://" +:+ region +:+ ".api.mailchimp.com/3.0") as ->.
  { unfold fmt_Sprintf.
    cbn [fmt_Sprintf_aux ascii_eqb Ascii.eqb Bool.eqb String.append].
    reflexivity. }
  destruct (url_Parse _) as [u | e] eqn:Hparse; cbn [fst snd];
    [| discriminate].
  intros [= <-]. cbn [apiKey dc client baseURL].
  split; [reflexivity |]. split; [reflexivity |].
  split; [exists key; split; [reflexivity | symmetry; exact Hjoin] |].
  split; [destruct httpClient; reflexivity |].
  exists u. split; [reflexivity | exact Hparse].
Qed.

Lemma NewClient_client_fields_witness :
  fst (NewClient "abc123-us11" None) = Some sample_client
  /\ snd (NewClient "abc123-us11" None) = None
  /\ apiKey sample_client = "abc123-us11"
  /\ (exists key : string,
         strings_Split "abc123-us11" "-" = [key; dc sample_client]
         /\ "abc123-us11" = key +:+ "-" +:+ dc sample_client)
  /\ client sample_client = chosen_client None
  /\ exists u : URL,
       baseURL sample_client = Some u
       /\ url_Parse ("https://" +:+ dc sample_client
                     +:+ ".api.mailchimp.com/3.0") = inl u.
Proof.
  split; [vm_compute; reflexivity |].
  apply (NewClient_client_fields "abc123-us11" None sample_client).
  vm_compute. reflexivity.
Defined.

(** X2.  [NewClient] returns a client or an error, never both and never
    neither. *)
Theorem NewClient_client_or_error
        (credential : string) (httpClient : option http_Client) :
  (exists c : Client, NewClient credential httpClient = (Some c, None))
  \/ (exists e : error, NewClient credential httpClient = (None, Some e)).
Proof.
  unfold NewClient.
  destruct (negb _); [right; eexists; reflexivity |].
  destruct (url_Parse _) as [u | e].
  - left. eexists. reflexivity.
  - right. eexists. reflexivity.
Qed.

(** ** More on dispatch *)

Lemma append_cons (c : ascii) (s t : string) :
  String c s +:+ t = String c (s +:+ t).
Proof. reflexivity. Qed.

Lemma append_empty_l (s : string) : EmptyString +:+ s = s.
Proof. reflexivity. Qed.

Lemma append_empty_r (s : string) : s +:+ EmptyString = s.
Proof.
  induction s as [| c s IH]; [reflexivity |].
  rewrite append_cons, IH. reflexivity.
Qed.

Lemma Sprintf_two (a b : string) :
  fmt_Sprintf "%s%s" [AString a; AString b] = a +:+ b.
Proof.
  unfold fmt_Sprintf.
  cbn [fmt_Sprintf_aux ascii_eqb Ascii.eqb Bool.eqb].
  rewrite !append_empty_r. reflexivity.
Qed.

(** What [http.NewRequest] puts into a request. *)
Lemma http_NewRequest_fields
      (method url : string) (body : option string) (req : Request) :
  http_NewRequest method url body = inl req ->
  Method req = (if String.eqb method EmptyString then "GET" else method)
  /\ validMethod (Method req) = true
  /\ RequestBody req = body
  /\ BasicAuth req = None
  /\ exists u : URL,
       url_Parse url = inl u
       /\ RequestHost req = removeEmptyPort (Host u)
       /\ Scheme (RequestURL req) = Scheme u
       /\ Path (RequestURL req) = Path u
       /\ RawQuery (RequestURL req) = RawQuery u.
Proof.
  unfold http_NewRequest.
  destruct (validMethod _) eqn:Hvalid; cbn [negb]; [| discriminate].
  destruct (url_Parse url) as [u | e]; [| discriminate].
  intros [= <-]. cbn.
  repeat split; try assumption. exists u. repeat split.
Qed.

Section DispatchPaths.

Context {E : Collaborators}.

(** X3.  Every response body that a call opens is closed when the call
    returns: the number of open bodies is what it was, on every path. *)
Theorem do_closes_body
        (c : Client) (method path : string) (body : option Any) (w : World) :
  open_bodies (snd (do c method path body w)) = open_bodies w.
Proof.
  unfold do.
  destruct body as [b |]; [destruct (json_Encode b) as [bytes [e |]] |];
    try reflexivity;
    (destruct (http_NewRequest _ _ _) as [req | e']; [| reflexivity];
     unfold http_Do;
     destruct (roundTrip _ _ _) as [resp | e'']; [| reflexivity];
     destruct (checkResponse resp); [reflexivity |];
     destruct (json_Decode _); reflexivity).
Qed.

(** X4.  A call never returns both a value and an error. *)
Theorem do_value_or_error
        (c : Client) (method path : string) (body : option Any) (w : World) :
  fst (fst (do c method path body w)) = None
  \/ snd (fst (do c method path body w)) = None.
Proof.
  unfold do.
  destruct body as [b |]; [destruct (json_Encode b) as [bytes [e |]] |];
    try (left; reflexivity);
    (destruct (http_NewRequest _ _ _) as [req | e']; [| left; reflexivity];
     destruct (http_Do _ _ _) as [[resp | e''] w1]; [| left; reflexivity];
     destruct (checkResponse resp); [left; reflexivity |];
     destruct (json_Decode _); [right | left]; reflexivity).
Qed.

(** The part of [do] that follows the encoding of the body. *)
Lemma do_request_sent
      (c : Client) (method path : string) (buf : option string) (w : World) :
  let r :=
    match http_NewRequest method
            (Stringer_URL (GetBaseURL c) +:+ path) buf with
    | inr e => ((None, Some e), w)
    | inl req =>
      match http_Do (client c)
                    (SetBasicAuth req EmptyString (apiKey c)) w with
      | (inr e, w1) => ((None, Some e), w1)
      | (inl resp, w1) =>
        match checkResponse resp with
        | Some e => ((None, Some e), Body_Close w1)
        | None =>
          match json_Decode (ResponseBody resp) with
          | inr e => ((None, Some e), Body_Close w1)
          | inl v => ((Some v, None), Body_Close w1)
          end
        end
      end
    end in
  (sent (snd r) = sent w /\ snd (fst r) <> None)
  \/ exists (req : Request) (u : URL),
       sent (snd r) = sent w ++ [(client c, req)]
       /\ Method req = (if String.eqb method EmptyString then "GET"
                        else method)
       /\ RequestBody req = buf
       /\ BasicAuth req = Some (EmptyString, apiKey c)
       /\ url_Parse (Stringer_URL (GetBaseURL c) +:+ path) = inl u
       /\ RequestHost req = removeEmptyPort (Host u)
       /\ Scheme (RequestURL req) = Scheme u
       /\ Path (RequestURL req) = Path u
       /\ RawQuery (RequestURL req) = RawQuery u.
Proof.
  cbv zeta.
  destruct (http_NewRequest _ _ _) as [req | e] eqn:Hreq.
  - right. apply http_NewRequest_fields in Hreq
      as (Hm & _ & Hb & _ & u & Hu & Hh & Hs & Hp & Hq).
    exists (SetBasicAuth req EmptyString (apiKey c)), u.
    split.
    { unfold http_Do. destruct (roundTrip _ _ _) as [resp | e'].
      - destruct (checkResponse resp); [reflexivity |].
        destruct (json_Decode _); reflexivity.
      - reflexivity. }
    cbn [SetBasicAuth Method RequestBody BasicAuth RequestHost RequestURL].
    repeat split; assumption.
  - left. split; [reflexivity | discriminate].
Qed.

(** X5.  A call either fails before anything is sent, or hands exactly one
    request to the client's own transport.  That request has the method
    asked for ([GET] when none is given), the encoded body, the URL parsed
    from the base URL followed by the path, and basic authentication with an
    empty user name and the credential as password. *)
Theorem do_sends_at_most_one
        (c : Client) (method path : string) (body : option Any) (w : World) :
  (sent (snd (do c method path body w)) = sent w
   /\ snd (fst (do c method path body w)) <> None)
  \/ exists (req : Request) (u : URL),
       sent (snd (do c method path body w)) = sent w ++ [(client c, req)]
       /\ Method req = (if String.eqb method EmptyString then "GET"
                        else method)
       /\ RequestBody req = encoded_body body
       /\ BasicAuth req = Some (EmptyString, apiKey c)
       /\ url_Parse (Stringer_URL (GetBaseURL c) +:+ path) = inl u
       /\ RequestHost req = removeEmptyPort (Host u)
       /\ Scheme (RequestURL req) = Scheme u
       /\ Path (RequestURL req) = Path u
       /\ RawQuery (RequestURL req) = RawQuery u.
Proof.
  unfold do. rewrite Sprintf_two.
  destruct body as [b |]; [destruct (json_Encode b) as [bytes [e |]] eqn:Hb |];
    cbn [encoded_body fst].
  - left. split; [reflexivity | discriminate].
  - rewrite Hb. cbn [fst]. apply do_request_sent.
  - apply do_request_sent.
Qed.

End DispatchPaths.

(** ** Plain texts in a URL *)

Ltac by_byte c :=
  destruct c as [[] [] [] [] [] [] [] []];
  vm_compute in *; try discriminate; try reflexivity; auto.

Lemma all_bytes_app (P : ascii -> bool) (a b : string) :
  all_bytes P (a +:+ b) = all_bytes P a && all_bytes P b.
Proof.
  induction a as [| c a IH]; [reflexivity |].
  rewrite append_cons. cbn [all_bytes]. rewrite IH.
  destruct (P c); reflexivity.
Qed.

Lemma all_bytes_impl (P Q : ascii -> bool) (s : string) :
  (forall c, P c = true -> Q c = true) ->
  all_bytes P s = true -> all_bytes Q s = true.
Proof.
  intros HPQ. induction s as [| c s IH]; [reflexivity |].
  cbn [all_bytes]. intros H. apply andb_true_iff in H as [Hc Hs].
  rewrite (HPQ c Hc), (IH Hs). reflexivity.
Qed.

Lemma alnum_host_byte (c : ascii) : alnum_byte c = true -> host_byte c = true.
Proof. unfold host_byte. intros ->. reflexivity. Qed.

Lemma host_path_byte (c : ascii) : host_byte c = true -> path_byte c = true.
Proof. by_byte c. Qed.

Lemma all_bytes_not_contains (P : ascii -> bool) (s : string) (c : ascii) :
  P c = false -> all_bytes P s = true -> strings_Contains1 s c = false.
Proof.
  intros Hc. induction s as [| d s IH]; [reflexivity |].
  cbn [all_bytes strings_Contains1]. intros H.
  apply andb_true_iff in H as [Hd Hs]. rewrite (IH Hs).
  destruct (ascii_eqb c d) eqn:Hcd; [| reflexivity].
  apply ascii_eqb_eq in Hcd. congruence.
Qed.

Lemma Contains1_app (a b : string) (c : ascii) :
  strings_Contains1 (a +:+ b) c
  = strings_Contains1 a c || strings_Contains1 b c.
Proof.
  induction a as [| d a IH]; [reflexivity |].
  rewrite append_cons. cbn [strings_Contains1]. rewrite IH.
  destruct (ascii_eqb c d); reflexivity.
Qed.

Lemma ascii_eqb_sym (a b : ascii) : ascii_eqb a b = ascii_eqb b a.
Proof.
  destruct (ascii_eqb a b) eqn:Hab, (ascii_eqb b a) eqn:Hba; try reflexivity.
  - apply ascii_eqb_eq in Hab. subst. rewrite ascii_eqb_refl in Hba.
    discriminate.
  - apply ascii_eqb_eq in Hba. subst. rewrite ascii_eqb_refl in Hab.
    discriminate.
Qed.

Lemma Cut1_absent (s : string) (c : ascii) :
  strings_Contains1 s c = false ->
  strings_Cut1 s c = (s, EmptyString, false).
Proof.
  induction s as [| d s IH]; [reflexivity |].
  cbn [strings_Contains1 strings_Cut1]. intros H.
  apply orb_false_elim in H as [Hd Hs].
  rewrite ascii_eqb_sym, Hd, (IH Hs). reflexivity.
Qed.

Lemma cut_last_absent (s : string) (c : ascii) :
  strings_Contains1 s c = false -> cut_last s c = None.
Proof.
  induction s as [| d s IH]; [reflexivity |].
  cbn [strings_Contains1 cut_last]. intros H.
  apply orb_false_elim in H as [Hd Hs].
  rewrite (IH Hs), ascii_eqb_sym, Hd. reflexivity.
Qed.

Lemma Count1_absent (s : string) (c : ascii) :
  strings_Contains1 s c = false -> strings_Count1 s c = 0%nat.
Proof.
  induction s as [| d s IH]; [reflexivity |].
  cbn [strings_Contains1 strings_Count1]. intros H.
  apply orb_false_elim in H as [Hd Hs].
  rewrite (IH Hs), ascii_eqb_sym, Hd. reflexivity.
Qed.

Lemma Index1_absent (s : string) (c : ascii) :
  strings_Contains1 s c = false ->
  strings_Index s (String c EmptyString) = None.
Proof.
  induction s as [| d s IH]; [reflexivity |].
  cbn [strings_Contains1]. intros H.
  apply orb_false_elim in H as [Hd Hs].
  cbn [strings_Index]. rewrite prefix_one, ascii_eqb_sym, Hd, (IH Hs).
  reflexivity.
Qed.

Lemma Index1_app (a b : string) (c : ascii) :
  strings_Contains1 a c = false ->
  strings_Index (a +:+ String c b) (String c EmptyString)
  = Some (String.length a).
Proof.
  induction a as [| d a IH].
  - intros _. rewrite append_empty_l. cbn [strings_Index].
    rewrite prefix_one, ascii_eqb_refl. reflexivity.
  - cbn [strings_Contains1]. intros H.
    apply orb_false_elim in H as [Hd Hs].
    rewrite append_cons. cbn [strings_Index].
    rewrite prefix_one, ascii_eqb_sym, Hd, (IH Hs). reflexivity.
Qed.

Lemma substring_all (s : string) :
  String.substring 0 (String.length s) s = s.
Proof.
  induction s as [| c s IH]; [reflexivity |].
  cbn [String.length String.substring]. rewrite IH. reflexivity.
Qed.

Lemma length_app (a b : string) :
  String.length (a +:+ b) = (String.length a + String.length b)%nat.
Proof.
  induction a as [| c a IH]; [reflexivity |].
  rewrite append_cons. cbn [String.length]. rewrite IH. reflexivity.
Qed.

Lemma take_app (a b : string) : take (String.length a) (a +:+ b) = a.
Proof.
  unfold take. induction a as [| c a IH].
  - rewrite append_empty_l. destruct b; reflexivity.
  - rewrite append_cons. cbn [String.length String.substring].
    rewrite IH. reflexivity.
Qed.

Lemma drop_app (a b : string) : drop (String.length a) (a +:+ b) = b.
Proof.
  unfold drop. induction a as [| c a IH].
  - rewrite append_empty_l. cbn [String.length].
    rewrite Nat.sub_0_r. apply substring_all.
  - rewrite append_cons. cbn [String.length String.substring Nat.sub].
    exact IH.
Qed.

Lemma CTL_app (a b : string) :
  stringContainsCTLByte (a +:+ b)
  = stringContainsCTLByte a || stringContainsCTLByte b.
Proof.
  induction a as [| c a IH]; [reflexivity |].
  rewrite append_cons. cbn [stringContainsCTLByte]. rewrite IH.
  rewrite !orb_assoc. reflexivity.
Qed.

Lemma path_bytes_no_CTL (s : string) :
  all_bytes path_byte s = true -> stringContainsCTLByte s = false.
Proof.
  induction s as [| c s IH]; [reflexivity |].
  cbn [all_bytes stringContainsCTLByte]. intros H.
  apply andb_true_iff in H as [Hc Hs]. rewrite (IH Hs).
  clear - Hc. by_byte c.
Qed.

Lemma host_bytes_unescape (h : string) :
  all_bytes host_byte h = true -> unescape h encodeHost = (h, None).
Proof.
  intros Hh. unfold unescape.
  assert (unescape_check h encodeHost = None) as ->.
  { induction h as [| c h IH]; [reflexivity |].
    cbn [all_bytes] in Hh. apply andb_true_iff in Hh as [Hc Hs].
    cbn [unescape_check].
    assert (ascii_eqb c "%" = false) as -> by (clear - Hc; by_byte c).
    assert (is_host_mode encodeHost && (code c <? 128)
            && shouldEscape c encodeHost = false) as ->
        by (clear - Hc; by_byte c).
    apply IH, Hs. }
  f_equal.
  induction h as [| c h IH]; [reflexivity |].
  cbn [all_bytes] in Hh. apply andb_true_iff in Hh as [Hc Hs].
  cbn [unescape_decode].
  assert (ascii_eqb c "%" = false) as -> by (clear - Hc; by_byte c).
  assert (ascii_eqb c "+" = false) as -> by (clear - Hc; by_byte c).
  rewrite (IH Hs). reflexivity.
Qed.

Lemma path_bytes_unescape (p : string) :
  all_bytes path_byte p = true -> unescape p encodePath = (p, None).
Proof.
  intros Hp. unfold unescape.
  assert (unescape_check p encodePath = None) as ->.
  { induction p as [| c p IH]; [reflexivity |].
    cbn [all_bytes] in Hp. apply andb_true_iff in Hp as [Hc Hs].
    cbn [unescape_check is_host_mode andb].
    assert (ascii_eqb c "%" = false) as -> by (clear - Hc; by_byte c).
    apply IH, Hs. }
  f_equal.
  induction p as [| c p IH]; [reflexivity |].
  cbn [all_bytes] in Hp. apply andb_true_iff in Hp as [Hc Hs].
  cbn [unescape_decode].
  assert (ascii_eqb c "%" = false) as -> by (clear - Hc; by_byte c).
  assert (ascii_eqb c "+" = false) as -> by (clear - Hc; by_byte c).
  rewrite (IH Hs). reflexivity.
Qed.

Lemma host_bytes_escape (h : string) :
  all_bytes host_byte h = true -> escape h encodeHost = h.
Proof.
  induction h as [| c h IH]; [reflexivity |].
  cbn [all_bytes escape]. intros H.
  apply andb_true_iff in H as [Hc Hs].
  assert (shouldEscape c encodeHost = false) as -> by (clear - Hc; by_byte c).
  rewrite (IH Hs). reflexivity.
Qed.

Lemma path_bytes_escape (p : string) :
  all_bytes path_byte p = true -> escape p encodePath = p.
Proof.
  induction p as [| c p IH]; [reflexivity |].
  cbn [all_bytes escape]. intros H.
  apply andb_true_iff in H as [Hc Hs].
  assert (shouldEscape c encodePath = false) as -> by (clear - Hc; by_byte c).
  rewrite (IH Hs). reflexivity.
Qed.

Lemma eqb_refl (s : string) : String.eqb s s = true.
Proof. apply String.eqb_eq. reflexivity. Qed.

Lemma setPath_plain (u : URL) (p : string) :
  all_bytes path_byte p = true ->
  setPath u p
  = ({| Scheme := Scheme u; Opaque := Opaque u; User := User u;
        Host := Host u; Path := p; RawPath := EmptyString;
        OmitHost := OmitHost u; ForceQuery := ForceQuery u;
        RawQuery := RawQuery u; Fragment := Fragment u;
        RawFragment := RawFragment u |}, None).
Proof.
  intros Hp. unfold setPath.
  rewrite (path_bytes_unescape p Hp), (path_bytes_escape p Hp), eqb_refl.
  reflexivity.
Qed.

Lemma parseHost_plain (h : string) :
  all_bytes host_byte h = true -> parseHost h = (h, None).
Proof.
  intros Hh. unfold parseHost.
  assert (strings_HasPrefix h "[" = false) as ->.
  { unfold strings_HasPrefix. destruct h as [| c h]; [reflexivity |].
    rewrite prefix_one. cbn [all_bytes] in Hh.
    apply andb_true_iff in Hh as [Hc _]. clear - Hc. by_byte c. }
  rewrite (cut_last_absent h ":")
    by (apply (all_bytes_not_contains host_byte); [reflexivity | exact Hh]).
  apply host_bytes_unescape, Hh.
Qed.

Lemma parseAuthority_plain (h : string) :
  all_bytes host_byte h = true -> parseAuthority h = (None, h, None).
Proof.
  intros Hh. unfold parseAuthority.
  rewrite (cut_last_absent h "@")
    by (apply (all_bytes_not_contains host_byte); [reflexivity | exact Hh]).
  rewrite (parseHost_plain h Hh). reflexivity.
Qed.

Lemma path_bytes_contains (p : string) (c : ascii) :
  path_byte c = false -> all_bytes path_byte p = true ->
  strings_Contains1 p c = false.
Proof. apply all_bytes_not_contains. Qed.

Lemma host_bytes_contains (h : string) (c : ascii) :
  host_byte c = false -> all_bytes host_byte h = true ->
  strings_Contains1 h c = false.
Proof. apply all_bytes_not_contains. Qed.

(** A path is empty or starts with a slash. *)
Lemma rooted_cases (p : string) :
  p = EmptyString \/ strings_HasPrefix p "/" = true ->
  p = EmptyString \/ exists p', p = String "/" p'.
Proof.
  intros [-> | H]; [left; reflexivity |].
  destruct p as [| c p']; [left; reflexivity |]. right.
  unfold strings_HasPrefix in H. rewrite prefix_one in H.
  apply ascii_eqb_eq in H. subst c. exists p'. reflexivity.
Qed.

Lemma prefix_empty (s : string) : String.prefix EmptyString s = true.
Proof. destruct s; reflexivity. Qed.

Lemma HasPrefix_app (a b : string) : strings_HasPrefix (a +:+ b) a = true.
Proof.
  unfold strings_HasPrefix. induction a as [| c a IH].
  - apply prefix_empty.
  - rewrite append_cons. cbn [String.prefix].
    destruct (ascii_dec c c); [exact IH | congruence].
Qed.

Lemma url_parse_https (h p : string) :
  all_bytes host_byte h = true ->
  all_bytes path_byte p = true ->
  p = EmptyString \/ strings_HasPrefix p "/" = true ->
  url_parse ("https://" +:+ h +:+ p) false = inl (https_URL h p).
Proof.
  intros Hh Hp Hroot.
  pose proof (all_bytes_impl _ _ h host_path_byte Hh) as Hh'.
  unfold url_parse.
  assert (stringContainsCTLByte ("https://" +:+ h +:+ p) = false) as ->.
  { rewrite !CTL_app, (path_bytes_no_CTL h Hh'), (path_bytes_no_CTL p Hp).
    reflexivity. }
  assert (String.eqb ("https://" +:+ h +:+ p) EmptyString = false) as ->
      by reflexivity.
  assert (String.eqb ("https://" +:+ h +:+ p) "*" = false) as ->
      by reflexivity.
  assert (getScheme ("https://" +:+ h +:+ p)
          = ("https", "//" +:+ h +:+ p, None)) as -> by reflexivity.
  cbv beta iota.
  assert (strings_ToLower "https" = "https") as -> by reflexivity.
  assert (strings_Contains1 ("//" +:+ h +:+ p) "?" = false) as Hq.
  { rewrite !Contains1_app,
      (path_bytes_contains h "?" eq_refl Hh'),
      (path_bytes_contains p "?" eq_refl Hp). reflexivity. }
  unfold strings_HasSuffix1. rewrite (cut_last_absent _ _ Hq).
  cbn [andb]. rewrite (Cut1_absent _ _ Hq). cbv beta iota.
  assert (strings_HasPrefix ("//" +:+ h +:+ p) "/" = true) as ->
      by reflexivity.
  rewrite (HasPrefix_app "//").
  assert (String.eqb "https" EmptyString = false) as -> by reflexivity.
  cbn [negb andb orb].
  assert (drop 2 ("//" +:+ h +:+ p) = h +:+ p) as ->
      by (apply (drop_app "//")).
  pose proof (host_bytes_contains h "/" eq_refl Hh) as Hslash.
  destruct (rooted_cases p Hroot) as [-> | [p' ->]].
  - rewrite append_empty_r, (Index1_absent h "/" Hslash).
    rewrite (parseAuthority_plain h Hh), setPath_plain by reflexivity.
    reflexivity.
  - rewrite (Index1_app h p' "/" Hslash), take_app, drop_app.
    rewrite (parseAuthority_plain h Hh), setPath_plain by exact Hp.
    reflexivity.
Qed.

(** Parsing a plain [https] URL: the host and the path are taken as they
    are. *)
Lemma url_Parse_https (h p : string) :
  all_bytes host_byte h = true ->
  all_bytes path_byte p = true ->
  p = EmptyString \/ strings_HasPrefix p "/" = true ->
  url_Parse ("https://" +:+ h +:+ p) = inl (https_URL h p).
Proof.
  intros Hh Hp Hroot.
  pose proof (all_bytes_impl _ _ h host_path_byte Hh) as Hh'.
  unfold url_Parse.
  assert (strings_Contains1 ("https://" +:+ h +:+ p) "#" = false) as Hf.
  { rewrite !Contains1_app,
      (path_bytes_contains h "#" eq_refl Hh'),
      (path_bytes_contains p "#" eq_refl Hp). reflexivity. }
  rewrite (Cut1_absent _ _ Hf), (url_parse_https h p Hh Hp Hroot).
  reflexivity.
Qed.

(** Writing a plain [https] URL out gives the text it was parsed from. *)
Lemma URL_String_https (h p : string) :
  all_bytes host_byte h = true ->
  all_bytes path_byte p = true ->
  p = EmptyString \/ strings_HasPrefix p "/" = true ->
  h <> EmptyString \/ p <> EmptyString ->
  URL_String (https_URL h p) = "https://" +:+ h +:+ p.
Proof.
  intros Hh Hp Hroot Hne.
  unfold URL_String, EscapedPath, https_URL.
  cbn [Scheme Opaque User Host Path RawPath OmitHost ForceQuery RawQuery
       Fragment RawFragment].
  rewrite (path_bytes_escape p Hp).
  assert (String.eqb p "*" = false) as Hstar.
  { destruct (rooted_cases p Hroot) as [-> | [p' ->]]; reflexivity. }
  rewrite Hstar.
  destruct h as [| c h].
  - destruct (rooted_cases p Hroot) as [-> | [p' ->]];
      [destruct Hne; congruence |].
    cbn. rewrite ?append_cons, ?append_empty_l, ?append_empty_r.
    reflexivity.
  - rewrite (host_bytes_escape _ Hh).
    destruct (rooted_cases p Hroot) as [-> | [p' ->]]; cbn;
      repeat (rewrite ?append_cons, ?append_empty_l, ?append_empty_r);
      reflexivity.
Qed.

(** ** Credentials with a plain data centre *)

Lemma genSplit1_absent (s : string) (c : ascii) :
  strings_Contains1 s c = false ->
  genSplit (String c EmptyString) 0 s = [s].
Proof.
  induction s as [| d s IH]; [reflexivity |].
  cbn [strings_Contains1]. intros H.
  apply orb_false_elim in H as [Hd Hs].
  cbn [genSplit]. rewrite prefix_one, ascii_eqb_sym, Hd, (IH Hs).
  reflexivity.
Qed.

(** Two texts without the separator, joined by it, split into the same
    two texts. *)
Lemma Split_two (key region : string) (c : ascii) :
  strings_Contains1 key c = false ->
  strings_Contains1 region c = false ->
  strings_Split (key +:+ String c region) (String c EmptyString)
  = [key; region].
Proof.
  intros Hkey Hregion. unfold strings_Split.
  induction key as [| d key IH].
  - rewrite append_empty_l. cbn [genSplit].
    rewrite prefix_one, ascii_eqb_refl.
    cbn [String.length Nat.sub]. rewrite (genSplit1_absent _ _ Hregion).
    reflexivity.
  - cbn [strings_Contains1] in Hkey.
    apply orb_false_elim in Hkey as [Hd Hs].
    rewrite append_cons. cbn [genSplit].
    rewrite prefix_one, ascii_eqb_sym, Hd, (IH Hs). reflexivity.
Qed.

Lemma append_assoc (a b c : string) : (a +:+ b) +:+ c = a +:+ b +:+ c.
Proof.
  induction a as [| x a IH]; [reflexivity |].
  rewrite !append_cons, IH. reflexivity.
Qed.

(** What [NewClient] builds from a key without separator and a data
    centre of letters and digits. *)
Lemma NewClient_plain
      (key region : string) (httpClient : option http_Client) :
  strings_Contains1 key "-" = false ->
  all_bytes alnum_byte region = true ->
  NewClient (key +:+ "-" +:+ region) httpClient
  = (Some {| client := chosen_client httpClient;
             baseURL :=
               Some (https_URL (region +:+ ".api.mailchimp.com") "/3.0");
             dc := region;
             apiKey := key +:+ "-" +:+ region |}, None).
Proof.
  intros Hkey Hregion. unfold NewClient.
  assert (strings_Contains1 region "-" = false) as Hdash
      by (apply (all_bytes_not_contains alnum_byte);
          [reflexivity | exact Hregion]).
  change (key +:+ "-" +:+ region) with (key +:+ String "-" region).
  rewrite (Split_two key region "-" Hkey Hdash).
  cbn [length Nat.eqb negb nth].
  assert (fmt_Sprintf "https://%s.api.mailchimp.com/3.0" [AString region]
          = "https://" +:+ (region +:+ ".api.mailchimp.com") +:+ "/3.0")
    as ->.
  { unfold fmt_Sprintf. cbn [fmt_Sprintf_aux ascii_eqb Ascii.eqb Bool.eqb].
    rewrite append_assoc. reflexivity. }
  rewrite url_Parse_https.
  - destruct httpClient; reflexivity.
  - rewrite all_bytes_app.
    rewrite (all_bytes_impl _ _ region alnum_host_byte Hregion).
    reflexivity.
  - reflexivity.
  - right. reflexivity.
Qed.

(** X6.  A credential made of a key without separator, the separator,
    and a data centre of letters and digits always yields a client: its base
    URL is [https://<dc>.api.mailchimp.com/3.0], with exactly that host,
    and it keeps the whole credential. *)
Theorem NewClient_plain_region
        (key region : string) (httpClient : option http_Client) :
  strings_Contains1 key "-" = false ->
  all_bytes alnum_byte region = true ->
  NewClient (key +:+ "-" +:+ region) httpClient
  = (Some {| client := chosen_client httpClient;
             baseURL :=
               Some (https_URL (region +:+ ".api.mailchimp.com") "/3.0");
             dc := region;
             apiKey := key +:+ "-" +:+ region |}, None).
Proof. apply NewClient_plain. Qed.

Lemma NewClient_plain_region_witness :
  strings_Contains1 "abc123" "-" = false
  /\ all_bytes alnum_byte "us11" = true
  /\ NewClient ("abc123" +:+ "-" +:+ "us11") (Some (http_ClientHandle 7))
     = (Some {| client := chosen_client (Some (http_ClientHandle 7));
                baseURL :=
                  Some (https_URL ("us11" +:+ ".api.mailchimp.com") "/3.0");
                dc := "us11";
                apiKey := "abc123" +:+ "-" +:+ "us11" |}, None).
Proof.
  split; [reflexivity |]. split; [reflexivity |].
  apply (NewClient_plain_region "abc123" "us11"
                                (Some (http_ClientHandle 7)));
    reflexivity.
Defined.

(** ** Requests to a plain base URL *)

Lemma validMethod_POST : validMethod "POST" = true.
Proof. reflexivity. Qed.

(** The request [http.NewRequest] builds for a plain [https] URL. *)
Lemma http_NewRequest_https
      (method h p : string) (buf : option string) :
  validMethod method = true ->
  all_bytes host_byte h = true ->
  all_bytes path_byte p = true ->
  p = EmptyString \/ strings_HasPrefix p "/" = true ->
  http_NewRequest method ("https://" +:+ h +:+ p) buf
  = inl {| Method := method; RequestURL := https_URL h p;
           RequestHost := h; RequestBody := buf; BasicAuth := None |}.
Proof.
  intros Hm Hh Hp Hroot. unfold http_NewRequest.
  assert (String.eqb method EmptyString = false) as ->.
  { destruct method; [discriminate Hm | reflexivity]. }
  rewrite Hm. cbn [negb].
  rewrite (url_Parse_https h p Hh Hp Hroot).
  unfold removeEmptyPort. cbn [Host https_URL].
  rewrite (cut_last_absent h ":")
    by (apply (all_bytes_not_contains host_byte); [reflexivity | exact Hh]).
  reflexivity.
Qed.

Section PlainBase.

Context {E : Collaborators}.

(** What [do] does for a client with a plain [https] base URL: one
    request, and the outcome of the transport's answer to it. *)
Lemma do_https
      (c : Client) (h p0 method path : string) (body : option Any)
      (w : World) :
  baseURL c = Some (https_URL h p0) ->
  all_bytes host_byte h = true ->
  all_bytes path_byte p0 = true ->
  strings_HasPrefix p0 "/" = true ->
  all_bytes path_byte path = true ->
  validMethod method = true ->
  match body with Some b => snd (json_Encode b) | None => None end = None ->
  let req := {| Method := method; RequestURL := https_URL h (p0 +:+ path);
                RequestHost := h; RequestBody := encoded_body body;
                BasicAuth := Some (EmptyString, apiKey c) |} in
  do c method path body w
  = (outcome (roundTrip (client c) (sent w) req),
     {| sent := sent w ++ [(client c, req)];
        open_bodies := open_bodies w |}).
Proof.
  intros Hbase Hh Hp0 Hroot Hpath Hm Henc. cbv zeta.
  assert (Hp : all_bytes path_byte (p0 +:+ path) = true)
    by (rewrite all_bytes_app, Hp0, Hpath; reflexivity).
  assert (Hroot' : p0 +:+ path = EmptyString
                   \/ strings_HasPrefix (p0 +:+ path) "/" = true).
  { right. destruct p0 as [| x p0]; [discriminate Hroot |].
    unfold strings_HasPrefix in *. rewrite append_cons, prefix_one.
    rewrite prefix_one in Hroot. exact Hroot. }
  unfold do.
  assert (match body with
          | Some b => let '(bytes, err) := json_Encode b in (Some bytes, err)
          | None => (None, None)
          end = (encoded_body body, None)) as ->.
  { destruct body as [b |]; [| reflexivity].
    cbn [encoded_body]. destruct (json_Encode b) as [bytes err].
    cbn [snd] in Henc. subst err. reflexivity. }
  rewrite Sprintf_two. unfold GetBaseURL. rewrite Hbase.
  cbn [Stringer_URL].
  rewrite URL_String_https;
    [| exact Hh | exact Hp0 | right; exact Hroot
     | right; destruct p0; [discriminate Hroot | discriminate]].
  rewrite !append_assoc.
  rewrite (http_NewRequest_https method h (p0 +:+ path) _ Hm Hh Hp Hroot').
  unfold http_Do, SetBasicAuth.
  cbn [Method RequestURL RequestHost RequestBody].
  unfold outcome.
  destruct (roundTrip _ _ _) as [resp | e]; [| reflexivity].
  unfold Body_Close. cbn [sent open_bodies Nat.pred].
  destruct (checkResponse resp); [reflexivity |].
  destruct (json_Decode _); reflexivity.
Qed.

Lemma subscribe_path_bytes (listID : string) :
  all_bytes path_byte listID = true ->
  all_bytes path_byte ("/lists/" +:+ listID +:+ "/members/") = true.
Proof.
  intros H. rewrite !all_bytes_app, H. reflexivity.
Qed.

Lemma Sprintf_lists (listID : string) :
  fmt_Sprintf "/lists/%s/members/" [AString listID]
  = "/lists/" +:+ listID +:+ "/members/".
Proof.
  unfold fmt_Sprintf. cbn [fmt_Sprintf_aux ascii_eqb Ascii.eqb Bool.eqb].
  reflexivity.
Qed.

(** [Subscribe] for a client with a plain [https] base URL and an encoder
    that accepts the map. *)
Lemma Subscribe_https
      (c : Client) (h p0 email listID : string) (w : World) :
  baseURL c = Some (https_URL h p0) ->
  all_bytes host_byte h = true ->
  all_bytes path_byte p0 = true ->
  strings_HasPrefix p0 "/" = true ->
  all_bytes path_byte listID = true ->
  snd (json_Encode (ptr_map (subscription email))) = None ->
  Subscribe c email listID w
  = (outcome (roundTrip (client c) (sent w)
                        (subscribe_request h p0 (apiKey c) email listID)),
     {| sent := sent w
                ++ [(client c,
                     subscribe_request h p0 (apiKey c) email listID)];
        open_bodies := open_bodies w |}).
Proof.
  intros Hbase Hh Hp0 Hroot Hid Henc. unfold Subscribe.
  rewrite Sprintf_lists.
  apply (do_https c h p0 "POST" _ (Some (ptr_map (subscription email))) w
                  Hbase Hh Hp0 Hroot (subscribe_path_bytes listID Hid)
                  validMethod_POST Henc).
Qed.

End PlainBase.

(** ** What [Subscribe] sends *)

Section Requests.

Context {E : Collaborators}.

(** [do] once the body is encoded and the URL is parsed: one request, and
    the outcome of the transport's answer to it. *)
Lemma do_parsed
      (c : Client) (method path : string) (body : option Any) (w : World)
      (u : URL) :
  validMethod method = true ->
  match body with Some b => snd (json_Encode b) | None => None end = None ->
  url_Parse (Stringer_URL (GetBaseURL c) +:+ path) = inl u ->
  let req := request_for method u (encoded_body body) (apiKey c) in
  do c method path body w
  = (outcome (roundTrip (client c) (sent w) req),
     {| sent := sent w ++ [(client c, req)];
        open_bodies := open_bodies w |}).
Proof.
  intros Hm Henc Hu. cbv zeta. unfold do.
  assert (match body with
          | Some b => let '(bytes, err) := json_Encode b in (Some bytes, err)
          | None => (None, None)
          end = (encoded_body body, None)) as ->.
  { destruct body as [b |]; [| reflexivity].
    cbn [encoded_body]. destruct (json_Encode b) as [bytes err].
    cbn [snd] in Henc. subst err. reflexivity. }
  rewrite Sprintf_two. unfold http_NewRequest.
  assert (String.eqb method EmptyString = false) as ->.
  { unfold validMethod in Hm. apply andb_true_iff in Hm as [Hm _].
    apply negb_true_iff in Hm. exact Hm. }
  rewrite Hm, Hu. cbn [negb].
  unfold http_Do, SetBasicAuth, request_for.
  cbn [Method RequestURL RequestHost RequestBody].
  unfold outcome.
  destruct (roundTrip _ _ _) as [resp | e]; [| reflexivity].
  unfold Body_Close. cbn [sent open_bodies Nat.pred].
  destruct (checkResponse resp); [reflexivity |].
  destruct (json_Decode _); reflexivity.
Qed.

(** [do] when the base URL followed by the path is no URL: the parser's
    error, and nothing is sent. *)
Lemma do_unparsed
      (c : Client) (method path : string) (body : option Any) (w : World)
      (e : error) :
  validMethod method = true ->
  match body with Some b => snd (json_Encode b) | None => None end = None ->
  url_Parse (Stringer_URL (GetBaseURL c) +:+ path) = inr e ->
  do c method path body w = ((None, Some e), w).
Proof.
  intros Hm Henc Hu. unfold do.
  assert (match body with
          | Some b => let '(bytes, err) := json_Encode b in (Some bytes, err)
          | None => (None, None)
          end = (encoded_body body, None)) as ->.
  { destruct body as [b |]; [| reflexivity].
    cbn [encoded_body]. destruct (json_Encode b) as [bytes err].
    cbn [snd] in Henc. subst err. reflexivity. }
  rewrite Sprintf_two. unfold http_NewRequest.
  assert (String.eqb method EmptyString = false) as ->.
  { unfold validMethod in Hm. apply andb_true_iff in Hm as [Hm _].
    apply negb_true_iff in Hm. exact Hm. }
  rewrite Hm, Hu. reflexivity.
Qed.

(** C5 (as amended).  For every address and every list identifier,
    [Subscribe] builds a map with exactly two members, [email_address] with
    the address as given and [status] with the word [subscribed], and calls
    [do] with it, the method [POST] and the path [/lists/<listID>/members/],
    the identifier copied in as it is.  What reaches the transport depends on
    the identifier.  When the encoder accepts the map and the base URL
    followed by the path parses as a URL, exactly one request is sent: a
    [POST] to that URL whose body is the encoded map, with the credential as
    password; for a plain [https] base URL and an identifier made of path
    bytes it goes to [https://<host><base>/lists/<listID>/members/].  When
    the encoder refuses the map or the text is no URL, the error is returned
    and nothing is sent. *)
Theorem Subscribe_dispatch (c : Client) (email listID : string) (w : World) :
  let data := subscription email in
  let path := "/lists/" +:+ listID +:+ "/members/" in
  let apiURL := Stringer_URL (GetBaseURL c) +:+ path in
  (dom data = ({[ "email_address"; "status" ]} : gset string)
   /\ data !! "email_address" = Some email
   /\ data !! "status" = Some "subscribed")
  /\ Subscribe c email listID w
     = do c "POST" path (Some (ptr_map data)) w
  /\ (forall u : URL,
         snd (json_Encode (ptr_map data)) = None ->
         url_Parse apiURL = inl u ->
         let req :=
           request_for "POST" u (Some (fst (json_Encode (ptr_map data))))
                       (apiKey c) in
         Subscribe c email listID w
         = (outcome (roundTrip (client c) (sent w) req),
            {| sent := sent w ++ [(client c, req)];
               open_bodies := open_bodies w |}))
  /\ (forall h p0 : string,
         baseURL c = Some (https_URL h p0) ->
         all_bytes host_byte h = true ->
         all_bytes path_byte p0 = true ->
         strings_HasPrefix p0 "/" = true ->
         all_bytes path_byte listID = true ->
         snd (json_Encode (ptr_map data)) = None ->
         let req :=
           {| Method := "POST";
              RequestURL := https_URL h (p0 +:+ path);
              RequestHost := h;
              RequestBody := Some (fst (json_Encode (ptr_map data)));
              BasicAuth := Some (EmptyString, apiKey c) |} in
         Subscribe c email listID w
         = (outcome (roundTrip (client c) (sent w) req),
            {| sent := sent w ++ [(client c, req)];
               open_bodies := open_bodies w |}))
  /\ (forall e : error,
         snd (json_Encode (ptr_map data)) = Some e
         \/ snd (json_Encode (ptr_map data)) = None
            /\ url_Parse apiURL = inr e ->
         Subscribe c email listID w = ((None, Some e), w)).
Proof.
  cbv zeta.
  assert (Hcall : Subscribe c email listID w
                  = do c "POST" ("/lists/" +:+ listID +:+ "/members/")
                       (Some (ptr_map (subscription email))) w)
    by (unfold Subscribe; rewrite Sprintf_lists; reflexivity).
  split; [| split; [exact Hcall | split; [| split]]].
  - unfold subscription. split; [| split].
    + rewrite dom_insert_L, dom_singleton_L. reflexivity.
    + apply lookup_insert_eq.
    + rewrite lookup_insert_ne by discriminate. apply lookup_singleton_eq.
  - intros u Henc Hu. rewrite Hcall.
    apply (do_parsed c "POST" _ (Some (ptr_map (subscription email))) w u
                     validMethod_POST Henc Hu).
  - intros h p0 Hbase Hh Hp0 Hroot Hid Henc.
    apply (Subscribe_https c h p0 email listID w Hbase Hh Hp0 Hroot Hid Henc).
  - intros e [Henc | [Henc Hu]]; rewrite Hcall.
    + unfold do. destruct (json_Encode _) as [bytes err].
      cbn [snd] in Henc. subst err. reflexivity.
    + apply (do_unparsed c "POST" _ (Some (ptr_map (subscription email))) w e
                         validMethod_POST Henc Hu).
Qed.

End Requests.

Lemma Subscribe_dispatch_witness :
  let u := https_URL "us11.api.mailchimp.com" "/3.0/lists/b1a2c3/members/" in
  let data := subscription "a@b.com" in
  let req :=
    request_for "POST" u
                (Some (fst (@json_Encode double_encoding (ptr_map data))))
                (apiKey sample_client) in
  snd (@json_Encode double_encoding (ptr_map data)) = None
  /\ url_Parse (Stringer_URL (GetBaseURL sample_client)
                +:+ "/lists/" +:+ "b1a2c3" +:+ "/members/") = inl u
  /\ @Subscribe double_encoding sample_client "a@b.com" "b1a2c3" empty_World
     = (@outcome double_encoding
          (@roundTrip double_encoding (client sample_client)
                      (sent empty_World) req),
        {| sent := sent empty_World ++ [(client sample_client, req)];
           open_bodies := open_bodies empty_World |})
  /\ req
     = {| Method := "POST";
          RequestURL := u;
          RequestHost := "us11.api.mailchimp.com";
          RequestBody :=
            Some (dq "{'email_address':'a@b.com','status':'subscribed'}"
                  +:+ String (byte_of 10) EmptyString);
          BasicAuth := Some (EmptyString, "abc123-us11") |}.
Proof.
  intros u data req.
  assert (Henc : snd (@json_Encode double_encoding (ptr_map data)) = None)
    by reflexivity.
  assert (Hu : url_Parse (Stringer_URL (GetBaseURL sample_client)
                          +:+ "/lists/" +:+ "b1a2c3" +:+ "/members/")
               = inl u)
    by (vm_compute; reflexivity).
  split; [exact Henc |]. split; [exact Hu |].
  split; [| vm_compute; reflexivity].
  destruct (@Subscribe_dispatch double_encoding sample_client "a@b.com"
                                "b1a2c3" empty_World)
    as (_ & _ & Hsent & _).
  exact (Hsent u Henc Hu).
Defined.

(** C5 (as stated) fails.  For the list identifier [b1a2%zz] the path
    [/lists/b1a2%zz/members/] is built, but no [POST] is dispatched to it:
    the text is no URL, [Subscribe] returns the parser's error and nothing
    reaches the transport.  For the identifier [a?b] one [POST] is sent, but
    to the path [/3.0/lists/a], with [b/members/] as its query. *)
Lemma Subscribe_list_id_not_URL_safe :
  (@Subscribe double sample_client "a@b.com" "b1a2%zz" empty_World
   = ((None,
       Some (url_Error
               "parse"
               "https://us11.api.mailchimp.com/3.0/lists/b1a2%zz/members/"
               (url_EscapeError "%zz"))),
      empty_World))
  /\ sent (snd (@Subscribe double sample_client "a@b.com" "b1a2%zz"
                           empty_World)) = []
  /\ List.map (fun sr => (Method (snd sr), Path (RequestURL (snd sr)),
                          RawQuery (RequestURL (snd sr))))
              (sent (snd (@Subscribe double sample_client "a@b.com" "a?b"
                                     empty_World)))
     = [("POST", "/3.0/lists/a", "b/members/")].
Proof.
  split; [vm_compute; reflexivity |].
  split; vm_compute; reflexivity.
Qed.

Lemma checkResponse_success_code (r : Response) :
  200 <= StatusCode r <= 299 -> checkResponse r = None.
Proof.
  intros [Hlo Hhi]. unfold checkResponse.
  apply Z.leb_le in Hlo. apply Z.leb_le in Hhi.
  rewrite Hlo, Hhi. reflexivity.
Qed.

(** ** Subscribing *)

Section Subscribing.

Context {E : Collaborators}.

(** X7.  With a credential whose data centre is made of letters and
    digits, a list identifier made of path bytes and a map the encoder
    accepts, [Subscribe] hands exactly one request to the transport the
    client was built with: a [POST] to
    [https://<dc>.api.mailchimp.com/3.0/lists/<listID>/members/], carrying
    the encoded map, an empty user name and the credential as password. *)
Theorem Subscribe_after_NewClient
        (key region email listID : string) (httpClient : option http_Client)
        (c : Client) (w : World) :
  strings_Contains1 key "-" = false ->
  all_bytes alnum_byte region = true ->
  all_bytes path_byte listID = true ->
  snd (json_Encode (ptr_map (subscription email))) = None ->
  fst (NewClient (key +:+ "-" +:+ region) httpClient) = Some c ->
  sent (snd (Subscribe c email listID w))
  = sent w
    ++ [(chosen_client httpClient,
         {| Method := "POST";
            RequestURL :=
              https_URL (region +:+ ".api.mailchimp.com")
                        ("/3.0" +:+ "/lists/" +:+ listID +:+ "/members/");
            RequestHost := region +:+ ".api.mailchimp.com";
            RequestBody :=
              Some (fst (json_Encode (ptr_map (subscription email))));
            BasicAuth := Some (EmptyString, key +:+ "-" +:+ region) |})].
Proof.
  intros Hkey Hregion Hid Henc Hc.
  rewrite (NewClient_plain key region httpClient Hkey Hregion) in Hc.
  cbn [fst] in Hc. injection Hc as <-.
  erewrite Subscribe_https; [reflexivity | reflexivity | | | | exact Hid
                             | exact Henc].
  - rewrite all_bytes_app.
    rewrite (all_bytes_impl _ _ region alnum_host_byte Hregion).
    reflexivity.
  - reflexivity.
  - reflexivity.
Qed.

(** X8.  When the transport answers with a status code outside the
    success band, [Subscribe] returns no value and, as its error, the
    [ErrorResponse] that [checkResponse] reads from the body; the decoder
    of success bodies has no say. *)
Theorem Subscribe_remote_error
        (c : Client) (h p0 email listID : string) (w : World)
        (resp : Response) :
  baseURL c = Some (https_URL h p0) ->
  all_bytes host_byte h = true ->
  all_bytes path_byte p0 = true ->
  strings_HasPrefix p0 "/" = true ->
  all_bytes path_byte listID = true ->
  snd (json_Encode (ptr_map (subscription email))) = None ->
  roundTrip (client c) (sent w)
            (subscribe_request h p0 (apiKey c) email listID) = inl resp ->
  ~ (200 <= StatusCode resp <= 299) ->
  exists e : ErrorResponse,
    checkResponse resp = Some (ErrorResponse_ptr e)
    /\ fst (Subscribe c email listID w)
       = (None, Some (ErrorResponse_ptr e)).
Proof.
  intros Hbase Hh Hp0 Hroot Hid Henc Hanswer Hband.
  rewrite (Subscribe_https c h p0 email listID w Hbase Hh Hp0 Hroot Hid Henc).
  cbn [fst]. rewrite Hanswer. unfold outcome.
  rewrite (checkResponse_outside_band resp Hband).
  eexists. split; reflexivity.
Qed.

(** X9.  When the transport answers with a status code from 200 to 299,
    [Subscribe] returns what the decoder makes of the body: the decoded
    value and no error, or the decoder's error and no value. *)
Theorem Subscribe_success
        (c : Client) (h p0 email listID : string) (w : World)
        (resp : Response) :
  baseURL c = Some (https_URL h p0) ->
  all_bytes host_byte h = true ->
  all_bytes path_byte p0 = true ->
  strings_HasPrefix p0 "/" = true ->
  all_bytes path_byte listID = true ->
  snd (json_Encode (ptr_map (subscription email))) = None ->
  roundTrip (client c) (sent w)
            (subscribe_request h p0 (apiKey c) email listID) = inl resp ->
  200 <= StatusCode resp <= 299 ->
  fst (Subscribe c email listID w)
  = match json_Decode (ResponseBody resp) with
    | inl v => (Some v, None)
    | inr e => (None, Some e)
    end.
Proof.
  intros Hbase Hh Hp0 Hroot Hid Henc Hanswer Hband.
  rewrite (Subscribe_https c h p0 email listID w Hbase Hh Hp0 Hroot Hid Henc).
  cbn [fst]. rewrite Hanswer. unfold outcome.
  rewrite (checkResponse_success_code resp Hband).
  destruct (json_Decode _); reflexivity.
Qed.

(** X10.  An error of the transport is returned as it is; the request
    counts as sent and no body is left open. *)
Theorem Subscribe_transport_error
        (c : Client) (h p0 email listID : string) (w : World) (e : error) :
  baseURL c = Some (https_URL h p0) ->
  all_bytes host_byte h = true ->
  all_bytes path_byte p0 = true ->
  strings_HasPrefix p0 "/" = true ->
  all_bytes path_byte listID = true ->
  snd (json_Encode (ptr_map (subscription email))) = None ->
  roundTrip (client c) (sent w)
            (subscribe_request h p0 (apiKey c) email listID) = inr e ->
  Subscribe c email listID w
  = ((None, Some e),
     {| sent := sent w
                ++ [(client c,
                     subscribe_request h p0 (apiKey c) email listID)];
        open_bodies := open_bodies w |}).
Proof.
  intros Hbase Hh Hp0 Hroot Hid Henc Hanswer.
  rewrite (Subscribe_https c h p0 email listID w Hbase Hh Hp0 Hroot Hid Henc).
  rewrite Hanswer. reflexivity.
Qed.

(** X11.  After [SetBaseURL] with a plain [https] URL, [Subscribe] sends
    its request to the new host and path, through the same transport and
    with the same credential as before. *)
Theorem SetBaseURL_redirects
        (c : Client) (h p0 email listID : string) (w : World) :
  all_bytes host_byte h = true ->
  all_bytes path_byte p0 = true ->
  strings_HasPrefix p0 "/" = true ->
  all_bytes path_byte listID = true ->
  snd (json_Encode (ptr_map (subscription email))) = None ->
  sent (snd (Subscribe (SetBaseURL c (Some (https_URL h p0)))
                       email listID w))
  = sent w ++ [(client c, subscribe_request h p0 (apiKey c) email listID)].
Proof.
  intros Hh Hp0 Hroot Hid Henc.
  rewrite (Subscribe_https (SetBaseURL c (Some (https_URL h p0)))
                           h p0 email listID w eq_refl Hh Hp0 Hroot Hid
                           Henc).
  reflexivity.
Qed.

End Subscribing.

Lemma Subscribe_after_NewClient_witness :
  strings_Contains1 "abc123" "-" = false
  /\ all_bytes alnum_byte "us11" = true
  /\ all_bytes path_byte "b1a2c3" = true
  /\ snd (json_Encode (ptr_map (subscription "a@b.com"))) = None
  /\ fst (NewClient ("abc123" +:+ "-" +:+ "us11") None) = Some sample_client
  /\ sent (snd (Subscribe sample_client "a@b.com" "b1a2c3" empty_World))
     = sent empty_World
       ++ [(chosen_client None,
            {| Method := "POST";
               RequestURL :=
                 https_URL ("us11" +:+ ".api.mailchimp.com")
                           ("/3.0" +:+ "/lists/" +:+ "b1a2c3"
                            +:+ "/members/");
               RequestHost := "us11" +:+ ".api.mailchimp.com";
               RequestBody :=
                 Some (fst (json_Encode (ptr_map (subscription "a@b.com"))));
               BasicAuth :=
                 Some (EmptyString, "abc123" +:+ "-" +:+ "us11") |})].
Proof.
  split; [reflexivity |]. split; [reflexivity |]. split; [reflexivity |].
  split; [reflexivity |]. split; [vm_compute; reflexivity |].
  apply (@Subscribe_after_NewClient double "abc123" "us11" "a@b.com"
                                    "b1a2c3" None sample_client empty_World);
    reflexivity.
Defined.

Lemma Subscribe_remote_error_witness :
  let E := double_answering (inl sample_failure) in
  let h := "us11.api.mailchimp.com" in
  baseURL sample_client = Some (https_URL h "/3.0")
  /\ all_bytes host_byte h = true
  /\ all_bytes path_byte "/3.0" = true
  /\ strings_HasPrefix "/3.0" "/" = true
  /\ all_bytes path_byte "b1a2c3" = true
  /\ snd (@json_Encode E (ptr_map (subscription "a@b.com"))) = None
  /\ @roundTrip E (client sample_client) (sent empty_World)
       (@subscribe_request E h "/3.0" (apiKey sample_client) "a@b.com"
                           "b1a2c3")
     = inl sample_failure
  /\ ~ (200 <= StatusCode sample_failure <= 299)
  /\ exists e : ErrorResponse,
       checkResponse sample_failure = Some (ErrorResponse_ptr e)
       /\ fst (@Subscribe E sample_client "a@b.com" "b1a2c3" empty_World)
          = (None, Some (ErrorResponse_ptr e)).
Proof.
  cbv zeta.
  split; [reflexivity |]. split; [reflexivity |]. split; [reflexivity |].
  split; [reflexivity |]. split; [reflexivity |]. split; [reflexivity |].
  split; [reflexivity |]. split; [cbn [StatusCode sample_failure]; lia |].
  apply (@Subscribe_remote_error (double_answering (inl sample_failure))
           sample_client "us11.api.mailchimp.com" "/3.0" "a@b.com" "b1a2c3"
           empty_World sample_failure);
    try reflexivity.
  cbn [StatusCode sample_failure]. lia.
Defined.

Lemma Subscribe_success_witness :
  let E := double_answering (inl sample_success) in
  let h := "us11.api.mailchimp.com" in
  baseURL sample_client = Some (https_URL h "/3.0")
  /\ all_bytes host_byte h = true
  /\ all_bytes path_byte "/3.0" = true
  /\ strings_HasPrefix "/3.0" "/" = true
  /\ all_bytes path_byte "b1a2c3" = true
  /\ snd (@json_Encode E (ptr_map (subscription "a@b.com"))) = None
  /\ @roundTrip E (client sample_client) (sent empty_World)
       (@subscribe_request E h "/3.0" (apiKey sample_client) "a@b.com"
                           "b1a2c3")
     = inl sample_success
  /\ 200 <= StatusCode sample_success <= 299
  /\ fst (@Subscribe E sample_client "a@b.com" "b1a2c3" empty_World)
     = match @json_Decode E (ResponseBody sample_success) with
       | inl v => (Some v, None)
       | inr e => (None, Some e)
       end.
Proof.
  cbv zeta.
  split; [reflexivity |]. split; [reflexivity |]. split; [reflexivity |].
  split; [reflexivity |]. split; [reflexivity |]. split; [reflexivity |].
  split; [reflexivity |]. split; [cbn [StatusCode sample_success]; lia |].
  apply (@Subscribe_success (double_answering (inl sample_success))
           sample_client "us11.api.mailchimp.com" "/3.0" "a@b.com" "b1a2c3"
           empty_World sample_success);
    try reflexivity.
  cbn [StatusCode sample_success]. lia.
Defined.

Lemma Subscribe_transport_error_witness :
  let refused := errorString "dial tcp: connection refused" in
  let E := double_answering (inr refused) in
  let h := "us11.api.mailchimp.com" in
  baseURL sample_client = Some (https_URL h "/3.0")
  /\ all_bytes host_byte h = true
  /\ all_bytes path_byte "/3.0" = true
  /\ strings_HasPrefix "/3.0" "/" = true
  /\ all_bytes path_byte "b1a2c3" = true
  /\ snd (@json_Encode E (ptr_map (subscription "a@b.com"))) = None
  /\ @roundTrip E (client sample_client) (sent empty_World)
       (@subscribe_request E h "/3.0" (apiKey sample_client) "a@b.com"
                           "b1a2c3")
     = inr refused
  /\ @Subscribe E sample_client "a@b.com" "b1a2c3" empty_World
     = ((None, Some refused),
        {| sent := sent empty_World
                   ++ [(client sample_client,
                        @subscribe_request E h "/3.0" (apiKey sample_client)
                                           "a@b.com" "b1a2c3")];
           open_bodies := open_bodies empty_World |}).
Proof.
  cbv zeta.
  split; [reflexivity |]. split; [reflexivity |]. split; [reflexivity |].
  split; [reflexivity |]. split; [reflexivity |]. split; [reflexivity |].
  split; [reflexivity |].
  apply (@Subscribe_transport_error
           (double_answering
              (inr (errorString "dial tcp: connection refused")))
           sample_client "us11.api.mailchimp.com" "/3.0" "a@b.com" "b1a2c3"
           empty_World (errorString "dial tcp: connection refused"));
    reflexivity.
Defined.

Lemma SetBaseURL_redirects_witness :
  all_bytes host_byte "localhost" = true
  /\ all_bytes path_byte "/v3" = true
  /\ strings_HasPrefix "/v3" "/" = true
  /\ all_bytes path_byte "b1a2c3" = true
  /\ snd (json_Encode (ptr_map (subscription "a@b.com"))) = None
  /\ sent (snd (Subscribe
                  (SetBaseURL sample_client
                              (Some (https_URL "localhost" "/v3")))
                  "a@b.com" "b1a2c3" empty_World))
     = sent empty_World
       ++ [(client sample_client,
            subscribe_request "localhost" "/v3" (apiKey sample_client)
                              "a@b.com" "b1a2c3")].
Proof.
  split; [reflexivity |]. split; [reflexivity |]. split; [reflexivity |].
  split; [reflexivity |]. split; [reflexivity |].
  apply (@SetBaseURL_redirects double sample_client "localhost" "/v3"
                               "a@b.com" "b1a2c3" empty_World);
    reflexivity.
Defined.

(** ** Bodies that are not objects *)

Lemma lex_LString_head (escaped : bool) (data : string) :
  lex (LString escaped) data = []
  \/ exists raw ts, lex (LString escaped) data = TString raw :: ts.
Proof.
  revert escaped. induction data as [| c data IH]; intros escaped.
  - left. destruct escaped; reflexivity.
  - cbn [lex]. destruct escaped.
    + destruct (IH false) as [-> | (raw & ts & ->)];
        [left | right; eexists; eexists]; reflexivity.
    + destruct (ascii_eqb c "\").
      * destruct (IH true) as [-> | (raw & ts & ->)];
          [left | right; eexists; eexists]; reflexivity.
      * destruct (ascii_eqb c quote_byte).
        -- right. eexists. eexists. reflexivity.
        -- destruct (IH false) as [-> | (raw & ts & ->)];
             [left | right; eexists; eexists]; reflexivity.
Qed.

Lemma lex_LNumber_head (data : string) :
  exists lit ts, lex LNumber data = TNumber lit :: ts.
Proof.
  induction data as [| c data (lit & ts & IH)].
  - eexists. eexists. reflexivity.
  - cbn [lex]. destruct (is_digit c || byte_in c ".eE+-").
    + rewrite IH. eexists. eexists. reflexivity.
    + eexists. eexists. reflexivity.
Qed.

Ltac eval_tests :=
  repeat match goal with
         | |- context [ascii_eqb ?a ?b] =>
           let v := eval vm_compute in (ascii_eqb a b) in
           change (ascii_eqb a b) with v
         | |- context [is_digit ?a] =>
           let v := eval vm_compute in (is_digit a) in
           change (is_digit a) with v
         | |- context [punct ?a] =>
           let v := eval vm_compute in (punct a) in
           change (punct a) with v
         end.

(** Only an opening brace lets the decoder store anything. *)
Lemma decode_value_first_byte (d : decodeState) (c : ascii) (rest : string) :
  isSpace c = false ->
  starts_value c = true ->
  ascii_eqb c "{" = false ->
  target (decode_value d (lex LIdle (String c rest))) = target d.
Proof.
  intros Hspace Hstart Hbrace.
  destruct (lex_LNumber_head rest) as (lit & ts & Hnum).
  destruct (lex_LString_head false rest) as [Hstr | (raw & ts' & Hstr)];
    destruct c as [[] [] [] [] [] [] [] []];
    vm_compute in Hspace, Hstart, Hbrace; try discriminate;
    cbn [lex]; eval_tests; cbn [orb andb app]; cbv beta iota;
    try (rewrite Hnum); try (rewrite Hstr);
    cbn [grow_number grow_string decode_value];
    rewrite ?target_saveError; reflexivity.
Qed.

Lemma space_step (c : ascii) :
  isSpace c = true ->
  scanner_step scanner_reset c = scanner_reset /\ punct c = [].
Proof. intros H. by_byte c. Qed.

(** White space in front of a text changes nothing. *)
Lemma json_Unmarshal_space (c : ascii) (rest : string) (v : ErrorResponse) :
  isSpace c = true ->
  json_Unmarshal (String c rest) v = json_Unmarshal rest v.
Proof.
  intros Hspace. destruct (space_step c Hspace) as [Hstep Hpunct].
  unfold json_Unmarshal, checkValid. cbn [scan_bytes]. rewrite Hstep.
  assert (lex LIdle (String c rest) = lex LIdle rest) as ->;
    [| reflexivity].
  clear Hstep Hpunct. destruct c as [[] [] [] [] [] [] [] []];
    vm_compute in Hspace; try discriminate; reflexivity.
Qed.

(** A text whose first byte, white space apart, is not an opening brace
    leaves the struct as it was, whether the text is JSON or not. *)
Lemma json_Unmarshal_not_object (data : string) (v : ErrorResponse) :
  first_nonspace data <> Some "{"%char ->
  fst (json_Unmarshal data v) = v.
Proof.
  induction data as [| c data IH]; intros Hfirst.
  - reflexivity.
  - cbn [first_nonspace] in Hfirst.
    destruct (isSpace c) eqn:Hspace.
    + rewrite (json_Unmarshal_space c data v Hspace). apply IH, Hfirst.
    + assert (ascii_eqb c "{" = false) as Hbrace.
      { apply not_true_is_false. intros H. apply ascii_eqb_eq in H.
        congruence. }
      destruct (starts_value c) eqn:Hstart.
      * unfold json_Unmarshal.
        destruct (checkValid (String c data)); [reflexivity |].
        cbn [fst].
        apply (decode_value_first_byte
                 {| target := v; savedError := None |} c data
                 Hspace Hstart Hbrace).
      * apply json_Unmarshal_invalid.
        rewrite (checkValid_bad_first_byte c data Hspace Hstart).
        discriminate.
Qed.

(** C2 (as amended).  Outside the success band [checkResponse] never
    fails: it returns an [ErrorResponse].  All four fields are zero when
    the body cannot be read, is empty, is not syntactically valid JSON,
    does not start, white space apart, with an opening brace (so is no JSON
    object: an array, a string, a number, [true], [false] or [null]), or is
    an object without a member that fits: none of its members names a field
    of [ErrorResponse] and has a value of the type of that field. *)
Theorem checkResponse_failure_band (r : Response) :
  ~ (200 <= StatusCode r <= 299) ->
  exists e : ErrorResponse,
    checkResponse r = Some (ErrorResponse_ptr e)
    /\ (read_error (ResponseBody r) <> None
        \/ content (ResponseBody r) = EmptyString
        \/ checkValid (content (ResponseBody r)) <> None
        \/ first_nonspace (content (ResponseBody r)) <> Some "{"%char
        \/ has_fitting_member (content (ResponseBody r)) = false ->
        e = new_ErrorResponse).
Proof.
  intros Hband. rewrite (checkResponse_outside_band _ Hband).
  eexists. split; [reflexivity |].
  intros Hbody.
  destruct (read_error (ResponseBody r)) as [e |]; [reflexivity |].
  destruct Hbody as [Hread | [Hempty | [Hbad | [Hfirst | Hfit]]]].
  - congruence.
  - rewrite Hempty. reflexivity.
  - apply json_Unmarshal_invalid, Hbad.
  - apply json_Unmarshal_not_object, Hfirst.
  - apply json_Unmarshal_no_fit, Hfit.
Qed.

Lemma checkResponse_failure_band_witness :
  let body := dq "[{'title':'x'}, 'status', 404]" in
  let r := {| StatusCode := 500; Header := [];
              ResponseBody := {| content := body; read_error := None |} |} in
  ~ (200 <= StatusCode r <= 299)
  /\ checkValid body = None
  /\ has_fitting_member body = false
  /\ exists e : ErrorResponse,
       checkResponse r = Some (ErrorResponse_ptr e)
       /\ (read_error (ResponseBody r) <> None
           \/ content (ResponseBody r) = EmptyString
           \/ checkValid (content (ResponseBody r)) <> None
           \/ first_nonspace (content (ResponseBody r)) <> Some "{"%char
           \/ has_fitting_member (content (ResponseBody r)) = false ->
           e = new_ErrorResponse).
Proof.
  cbv zeta. split; [cbn [StatusCode]; lia |].
  split; [vm_compute; reflexivity |].
  split; [vm_compute; reflexivity |].
  apply (checkResponse_failure_band
           {| StatusCode := 500; Header := [];
              ResponseBody :=
                {| content := dq "[{'title':'x'}, 'status', 404]";
                   read_error := None |} |}).
  cbn [StatusCode]. lia.
Defined.

(** C2 (as stated) fails.  The body [{"title":"x","status":"bad"}] is not
    valid for the shape of an [ErrorResponse] (its [status] is a string, and
    [json.Unmarshal] returns an error), yet the [ErrorResponse] returned
    for it has the title [x]: its fields are not all zero. *)
Lemma checkResponse_keeps_well_typed_members :
  let body := dq "{'title':'x','status':'bad'}" in
  let r := {| StatusCode := 500; Header := [];
              ResponseBody := {| content := body; read_error := None |} |} in
  snd (json_Unmarshal body new_ErrorResponse)
  = Some (json_UnmarshalTypeError "string")
  /\ checkResponse r
     = Some (ErrorResponse_ptr
               {| Type_ := EmptyString; Title := "x"; Status := 0;
                  Detail := EmptyString |})
  /\ checkResponse r <> Some (ErrorResponse_ptr new_ErrorResponse).
Proof.
  cbv zeta. split; [vm_compute; reflexivity |].
  split; [vm_compute; reflexivity |].
  vm_compute. discriminate.
Qed.

(** X12.  Outside the success band, a body whose first byte after any
    white space is not an opening brace (an empty body, an HTML page, plain
    text, a JSON array, string, number or literal) yields the
    [ErrorResponse] with all four fields zero. *)
Theorem checkResponse_body_not_object (r : Response) :
  ~ (200 <= StatusCode r <= 299) ->
  first_nonspace (content (ResponseBody r)) <> Some "{"%char ->
  checkResponse r = Some (ErrorResponse_ptr new_ErrorResponse).
Proof.
  intros Hband Hfirst. rewrite (checkResponse_outside_band r Hband).
  destruct (read_error (ResponseBody r)); [reflexivity |].
  rewrite (json_Unmarshal_not_object _ _ Hfirst). reflexivity.
Qed.

Lemma checkResponse_body_not_object_witness :
  let r := {| StatusCode := 502; Header := [];
              ResponseBody :=
                {| content := dq " [1, {'title': 'x'}]";
                   read_error := None |} |} in
  ~ (200 <= StatusCode r <= 299)
  /\ first_nonspace (content (ResponseBody r)) <> Some "{"%char
  /\ checkResponse r = Some (ErrorResponse_ptr new_ErrorResponse).
Proof.
  cbv zeta. split; [cbn [StatusCode]; lia |].
  split; [vm_compute; discriminate |].
  apply (checkResponse_body_not_object
           {| StatusCode := 502; Header := [];
              ResponseBody :=
                {| content := dq " [1, {'title': 'x'}]";
                   read_error := None |} |}).
  - cbn [StatusCode]. lia.
  - vm_compute. discriminate.
Defined.

(** X13.  [checkResponse] returns no error exactly for the status codes
    from 200 to 299: 199 and 300 are failures, 200 and 299 are not. *)
Theorem checkResponse_nil_iff_success_band (r : Response) :
  checkResponse r = None <-> 200 <= StatusCode r <= 299.
Proof.
  split.
  - intros Hnil.
    destruct (Z_le_dec 200 (StatusCode r)) as [Hlo | Hlo];
      [destruct (Z_le_dec (StatusCode r) 299) as [Hhi | Hhi] |];
      [lia | |];
      (rewrite checkResponse_outside_band in Hnil by lia; discriminate).
  - apply checkResponse_success_code.
Qed.

(** ** Decimal numbers *)

Lemma all_digits_string_of_uint (d : Decimal.uint) :
  all_digits (NilEmpty.string_of_uint d) = true.
Proof.
  induction d; cbn [NilEmpty.string_of_uint all_digits];
    rewrite ?IHd; reflexivity.
Qed.

Lemma digits_value_acc (d : Decimal.uint) (acc : positive) :
  digits_value (Zpos acc) (NilEmpty.string_of_uint d)
  = Zpos (Pos.of_uint_acc d acc).
Proof.
  revert acc.
  induction d; intros acc;
    cbn [NilEmpty.string_of_uint digits_value Pos.of_uint_acc];
    [reflexivity | ..];
    match goal with
    | |- digits_value (_ + (code ?c - 48)) _
         = Zpos (Pos.of_uint_acc _ ?p) =>
      let v := eval vm_compute in (code c - 48) in
      change (code c - 48) with v;
      replace (10 * Zpos acc + v) with (Zpos p) by lia
    end; apply IHd.
Qed.

Lemma digits_value_of_uint (d : Decimal.uint) :
  digits_value 0 (NilEmpty.string_of_uint d) = Z.of_N (Pos.of_uint d).
Proof.
  induction d;
    cbn [NilEmpty.string_of_uint digits_value Pos.of_uint];
    [reflexivity | exact IHd | ..];
    match goal with
    | |- digits_value ?z _ = _ =>
      let v := eval vm_compute in z in change z with v
    end; rewrite digits_value_acc; reflexivity.
Qed.

Lemma nzhead_not_D0 (d d' : Decimal.uint) : Decimal.nzhead d <> Decimal.D0 d'.
Proof.
  induction d; cbn [Decimal.nzhead]; try discriminate. exact IHd.
Qed.

(** The decimal digits of a positive number do not start with a zero. *)
Lemma to_uint_no_leading_zero (p : positive) (d' : Decimal.uint) :
  Pos.to_uint p <> Decimal.D0 d'.
Proof.
  intros Heq.
  pose proof (DecimalPos.Unsigned.to_of (Pos.to_uint p)) as Hnorm.
  rewrite DecimalPos.Unsigned.of_to in Hnorm. cbn [N.to_uint] in Hnorm.
  rewrite Heq in Hnorm. unfold Decimal.unorm in Hnorm.
  cbn [Decimal.nzhead] in Hnorm.
  destruct (Decimal.nzhead d') eqn:Hhead;
    try (injection Hnorm as <-; apply (nzhead_not_D0 _ _ Hhead));
    try discriminate Hnorm.
  injection Hnorm as ->.
  apply (DecimalPos.Unsigned.to_uint_nonzero p). exact Heq.
Qed.

Lemma Itoa_pos (p : positive) :
  strconv_Itoa (Zpos p) = NilEmpty.string_of_uint (Pos.to_uint p).
Proof.
  unfold strconv_Itoa. cbn [Z.to_int NilZero.string_of_int].
  unfold NilZero.string_of_uint.
  pose proof (DecimalPos.Unsigned.to_uint_nonnil p).
  destruct (Pos.to_uint p); [congruence | reflexivity ..].
Qed.

Lemma Itoa_neg (p : positive) :
  strconv_Itoa (Zneg p)
  = String "-" (NilEmpty.string_of_uint (Pos.to_uint p)).
Proof.
  unfold strconv_Itoa. cbn [Z.to_int NilZero.string_of_int].
  unfold NilZero.string_of_uint.
  pose proof (DecimalPos.Unsigned.to_uint_nonnil p).
  destruct (Pos.to_uint p); [congruence | reflexivity ..].
Qed.

Lemma all_digits_nat_literal (d : Decimal.uint) :
  d <> Decimal.Nil -> (forall d', d <> Decimal.D0 d') ->
  nat_literal (NilEmpty.string_of_uint d) = true.
Proof.
  intros Hnil Hzero.
  destruct d; [congruence | exfalso; eapply Hzero; reflexivity | ..];
    cbn [NilEmpty.string_of_uint nat_literal];
    rewrite all_digits_string_of_uint; reflexivity.
Qed.

(** The decimal text of an integer is a JSON number. *)
Lemma int_literal_Itoa (n : Z) : int_literal (strconv_Itoa n) = true.
Proof.
  destruct n as [| p | p].
  - reflexivity.
  - rewrite Itoa_pos.
    pose proof (all_digits_nat_literal (Pos.to_uint p)
                  (DecimalPos.Unsigned.to_uint_nonnil p)
                  (to_uint_no_leading_zero p)) as Hlit.
    pose proof (DecimalPos.Unsigned.to_uint_nonnil p) as Hnil.
    destruct (Pos.to_uint p); [congruence | ..]; exact Hlit.
  - rewrite Itoa_neg. cbn [int_literal].
    apply all_digits_nat_literal.
    + apply DecimalPos.Unsigned.to_uint_nonnil.
    + apply to_uint_no_leading_zero.
Qed.

Lemma ParseInt64_digits (neg : bool) (d : Decimal.uint) :
  d <> Decimal.Nil ->
  let s := NilEmpty.string_of_uint d in
  let v := Z.of_N (Pos.of_uint d) in
  let n := if neg then - v else v in
  strconv_ParseInt64 (if neg then String "-" s else s)
  = if (- 2 ^ 63 <=? n) && (n <=? 2 ^ 63 - 1) then Some n else None.
Proof.
  intros Hnil. cbv zeta. unfold strconv_ParseInt64.
  destruct neg.
  - cbn [ascii_eqb Ascii.eqb Bool.eqb].
    rewrite all_digits_string_of_uint, digits_value_of_uint.
    destruct d; [congruence | reflexivity ..].
  - destruct d; [congruence | ..];
      cbn [NilEmpty.string_of_uint ascii_eqb Ascii.eqb Bool.eqb];
      match goal with
      | |- context [all_digits (String ?c (NilEmpty.string_of_uint ?d'))] =>
        first
          [ change (String c (NilEmpty.string_of_uint d'))
              with (NilEmpty.string_of_uint (Decimal.D0 d'))
          | change (String c (NilEmpty.string_of_uint d'))
              with (NilEmpty.string_of_uint (Decimal.D1 d'))
          | change (String c (NilEmpty.string_of_uint d'))
              with (NilEmpty.string_of_uint (Decimal.D2 d'))
          | change (String c (NilEmpty.string_of_uint d'))
              with (NilEmpty.string_of_uint (Decimal.D3 d'))
          | change (String c (NilEmpty.string_of_uint d'))
              with (NilEmpty.string_of_uint (Decimal.D4 d'))
          | change (String c (NilEmpty.string_of_uint d'))
              with (NilEmpty.string_of_uint (Decimal.D5 d'))
          | change (String c (NilEmpty.string_of_uint d'))
              with (NilEmpty.string_of_uint (Decimal.D6 d'))
          | change (String c (NilEmpty.string_of_uint d'))
              with (NilEmpty.string_of_uint (Decimal.D7 d'))
          | change (String c (NilEmpty.string_of_uint d'))
              with (NilEmpty.string_of_uint (Decimal.D8 d'))
          | change (String c (NilEmpty.string_of_uint d'))
              with (NilEmpty.string_of_uint (Decimal.D9 d')) ]
      end;
      rewrite all_digits_string_of_uint, digits_value_of_uint;
      reflexivity.
Qed.

(** Parsing the decimal text of a 64-bit integer gives the integer. *)
Lemma ParseInt64_Itoa (n : Z) :
  - 2 ^ 63 <= n <= 2 ^ 63 - 1 ->
  strconv_ParseInt64 (strconv_Itoa n) = Some n.
Proof.
  intros Hrange. destruct n as [| p | p].
  - reflexivity.
  - rewrite Itoa_pos.
    rewrite (ParseInt64_digits false (Pos.to_uint p)
               (DecimalPos.Unsigned.to_uint_nonnil p)).
    rewrite DecimalPos.Unsigned.of_to. cbn [Z.of_N].
    assert ((- 2 ^ 63 <=? Z.pos p) = true) as -> by (apply Z.leb_le; lia).
    assert ((Z.pos p <=? 2 ^ 63 - 1) = true) as -> by (apply Z.leb_le; lia).
    reflexivity.
  - rewrite Itoa_neg.
    rewrite (ParseInt64_digits true (Pos.to_uint p)
               (DecimalPos.Unsigned.to_uint_nonnil p)).
    rewrite DecimalPos.Unsigned.of_to. cbn [Z.of_N].
    change (- Z.pos p) with (Z.neg p).
    assert ((- 2 ^ 63 <=? Z.neg p) = true) as -> by (apply Z.leb_le; lia).
    assert ((Z.neg p <=? 2 ^ 63 - 1) = true) as -> by (apply Z.leb_le; lia).
    reflexivity.
Qed.

(** ** Scanning a well-formed error body *)

Lemma scan_bytes_app (s : scanner) (a b : string) :
  scan_bytes s (a +:+ b) = scan_bytes (scan_bytes s a) b.
Proof.
  revert s. induction a as [| c a IH]; intros s; [reflexivity |].
  rewrite append_cons. cbn [scan_bytes]. apply IH.
Qed.

Lemma scan_plain (s : scanner) (text : string) :
  step s = stateInString ->
  all_bytes plain_byte text = true ->
  scan_bytes s text = s.
Proof.
  intros Hstep. induction text as [| c text IH]; [reflexivity |].
  cbn [all_bytes scan_bytes]. intros H.
  apply andb_true_iff in H as [Hc Htext].
  assert (scanner_step s c = s) as ->; [| exact (IH Htext)].
  unfold scanner_step. rewrite Hstep.
  clear - Hc. unfold plain_byte in Hc.
  apply andb_true_iff in Hc as [Hc Hback].
  apply andb_true_iff in Hc as [Hc Hquote].
  apply andb_true_iff in Hc as [Hlo _].
  apply negb_true_iff in Hback, Hquote. rewrite Hquote, Hback.
  assert ((code c <? 32) = false) as -> by (apply Z.ltb_ge, Z.leb_le, Hlo).
  reflexivity.
Qed.

Lemma scan_digits (s : scanner) (digits : string) :
  all_digits digits = true ->
  scan_bytes (goto s state1) digits = goto s state1.
Proof.
  induction digits as [| c digits IH]; [reflexivity |].
  cbn [all_digits scan_bytes]. intros H.
  apply andb_true_iff in H as [Hc Hdigits].
  unfold scanner_step at 1. cbn [step goto]. rewrite Hc.
  exact (IH Hdigits).
Qed.

Lemma scan_nat_literal (s : scanner) (lit : string) :
  step s = stateBeginValue \/ step s = stateNeg ->
  nat_literal lit = true ->
  exists st, (st = state0 \/ st = state1) /\ scan_bytes s lit = goto s st.
Proof.
  intros Hstep Hlit. destruct lit as [| c digits]; [discriminate |].
  cbn [nat_literal] in Hlit. cbn [scan_bytes].
  destruct (ascii_eqb c "0") eqn:Hzero.
  - apply ascii_eqb_eq in Hzero. subst c.
    apply String.eqb_eq in Hlit. subst digits.
    exists state0. split; [left; reflexivity |].
    unfold scanner_step. destruct Hstep as [-> | ->]; reflexivity.
  - apply andb_true_iff in Hlit as [Hc Hdigits].
    exists state1. split; [right; reflexivity |].
    assert (scanner_step s c = goto s state1) as ->;
      [| exact (scan_digits s digits Hdigits)].
    unfold scanner_step. clear Hdigits.
    destruct Hstep as [-> | ->];
      destruct c as [[] [] [] [] [] [] [] []];
      vm_compute in Hc, Hzero; try discriminate; reflexivity.
Qed.

Lemma scan_int_literal (s : scanner) (lit : string) :
  step s = stateBeginValue ->
  int_literal lit = true ->
  exists st, (st = state0 \/ st = state1) /\ scan_bytes s lit = goto s st.
Proof.
  intros Hstep Hlit. destruct lit as [| c digits]; [discriminate |].
  cbn [int_literal] in Hlit.
  destruct (ascii_eqb c "-") eqn:Hminus.
  - apply ascii_eqb_eq in Hminus. subst c. cbn [scan_bytes].
    assert (scanner_step s "-" = goto s stateNeg) as ->
        by (unfold scanner_step; rewrite Hstep; reflexivity).
    destruct (scan_nat_literal (goto s stateNeg) digits
                               (or_intror eq_refl) Hlit)
      as (st & Hst & Hscan).
    exists st. split; [exact Hst | exact Hscan].
  - apply (scan_nat_literal s _ (or_introl Hstep) Hlit).
Qed.

(** The text of an error body is valid JSON when its members are plain
    and the scanner, after the text of the status, gets past the next
    member name. *)
Lemma checkValid_envelope_gen (kind title status detail : string) :
  all_bytes plain_byte kind = true ->
  all_bytes plain_byte title = true ->
  scan_bytes (scan_bytes before_value status) (dq ",'detail':'")
  = in_string ->
  all_bytes plain_byte detail = true ->
  checkValid (envelope_text kind title status detail) = None.
Proof.
  intros Hkind Htitle Hstatus Hdetail.
  unfold checkValid, envelope_text.
  rewrite !scan_bytes_app.
  change (scan_bytes scanner_reset (dq "{'type':'")) with in_string.
  rewrite (scan_plain in_string kind eq_refl Hkind).
  change (scan_bytes in_string (dq "','title':'")) with in_string.
  rewrite (scan_plain in_string title eq_refl Htitle).
  change (scan_bytes in_string (dq "','status':")) with before_value.
  rewrite Hstatus.
  rewrite (scan_plain in_string detail eq_refl Hdetail). reflexivity.
Qed.

Lemma scan_status_int (status : string) :
  int_literal status = true ->
  scan_bytes (scan_bytes before_value status) (dq ",'detail':'")
  = in_string.
Proof.
  intros Hstatus.
  destruct (scan_int_literal before_value status eq_refl Hstatus)
    as (st & [-> | ->] & ->); reflexivity.
Qed.

Lemma scan_status_quoted (text : string) :
  all_bytes plain_byte text = true ->
  scan_bytes (scan_bytes before_value (quoted text)) (dq ",'detail':'")
  = in_string.
Proof.
  intros Htext. unfold quoted. cbn [scan_bytes].
  change (scanner_step before_value quote_byte) with in_string.
  rewrite scan_bytes_app, (scan_plain in_string text eq_refl Htext).
  reflexivity.
Qed.

(** ** Decoding a well-formed error body *)

Lemma plain_byte_tests (c : ascii) :
  plain_byte c = true ->
  ascii_eqb c "\" = false /\ ascii_eqb c quote_byte = false
  /\ (code c <? 32) = false /\ (code c <? 128) = true.
Proof. by_byte c. Qed.

Lemma lex_string_plain (text rest : string) :
  all_bytes plain_byte text = true ->
  lex (LString false) (text +:+ String quote_byte rest)
  = TString text :: lex LIdle rest.
Proof.
  induction text as [| c text IH].
  - intros _. rewrite append_empty_l. cbn [lex]. eval_tests. reflexivity.
  - cbn [all_bytes]. intros H. apply andb_true_iff in H as [Hc Htext].
    destruct (plain_byte_tests c Hc) as (Hback & Hquote & _).
    rewrite append_cons. cbn [lex]. rewrite Hback, Hquote, (IH Htext).
    reflexivity.
Qed.

Lemma digit_tests (c : ascii) :
  is_digit c = true ->
  ascii_eqb c quote_byte = false /\ is_digit c || byte_in c ".eE+-" = true.
Proof. by_byte c. Qed.

Lemma lex_digits (digits rest : string) :
  all_digits digits = true ->
  lex LNumber (digits +:+ String "," rest)
  = TNumber digits :: TComma :: lex LIdle rest.
Proof.
  induction digits as [| c digits IH].
  - intros _. rewrite append_empty_l. reflexivity.
  - cbn [all_digits]. intros H. apply andb_true_iff in H as [Hc Hdigits].
    destruct (digit_tests c Hc) as [_ Hnum].
    rewrite append_cons. cbn [lex]. rewrite Hnum, (IH Hdigits).
    reflexivity.
Qed.

Lemma nat_literal_digits (lit : string) :
  nat_literal lit = true ->
  exists c digits,
    lit = String c digits /\ is_digit c = true /\ all_digits digits = true.
Proof.
  destruct lit as [| c digits]; [discriminate |]. cbn [nat_literal].
  intros H. exists c, digits. split; [reflexivity |].
  destruct (ascii_eqb c "0") eqn:Hzero.
  - apply ascii_eqb_eq in Hzero. apply String.eqb_eq in H. subst.
    split; reflexivity.
  - apply andb_true_iff in H as [Hc Hdigits]. split; [| exact Hdigits].
    clear - Hc. by_byte c.
Qed.

Lemma lex_nat_literal (lit rest : string) :
  nat_literal lit = true ->
  lex LNumber (lit +:+ String "," rest)
  = TNumber lit :: TComma :: lex LIdle rest.
Proof.
  intros Hlit.
  destruct (nat_literal_digits lit Hlit) as (c & digits & -> & Hc & Hd).
  apply lex_digits. cbn [all_digits]. rewrite Hc, Hd. reflexivity.
Qed.

Lemma lex_int_literal (lit rest : string) :
  int_literal lit = true ->
  lex LIdle (lit +:+ String "," rest)
  = TNumber lit :: TComma :: lex LIdle rest.
Proof.
  destruct lit as [| c digits]; [discriminate |]. cbn [int_literal].
  rewrite append_cons. cbn [lex].
  destruct (ascii_eqb c "-") eqn:Hminus.
  - apply ascii_eqb_eq in Hminus. subst c. intros Hlit. eval_tests.
    cbn [orb]. cbv beta iota.
    rewrite (lex_nat_literal digits rest Hlit). reflexivity.
  - intros Hlit.
    destruct (nat_literal_digits _ Hlit) as (c' & d' & [= <- <-] & Hc & Hd).
    destruct (digit_tests c Hc) as [Hquote _].
    rewrite Hquote, Hc. cbn [orb].
    rewrite (lex_digits digits rest Hd). reflexivity.
Qed.

Lemma unquote_plain (text : string) :
  all_bytes plain_byte text = true -> unquote 0 text = Some text.
Proof.
  induction text as [| c text IH]; [reflexivity |].
  cbn [all_bytes]. intros H. apply andb_true_iff in H as [Hc Htext].
  destruct (plain_byte_tests c Hc) as (Hback & Hquote & Hctl & Hascii).
  cbn [unquote]. rewrite Hback, Hquote, Hctl, Hascii. cbn [orb].
  rewrite (IH Htext). reflexivity.
Qed.

Lemma lex_open_quote (rest : string) :
  lex LIdle (String quote_byte rest) = lex (LString false) rest.
Proof. reflexivity. Qed.

Lemma lex_punct (c : ascii) (rest : string) :
  byte_in c "{}[]:," = true ->
  lex LIdle (String c rest) = punct c ++ lex LIdle rest.
Proof.
  intros Hc. destruct c as [[] [] [] [] [] [] [] []];
    vm_compute in Hc; try discriminate; reflexivity.
Qed.

Lemma lex_member (name value rest : string) :
  all_bytes plain_byte name = true ->
  all_bytes plain_byte value = true ->
  lex LIdle (member name value rest)
  = TString name :: TColon :: TString value :: lex LIdle rest.
Proof.
  intros Hname Hvalue. unfold member.
  rewrite lex_open_quote, (lex_string_plain name _ Hname).
  rewrite (lex_punct ":") by reflexivity.
  rewrite lex_open_quote, (lex_string_plain value _ Hvalue).
  reflexivity.
Qed.

(** The text of an error body, member by member. *)
Lemma envelope_text_members (kind title status detail : string) :
  envelope_text kind title status detail
  = String "{"
      (member "type" kind
         (String ","
            (member "title" title
               (String ","
                  (String quote_byte
                     ("status"
                      +:+ String quote_byte
                            (String ":"
                               (status
                                +:+ String ","
                                      (member "detail" detail "}"))))))))).
Proof.
  unfold envelope_text, member.
  cbn [dq ascii_eqb Ascii.eqb Bool.eqb].
  rewrite !append_cons, !append_empty_l. reflexivity.
Qed.

Lemma plain_type : all_bytes plain_byte "type" = true.
Proof. vm_compute. reflexivity. Qed.

Lemma plain_title : all_bytes plain_byte "title" = true.
Proof. vm_compute. reflexivity. Qed.

Lemma plain_status : all_bytes plain_byte "status" = true.
Proof. vm_compute. reflexivity. Qed.

Lemma plain_detail : all_bytes plain_byte "detail" = true.
Proof. vm_compute. reflexivity. Qed.

(** The tokens of the text of an error body whose status is one token. *)
Lemma lex_envelope_gen (kind title status detail : string) (tok : token) :
  all_bytes plain_byte kind = true ->
  all_bytes plain_byte title = true ->
  (forall rest,
      lex LIdle (status +:+ String "," rest)
      = tok :: TComma :: lex LIdle rest) ->
  all_bytes plain_byte detail = true ->
  lex LIdle (envelope_text kind title status detail)
  = [TObjectBegin;
     TString "type"; TColon; TString kind; TComma;
     TString "title"; TColon; TString title; TComma;
     TString "status"; TColon; tok; TComma;
     TString "detail"; TColon; TString detail; TObjectEnd].
Proof.
  intros Hkind Htitle Hstatus Hdetail.
  rewrite envelope_text_members.
  rewrite (lex_punct "{") by reflexivity.
  match goal with
  | |- context [member "type" kind ?r] =>
    rewrite (lex_member "type" kind r plain_type Hkind)
  end.
  rewrite (lex_punct ",") by reflexivity.
  match goal with
  | |- context [member "title" title ?r] =>
    rewrite (lex_member "title" title r plain_title Htitle)
  end.
  rewrite (lex_punct ",") by reflexivity.
  rewrite lex_open_quote.
  match goal with
  | |- context [lex (LString false) ("status" +:+ String quote_byte ?r)] =>
    rewrite (lex_string_plain "status" r plain_status)
  end.
  rewrite (lex_punct ":") by reflexivity.
  rewrite Hstatus.
  rewrite (lex_member "detail" detail "}" plain_detail Hdetail).
  reflexivity.
Qed.

Lemma lex_quoted (text rest : string) :
  all_bytes plain_byte text = true ->
  lex LIdle (quoted text +:+ String "," rest)
  = TString text :: TComma :: lex LIdle rest.
Proof.
  intros Htext. unfold quoted.
  rewrite append_cons, append_assoc, append_cons, append_empty_l.
  rewrite lex_open_quote, (lex_string_plain text _ Htext).
  rewrite (lex_punct ",") by reflexivity. reflexivity.
Qed.

Lemma decode_string_member
      (name value : string) (f : field) (d : decodeState)
      (rest : list token) :
  all_bytes plain_byte name = true ->
  find_field name = Some f ->
  f <> fStatus ->
  all_bytes plain_byte value = true ->
  decode_object WKey d (TString name :: TColon :: TString value :: rest)
  = decode_object WNext
      {| target := set_string f value (target d);
         savedError := savedError d |} rest.
Proof.
  intros Hname Hfield Hf Hvalue. cbn [decode_object].
  rewrite (unquote_plain name Hname), Hfield. unfold literalStore.
  rewrite (unquote_plain value Hvalue).
  destruct f; [reflexivity .. | congruence | reflexivity].
Qed.

Lemma decode_status_member
      (lit : string) (n : Z) (d : decodeState) (rest : list token) :
  strconv_ParseInt64 lit = Some n ->
  decode_object WKey d (TString "status" :: TColon :: TNumber lit :: rest)
  = decode_object WNext
      {| target := set_int n (target d); savedError := savedError d |} rest.
Proof.
  intros Hparse. cbn [decode_object].
  rewrite (unquote_plain "status" plain_status).
  change (find_field "status") with (Some fStatus).
  unfold literalStore. rewrite Hparse. reflexivity.
Qed.

Lemma decode_next_comma (d : decodeState) (rest : list token) :
  decode_object WNext d (TComma :: rest) = decode_object WKey d rest.
Proof. reflexivity. Qed.

(** Decoding the text of an error body with plain members stores all
    four of them and reports no error. *)
Lemma json_Unmarshal_envelope
      (kind title status detail : string) (n : Z) (v : ErrorResponse) :
  all_bytes plain_byte kind = true ->
  all_bytes plain_byte title = true ->
  int_literal status = true ->
  strconv_ParseInt64 status = Some n ->
  all_bytes plain_byte detail = true ->
  json_Unmarshal (envelope_text kind title status detail) v
  = ({| Type_ := kind; Title := title; Status := n; Detail := detail |},
     None).
Proof.
  intros Hkind Htitle Hstatus Hparse Hdetail. unfold json_Unmarshal.
  rewrite (checkValid_envelope_gen kind title status detail
             Hkind Htitle (scan_status_int status Hstatus) Hdetail).
  rewrite (lex_envelope_gen kind title status detail (TNumber status)
             Hkind Htitle (fun rest => lex_int_literal status rest Hstatus)
             Hdetail).
  cbn [decode_value].
  rewrite (decode_string_member "type" kind fType _ _ plain_type eq_refl
             ltac:(discriminate) Hkind).
  rewrite decode_next_comma.
  rewrite (decode_string_member "title" title fTitle _ _ plain_title
             eq_refl ltac:(discriminate) Htitle).
  rewrite decode_next_comma.
  rewrite (decode_status_member status n _ _ Hparse).
  rewrite decode_next_comma.
  rewrite (decode_string_member "detail" detail fDetail _ _ plain_detail
             eq_refl ltac:(discriminate) Hdetail).
  reflexivity.
Qed.

Lemma decode_status_string
      (value : string) (d : decodeState) (rest : list token) :
  all_bytes plain_byte value = true ->
  decode_object WKey d (TString "status" :: TColon :: TString value :: rest)
  = decode_object WNext
      (saveError d (json_UnmarshalTypeError "string")) rest.
Proof.
  intros Hvalue. cbn [decode_object].
  rewrite (unquote_plain "status" plain_status).
  change (find_field "status") with (Some fStatus).
  unfold literalStore. rewrite (unquote_plain value Hvalue). reflexivity.
Qed.

(** Decoding the text of an error body whose status is a JSON string:
    the three texts are stored, the status is left as it was, and the
    error says so. *)
Lemma json_Unmarshal_quoted_status
      (kind title status detail : string) (v : ErrorResponse) :
  all_bytes plain_byte kind = true ->
  all_bytes plain_byte title = true ->
  all_bytes plain_byte status = true ->
  all_bytes plain_byte detail = true ->
  json_Unmarshal (envelope_text kind title (quoted status) detail) v
  = ({| Type_ := kind; Title := title; Status := Status v;
        Detail := detail |},
     Some (json_UnmarshalTypeError "string")).
Proof.
  intros Hkind Htitle Hstatus Hdetail. unfold json_Unmarshal.
  rewrite (checkValid_envelope_gen kind title (quoted status) detail
             Hkind Htitle (scan_status_quoted status Hstatus) Hdetail).
  rewrite (lex_envelope_gen kind title (quoted status) detail
             (TString status) Hkind Htitle
             (fun rest => lex_quoted status rest Hstatus) Hdetail).
  cbn [decode_value].
  rewrite (decode_string_member "type" kind fType _ _ plain_type eq_refl
             ltac:(discriminate) Hkind).
  rewrite decode_next_comma.
  rewrite (decode_string_member "title" title fTitle _ _ plain_title
             eq_refl ltac:(discriminate) Htitle).
  rewrite decode_next_comma.
  rewrite (decode_status_string status _ _ Hstatus).
  rewrite decode_next_comma.
  unfold saveError. cbn [savedError target].
  rewrite (decode_string_member "detail" detail fDetail _ _ plain_detail
             eq_refl ltac:(discriminate) Hdetail).
  reflexivity.
Qed.

(** X14.  Outside the success band, a body of the form
    [{"type":"<kind>","title":"<title>","status":<n>,"detail":"<detail>"}],
    with [n] a 64-bit integer in decimal and the three texts free of
    quotes, backslashes and bytes outside printable ASCII, comes back as
    the [ErrorResponse] with exactly these four values, whose message is
    [Error <n> <title> (<detail>)]. *)
Theorem checkResponse_envelope
        (code : Z) (header : list (string * string))
        (kind title detail : string) (n : Z) :
  ~ (200 <= code <= 299) ->
  all_bytes plain_byte kind = true ->
  all_bytes plain_byte title = true ->
  all_bytes plain_byte detail = true ->
  - 2 ^ 63 <= n <= 2 ^ 63 - 1 ->
  let e := {| Type_ := kind; Title := title; Status := n;
              Detail := detail |} in
  checkResponse
    {| StatusCode := code; Header := header;
       ResponseBody :=
         {| content := envelope_text kind title (strconv_Itoa n) detail;
            read_error := None |} |}
  = Some (ErrorResponse_ptr e)
  /\ Error e
     = "Error " +:+ strconv_Itoa n +:+ " " +:+ title
       +:+ " (" +:+ detail +:+ ")".
Proof.
  intros Hband Hkind Htitle Hdetail Hrange. cbv zeta. split.
  - rewrite checkResponse_outside_band by exact Hband.
    cbn [ResponseBody read_error content].
    rewrite (json_Unmarshal_envelope kind title (strconv_Itoa n) detail n
               new_ErrorResponse Hkind Htitle (int_literal_Itoa n)
               (ParseInt64_Itoa n Hrange) Hdetail).
    reflexivity.
  - apply Error_format.
Qed.

Lemma checkResponse_envelope_witness :
  ~ (200 <= 400 <= 299)
  /\ all_bytes plain_byte "about:blank" = true
  /\ all_bytes plain_byte "Member Exists" = true
  /\ all_bytes plain_byte "a@b.com is already a list member." = true
  /\ - 2 ^ 63 <= 400 <= 2 ^ 63 - 1
  /\ let e := {| Type_ := "about:blank"; Title := "Member Exists";
                 Status := 400;
                 Detail := "a@b.com is already a list member." |} in
     checkResponse
       {| StatusCode := 400; Header := [];
          ResponseBody :=
            {| content :=
                 envelope_text "about:blank" "Member Exists"
                               (strconv_Itoa 400)
                               "a@b.com is already a list member.";
               read_error := None |} |}
     = Some (ErrorResponse_ptr e)
     /\ Error e
        = "Error " +:+ strconv_Itoa 400 +:+ " " +:+ "Member Exists"
          +:+ " (" +:+ "a@b.com is already a list member." +:+ ")".
Proof.
  split; [lia |]. split; [reflexivity |]. split; [reflexivity |].
  split; [reflexivity |]. split; [lia |].
  apply (checkResponse_envelope 400 [] "about:blank" "Member Exists"
           "a@b.com is already a list member." 400);
    first [reflexivity | lia].
Defined.

(** X15.  Outside the success band, a body like the one above but with
    the status written as a JSON string
    ([..."status":"<status>"...]) is not rejected as a whole: the
    [ErrorResponse] returned has the type, the title and the detail of the
    body, and status 0. *)
Theorem checkResponse_quoted_status
        (code : Z) (header : list (string * string))
        (kind title status detail : string) :
  ~ (200 <= code <= 299) ->
  all_bytes plain_byte kind = true ->
  all_bytes plain_byte title = true ->
  all_bytes plain_byte status = true ->
  all_bytes plain_byte detail = true ->
  checkResponse
    {| StatusCode := code; Header := header;
       ResponseBody :=
         {| content := envelope_text kind title (quoted status) detail;
            read_error := None |} |}
  = Some (ErrorResponse_ptr
            {| Type_ := kind; Title := title; Status := 0;
               Detail := detail |}).
Proof.
  intros Hband Hkind Htitle Hstatus Hdetail.
  rewrite checkResponse_outside_band by exact Hband.
  cbn [ResponseBody read_error content].
  rewrite (json_Unmarshal_quoted_status kind title status detail
             new_ErrorResponse Hkind Htitle Hstatus Hdetail).
  reflexivity.
Qed.

Lemma checkResponse_quoted_status_witness :
  ~ (200 <= 404 <= 299)
  /\ all_bytes plain_byte "about:blank" = true
  /\ all_bytes plain_byte "Resource Not Found" = true
  /\ all_bytes plain_byte "404" = true
  /\ all_bytes plain_byte "The requested resource could not be found."
     = true
  /\ checkResponse
       {| StatusCode := 404; Header := [];
          ResponseBody :=
            {| content :=
                 envelope_text "about:blank" "Resource Not Found"
                   (quoted "404")
                   "The requested resource could not be found.";
               read_error := None |} |}
     = Some (ErrorResponse_ptr
               {| Type_ := "about:blank"; Title := "Resource Not Found";
                  Status := 0;
                  Detail := "The requested resource could not be found." |}).
Proof.
  split; [lia |]. split; [reflexivity |]. split; [reflexivity |].
  split; [reflexivity |]. split; [reflexivity |].
  apply (checkResponse_quoted_status 404 [] "about:blank"
           "Resource Not Found" "404"
           "The requested resource could not be found.");
    first [reflexivity | lia].
Defined.

(** ** More on credentials and list identifiers *)

(** X16.  For a credential with a data centre of letters and digits, the
    base URL of the client, written out, is
    [https://<dc>.api.mailchimp.com/3.0]. *)
Theorem NewClient_base_URL_text
        (key region : string) (httpClient : option http_Client) (c : Client) :
  strings_Contains1 key "-" = false ->
  all_bytes alnum_byte region = true ->
  fst (NewClient (key +:+ "-" +:+ region) httpClient) = Some c ->
  Stringer_URL (GetBaseURL c)
  = "https://" +:+ region +:+ ".api.mailchimp.com/3.0".
Proof.
  intros Hkey Hregion Hc.
  rewrite (NewClient_plain key region httpClient Hkey Hregion) in Hc.
  cbn [fst] in Hc. injection Hc as <-.
  cbn [GetBaseURL baseURL Stringer_URL].
  rewrite URL_String_https.
  - rewrite append_assoc. reflexivity.
  - rewrite all_bytes_app.
    rewrite (all_bytes_impl _ _ region alnum_host_byte Hregion).
    reflexivity.
  - reflexivity.
  - right. reflexivity.
  - right. discriminate.
Qed.

Lemma NewClient_base_URL_text_witness :
  strings_Contains1 "abc123" "-" = false
  /\ all_bytes alnum_byte "us11" = true
  /\ fst (NewClient ("abc123" +:+ "-" +:+ "us11") None) = Some sample_client
  /\ Stringer_URL (GetBaseURL sample_client)
     = "https://" +:+ "us11" +:+ ".api.mailchimp.com/3.0".
Proof.
  split; [reflexivity |]. split; [reflexivity |].
  split; [vm_compute; reflexivity |].
  apply (NewClient_base_URL_text "abc123" "us11" None sample_client);
    [reflexivity | reflexivity | vm_compute; reflexivity].
Defined.

(** X17.  A credential whose data centre holds a control byte (a
    trailing line feed, say) and no [#] is refused although it has two
    segments: [NewClient] returns no client and the error of [url.Parse]
    for [https://<dc>.api.mailchimp.com/3.0]. *)
Theorem NewClient_control_byte
        (key region : string) (httpClient : option http_Client) :
  strings_Contains1 key "-" = false ->
  strings_Contains1 region "-" = false ->
  strings_Contains1 region "#" = false ->
  stringContainsCTLByte region = true ->
  exists inner : error,
    NewClient (key +:+ "-" +:+ region) httpClient
    = (None,
       Some (url_Error "parse"
                       ("https://" +:+ region +:+ ".api.mailchimp.com/3.0")
                       inner)).
Proof.
  intros Hkey Hdash Hhash Hctl. unfold NewClient.
  change (key +:+ "-" +:+ region) with (key +:+ String "-" region).
  rewrite (Split_two key region "-" Hkey Hdash).
  cbn [length Nat.eqb negb nth].
  assert (fmt_Sprintf "https://%s.api.mailchimp.com/3.0" [AString region]
          = "https://" +:+ region +:+ ".api.mailchimp.com/3.0") as ->.
  { unfold fmt_Sprintf. cbn [fmt_Sprintf_aux ascii_eqb Ascii.eqb Bool.eqb].
    reflexivity. }
  unfold url_Parse.
  rewrite Cut1_absent
    by (rewrite !Contains1_app, Hhash; reflexivity).
  unfold url_parse.
  rewrite !CTL_app, Hctl. cbn [orb].
  eexists. reflexivity.
Qed.

Lemma NewClient_control_byte_witness :
  let region := "us11" +:+ String (byte_of 10) EmptyString in
  strings_Contains1 "abc123" "-" = false
  /\ strings_Contains1 region "-" = false
  /\ strings_Contains1 region "#" = false
  /\ stringContainsCTLByte region = true
  /\ exists inner : error,
       NewClient ("abc123" +:+ "-" +:+ region) None
       = (None,
          Some (url_Error "parse"
                  ("https://" +:+ region +:+ ".api.mailchimp.com/3.0")
                  inner)).
Proof.
  cbv zeta. split; [reflexivity |]. split; [reflexivity |].
  split; [reflexivity |]. split; [reflexivity |].
  apply (NewClient_control_byte "abc123"
           ("us11" +:+ String (byte_of 10) EmptyString) None);
    reflexivity.
Defined.

Lemma Cut1_app (a b : string) (c : ascii) :
  strings_Contains1 a c = false ->
  strings_Cut1 (a +:+ String c b) c = (a, b, true).
Proof.
  induction a as [| d a IH].
  - intros _. rewrite append_empty_l. cbn [strings_Cut1].
    rewrite ascii_eqb_refl. reflexivity.
  - cbn [strings_Contains1]. intros H.
    apply orb_false_elim in H as [Hd Ha].
    rewrite append_cons. cbn [strings_Cut1].
    rewrite ascii_eqb_sym, Hd, (IH Ha). reflexivity.
Qed.

Lemma cut_last_app (a b : string) (c : ascii) :
  strings_Contains1 b c = false ->
  cut_last (a +:+ String c b) c = Some (a, b).
Proof.
  intros Hb. induction a as [| d a IH].
  - rewrite append_empty_l. cbn [cut_last].
    rewrite (cut_last_absent b c Hb), ascii_eqb_refl. reflexivity.
  - rewrite append_cons. cbn [cut_last]. rewrite IH. reflexivity.
Qed.

(** Parsing a plain [https] URL with a query. *)
Lemma url_Parse_https_query (h p q : string) :
  all_bytes host_byte h = true ->
  all_bytes path_byte p = true ->
  p = EmptyString \/ strings_HasPrefix p "/" = true ->
  all_bytes path_byte q = true ->
  q <> EmptyString ->
  url_Parse ("https://" +:+ h +:+ p +:+ String "?" q)
  = inl {| Scheme := "https"; Opaque := EmptyString; User := None;
           Host := h; Path := p; RawPath := EmptyString;
           OmitHost := false; ForceQuery := false; RawQuery := q;
           Fragment := EmptyString; RawFragment := EmptyString |}.
Proof.
  intros Hh Hp Hroot Hq Hne.
  pose proof (all_bytes_impl _ _ h host_path_byte Hh) as Hh'.
  unfold url_Parse.
  assert (strings_Contains1 ("https://" +:+ h +:+ p +:+ String "?" q) "#"
          = false) as Hf.
  { rewrite !Contains1_app,
      (path_bytes_contains h "#" eq_refl Hh'),
      (path_bytes_contains p "#" eq_refl Hp).
    cbn [strings_Contains1].
    rewrite (path_bytes_contains q "#" eq_refl Hq). reflexivity. }
  rewrite (Cut1_absent _ _ Hf).
  unfold url_parse.
  assert (stringContainsCTLByte ("https://" +:+ h +:+ p +:+ String "?" q)
          = false) as ->.
  { rewrite !CTL_app, (path_bytes_no_CTL h Hh'), (path_bytes_no_CTL p Hp).
    cbn [stringContainsCTLByte]. rewrite (path_bytes_no_CTL q Hq).
    reflexivity. }
  assert (String.eqb ("https://" +:+ h +:+ p +:+ String "?" q) EmptyString
          = false) as -> by reflexivity.
  assert (String.eqb ("https://" +:+ h +:+ p +:+ String "?" q) "*" = false)
    as -> by reflexivity.
  assert (getScheme ("https://" +:+ h +:+ p +:+ String "?" q)
          = ("https", "//" +:+ h +:+ p +:+ String "?" q, None)) as ->
      by reflexivity.
  cbv beta iota.
  assert (strings_ToLower "https" = "https") as -> by reflexivity.
  assert ("//" +:+ h +:+ p +:+ String "?" q
          = ("//" +:+ h +:+ p) +:+ String "?" q) as ->
      by (rewrite !append_assoc; reflexivity).
  assert (strings_Contains1 ("//" +:+ h +:+ p) "?" = false) as Hno.
  { rewrite !Contains1_app,
      (path_bytes_contains h "?" eq_refl Hh'),
      (path_bytes_contains p "?" eq_refl Hp). reflexivity. }
  unfold strings_HasSuffix1.
  rewrite (cut_last_app _ q "?" (path_bytes_contains q "?" eq_refl Hq)).
  destruct q as [| x q]; [congruence |].
  cbn [andb]. rewrite (Cut1_app _ _ "?" Hno). cbv beta iota.
  assert (strings_HasPrefix ("//" +:+ h +:+ p) "/" = true) as ->
      by reflexivity.
  rewrite (HasPrefix_app "//").
  assert (String.eqb "https" EmptyString = false) as -> by reflexivity.
  cbn [negb andb orb].
  assert (drop 2 ("//" +:+ h +:+ p) = h +:+ p) as ->
      by (apply (drop_app "//")).
  pose proof (host_bytes_contains h "/" eq_refl Hh) as Hslash.
  destruct (rooted_cases p Hroot) as [-> | [p' ->]].
  - rewrite append_empty_r, (Index1_absent h "/" Hslash).
    rewrite (parseAuthority_plain h Hh), setPath_plain by reflexivity.
    reflexivity.
  - rewrite (Index1_app h p' "/" Hslash), take_app, drop_app.
    rewrite (parseAuthority_plain h Hh), setPath_plain by exact Hp.
    reflexivity.
Qed.

Section Unescaped.

Context {E : Collaborators}.

(** The request [do] sends once the body is encoded and the URL parses. *)
Lemma do_sent_parsed
      (c : Client) (method path : string) (body : option Any) (w : World)
      (u : URL) :
  validMethod method = true ->
  match body with Some b => snd (json_Encode b) | None => None end = None ->
  url_Parse (Stringer_URL (GetBaseURL c) +:+ path) = inl u ->
  exists req : Request,
    sent (snd (do c method path body w)) = sent w ++ [(client c, req)]
    /\ Method req = method
    /\ RequestHost req = removeEmptyPort (Host u)
    /\ Path (RequestURL req) = Path u
    /\ RawQuery (RequestURL req) = RawQuery u.
Proof.
  intros Hm Henc Hparse. unfold do.
  assert (match body with
          | Some b => let '(bytes, err) := json_Encode b in (Some bytes, err)
          | None => (None, None)
          end = (encoded_body body, None)) as ->.
  { destruct body as [b |]; [| reflexivity].
    cbn [encoded_body]. destruct (json_Encode b) as [bytes err].
    cbn [snd] in Henc. subst err. reflexivity. }
  rewrite Sprintf_two. unfold http_NewRequest.
  assert (String.eqb method EmptyString = false) as ->.
  { destruct method; [discriminate Hm | reflexivity]. }
  rewrite Hm, Hparse. cbn [negb].
  eexists. split.
  - unfold http_Do. destruct (roundTrip _ _ _) as [resp | e].
    + destruct (checkResponse resp); [reflexivity |].
      destruct (json_Decode _); reflexivity.
    + reflexivity.
  - repeat split.
Qed.

(** X18.  The list identifier is copied into the URL as it is.  With a
    question mark in it, [<a>?<b>], the request goes to the path
    [.../lists/<a>] and carries the query [<b>/members/]: what follows the
    question mark leaves the path. *)
Theorem Subscribe_list_id_with_query
        (c : Client) (h p0 email a b : string) (w : World) :
  baseURL c = Some (https_URL h p0) ->
  all_bytes host_byte h = true ->
  all_bytes path_byte p0 = true ->
  strings_HasPrefix p0 "/" = true ->
  all_bytes path_byte a = true ->
  all_bytes path_byte b = true ->
  snd (json_Encode (ptr_map (subscription email))) = None ->
  exists req : Request,
    sent (snd (Subscribe c email (a +:+ "?" +:+ b) w))
    = sent w ++ [(client c, req)]
    /\ Method req = "POST"
    /\ RequestHost req = h
    /\ Path (RequestURL req) = p0 +:+ "/lists/" +:+ a
    /\ RawQuery (RequestURL req) = b +:+ "/members/".
Proof.
  intros Hbase Hh Hp0 Hroot Ha Hb Henc. unfold Subscribe.
  rewrite Sprintf_lists.
  assert (Hurl :
            url_Parse (Stringer_URL (GetBaseURL c)
                       +:+ "/lists/" +:+ (a +:+ "?" +:+ b) +:+ "/members/")
            = inl {| Scheme := "https"; Opaque := EmptyString; User := None;
                     Host := h; Path := p0 +:+ "/lists/" +:+ a;
                     RawPath := EmptyString; OmitHost := false;
                     ForceQuery := false; RawQuery := b +:+ "/members/";
                     Fragment := EmptyString;
                     RawFragment := EmptyString |}).
  { unfold GetBaseURL. rewrite Hbase. cbn [Stringer_URL].
    rewrite URL_String_https;
      [| exact Hh | exact Hp0 | right; exact Hroot
       | right; destruct p0; [discriminate Hroot | discriminate]].
    assert (("https://" +:+ h +:+ p0)
            +:+ "/lists/" +:+ (a +:+ "?" +:+ b) +:+ "/members/"
            = "https://" +:+ h +:+ (p0 +:+ "/lists/" +:+ a)
              +:+ String "?" (b +:+ "/members/")) as ->.
    { rewrite !append_assoc. reflexivity. }
    apply url_Parse_https_query.
    - exact Hh.
    - rewrite !all_bytes_app, Hp0, Ha. reflexivity.
    - right. destruct p0 as [| x p0]; [discriminate Hroot |].
      unfold strings_HasPrefix in *. rewrite append_cons, prefix_one.
      rewrite prefix_one in Hroot. exact Hroot.
    - rewrite all_bytes_app, Hb. reflexivity.
    - destruct b; discriminate. }
  destruct (do_sent_parsed c "POST" _ (Some (ptr_map (subscription email)))
                           w _ validMethod_POST Henc Hurl)
    as (req & Hsent & Hm & Hhost & Hpath & Hquery).
  exists req. split; [exact Hsent |]. split; [exact Hm |].
  split; [| split; [exact Hpath | exact Hquery]].
  rewrite Hhost. cbn [Host]. unfold removeEmptyPort.
  rewrite (cut_last_absent h ":")
    by (apply (all_bytes_not_contains host_byte); [reflexivity | exact Hh]).
  reflexivity.
Qed.

End Unescaped.

Lemma Subscribe_list_id_with_query_witness :
  let h := "us11.api.mailchimp.com" in
  baseURL sample_client = Some (https_URL h "/3.0")
  /\ all_bytes host_byte h = true
  /\ all_bytes path_byte "/3.0" = true
  /\ strings_HasPrefix "/3.0" "/" = true
  /\ all_bytes path_byte "b1a2c3" = true
  /\ all_bytes path_byte "x" = true
  /\ snd (json_Encode (ptr_map (subscription "a@b.com"))) = None
  /\ exists req : Request,
       sent (snd (Subscribe sample_client "a@b.com"
                            ("b1a2c3" +:+ "?" +:+ "x") empty_World))
       = sent empty_World ++ [(client sample_client, req)]
       /\ Method req = "POST"
       /\ RequestHost req = h
       /\ Path (RequestURL req) = "/3.0" +:+ "/lists/" +:+ "b1a2c3"
       /\ RawQuery (RequestURL req) = "x" +:+ "/members/".
Proof.
  cbv zeta.
  split; [reflexivity |]. split; [reflexivity |]. split; [reflexivity |].
  split; [reflexivity |]. split; [reflexivity |]. split; [reflexivity |].
  split; [reflexivity |].
  apply (@Subscribe_list_id_with_query double sample_client
           "us11.api.mailchimp.com" "/3.0" "a@b.com" "b1a2c3" "x"
           empty_World);
    reflexivity.
Defined.

(** ** Malformed escapes in a list identifier *)

Lemma raw_path_bytes_no_CTL (s : string) :
  all_bytes raw_path_byte s = true -> stringContainsCTLByte s = false.
Proof.
  induction s as [| c s IH]; [reflexivity |].
  cbn [all_bytes stringContainsCTLByte]. intros H.
  apply andb_true_iff in H as [Hc Hs]. rewrite (IH Hs).
  clear - Hc. by_byte c.
Qed.

Lemma path_raw_byte (c : ascii) : path_byte c = true -> raw_path_byte c = true.
Proof. unfold raw_path_byte. intros ->. reflexivity. Qed.

(** Parsing [https://<host><path>] for a path that may hold percent
    signs: everything but the path is settled, and [setPath] decides. *)
Lemma url_parse_https_raw (h p : string) :
  all_bytes host_byte h = true ->
  all_bytes raw_path_byte p = true ->
  p = EmptyString \/ strings_HasPrefix p "/" = true ->
  url_parse ("https://" +:+ h +:+ p) false
  = match setPath (https_URL h EmptyString) p with
    | (_, Some err) => inr err
    | (u, None) => inl u
    end.
Proof.
  intros Hh Hp Hroot.
  pose proof (all_bytes_impl _ _ h host_path_byte Hh) as Hh'.
  pose proof (all_bytes_impl _ _ h path_raw_byte Hh') as Hh''.
  unfold url_parse.
  assert (stringContainsCTLByte ("https://" +:+ h +:+ p) = false) as ->.
  { rewrite !CTL_app, (raw_path_bytes_no_CTL h Hh''),
      (raw_path_bytes_no_CTL p Hp). reflexivity. }
  assert (String.eqb ("https://" +:+ h +:+ p) EmptyString = false) as ->
      by reflexivity.
  assert (String.eqb ("https://" +:+ h +:+ p) "*" = false) as ->
      by reflexivity.
  assert (getScheme ("https://" +:+ h +:+ p)
          = ("https", "//" +:+ h +:+ p, None)) as -> by reflexivity.
  cbv beta iota.
  assert (strings_ToLower "https" = "https") as -> by reflexivity.
  assert (strings_Contains1 ("//" +:+ h +:+ p) "?" = false) as Hq.
  { rewrite !Contains1_app,
      (all_bytes_not_contains raw_path_byte h "?" eq_refl Hh''),
      (all_bytes_not_contains raw_path_byte p "?" eq_refl Hp).
    reflexivity. }
  unfold strings_HasSuffix1. rewrite (cut_last_absent _ _ Hq).
  cbn [andb]. rewrite (Cut1_absent _ _ Hq). cbv beta iota.
  assert (strings_HasPrefix ("//" +:+ h +:+ p) "/" = true) as ->
      by reflexivity.
  rewrite (HasPrefix_app "//").
  assert (String.eqb "https" EmptyString = false) as -> by reflexivity.
  cbn [negb andb orb].
  assert (drop 2 ("//" +:+ h +:+ p) = h +:+ p) as ->
      by (apply (drop_app "//")).
  pose proof (host_bytes_contains h "/" eq_refl Hh) as Hslash.
  destruct (rooted_cases p Hroot) as [-> | [p' ->]].
  - rewrite append_empty_r, (Index1_absent h "/" Hslash).
    rewrite (parseAuthority_plain h Hh). reflexivity.
  - rewrite (Index1_app h p' "/" Hslash), take_app, drop_app.
    rewrite (parseAuthority_plain h Hh). reflexivity.
Qed.

Lemma unescape_check_skip (a s : string) :
  all_bytes path_byte a = true ->
  unescape_check (a +:+ s) encodePath = unescape_check s encodePath.
Proof.
  induction a as [| c a IH]; [reflexivity |].
  cbn [all_bytes]. intros H. apply andb_true_iff in H as [Hc Ha].
  rewrite append_cons. cbn [unescape_check is_host_mode andb].
  assert (ascii_eqb c "%" = false) as -> by (clear - Hc; by_byte c).
  exact (IH Ha).
Qed.

(** A percent sign that two hexadecimal digits do not follow is an
    escape error, wherever it stands in a path of plain bytes. *)
Lemma unescape_bad_escape (a b : string) :
  all_bytes path_byte a = true ->
  bad_escape b = true ->
  unescape (a +:+ "%" +:+ b +:+ "/members/") encodePath
  = (EmptyString,
     Some (url_EscapeError (take 3 ("%" +:+ b +:+ "/members/")))).
Proof.
  intros Ha Hb. unfold unescape.
  rewrite (unescape_check_skip a _ Ha).
  destruct b as [| x [| y b]].
  - reflexivity.
  - rewrite !append_cons, !append_empty_l. cbn [unescape_check].
    rewrite ascii_eqb_refl.
    assert (ishex x && ishex "/" = false) as ->
        by (destruct (ishex x); reflexivity).
    reflexivity.
  - cbn [bad_escape] in Hb. apply negb_true_iff in Hb.
    rewrite !append_cons, !append_empty_l. cbn [unescape_check].
    rewrite ascii_eqb_refl, Hb. reflexivity.
Qed.

Section BadEscape.

Context {E : Collaborators}.

(** X19.  A list identifier with a malformed percent escape ([<a>%<b>],
    where two hexadecimal digits do not follow the percent sign) makes
    [Subscribe] fail before anything is sent: it returns no value and the
    error of [url.Parse] naming the escape, and leaves the world as it
    was. *)
Theorem Subscribe_bad_escape
        (c : Client) (h p0 email a b : string) (w : World) :
  baseURL c = Some (https_URL h p0) ->
  all_bytes host_byte h = true ->
  all_bytes path_byte p0 = true ->
  strings_HasPrefix p0 "/" = true ->
  all_bytes path_byte a = true ->
  all_bytes raw_path_byte b = true ->
  bad_escape b = true ->
  snd (json_Encode (ptr_map (subscription email))) = None ->
  Subscribe c email (a +:+ "%" +:+ b) w
  = ((None,
      Some (url_Error "parse"
              ("https://" +:+ h +:+ p0 +:+ "/lists/" +:+ a +:+ "%" +:+ b
               +:+ "/members/")
              (url_EscapeError (take 3 ("%" +:+ b +:+ "/members/"))))),
     w).
Proof.
  intros Hbase Hh Hp0 Hroot Ha Hb Hbad Henc. unfold Subscribe.
  rewrite Sprintf_lists. unfold do. unfold subscription in Henc.
  destruct (json_Encode (ptr_map _)) as [bytes err].
  cbn [snd] in Henc. subst err.
  rewrite Sprintf_two. unfold GetBaseURL. rewrite Hbase.
  cbn [Stringer_URL].
  rewrite URL_String_https;
    [| exact Hh | exact Hp0 | right; exact Hroot
     | right; destruct p0; [discriminate Hroot | discriminate]].
  set (p := (p0 +:+ "/lists/" +:+ a) +:+ "%" +:+ b +:+ "/members/").
  assert (("https://" +:+ h +:+ p0)
          +:+ "/lists/" +:+ (a +:+ "%" +:+ b) +:+ "/members/"
          = "https://" +:+ h +:+ p) as ->.
  { unfold p. rewrite !append_assoc. reflexivity. }
  assert (Hp : all_bytes raw_path_byte p = true).
  { unfold p. rewrite !all_bytes_app.
    rewrite (all_bytes_impl _ _ p0 path_raw_byte Hp0),
      (all_bytes_impl _ _ a path_raw_byte Ha), Hb. reflexivity. }
  assert (Hrooted : p = EmptyString \/ strings_HasPrefix p "/" = true).
  { right. unfold p. destruct p0 as [| x p0]; [discriminate Hroot |].
    unfold strings_HasPrefix in *. rewrite !append_cons, prefix_one.
    rewrite prefix_one in Hroot. exact Hroot. }
  assert (Hfrag : strings_Contains1 ("https://" +:+ h +:+ p) "#" = false).
  { rewrite !Contains1_app.
    rewrite (host_bytes_contains h "#" eq_refl Hh).
    rewrite (all_bytes_not_contains raw_path_byte p "#" eq_refl Hp).
    reflexivity. }
  unfold http_NewRequest, url_Parse.
  cbn [String.eqb validMethod_bytes negb].
  rewrite validMethod_POST. cbn [negb].
  rewrite (Cut1_absent _ _ Hfrag).
  rewrite (url_parse_https_raw h p Hh Hp Hrooted).
  unfold setPath, p.
  rewrite (unescape_bad_escape (p0 +:+ "/lists/" +:+ a) b); cycle 1.
  { rewrite !all_bytes_app, Hp0, Ha. reflexivity. }
  { exact Hbad. }
  rewrite !append_assoc. reflexivity.
Qed.

End BadEscape.

Lemma Subscribe_bad_escape_witness :
  let h := "us11.api.mailchimp.com" in
  baseURL sample_client = Some (https_URL h "/3.0")
  /\ all_bytes host_byte h = true
  /\ all_bytes path_byte "/3.0" = true
  /\ strings_HasPrefix "/3.0" "/" = true
  /\ all_bytes path_byte "b1a2" = true
  /\ all_bytes raw_path_byte "zz" = true
  /\ bad_escape "zz" = true
  /\ snd (json_Encode (ptr_map (subscription "a@b.com"))) = None
  /\ Subscribe sample_client "a@b.com" ("b1a2" +:+ "%" +:+ "zz") empty_World
     = ((None,
         Some (url_Error "parse"
                 ("https://" +:+ h +:+ "/3.0" +:+ "/lists/" +:+ "b1a2"
                  +:+ "%" +:+ "zz" +:+ "/members/")
                 (url_EscapeError
                    (take 3 ("%" +:+ "zz" +:+ "/members/"))))),
        empty_World).
Proof.
  cbv zeta.
  split; [reflexivity |]. split; [reflexivity |]. split; [reflexivity |].
  split; [reflexivity |]. split; [reflexivity |]. split; [reflexivity |].
  split; [reflexivity |]. split; [reflexivity |].
  apply (@Subscribe_bad_escape double sample_client
           "us11.api.mailchimp.com" "/3.0" "a@b.com" "b1a2" "zz"
           empty_World);
    reflexivity.
Defined.
